(** * LokalNest: order placement and fulfilment workflow

    A shallow embedding of the cart store, the checkout page, the two
    order-creation services, the payment-intent service and the buyer's
    order card, followed by the properties of the order workflow.

    Conventions of the embedding.
    - JavaScript numbers are IEEE 754 doubles ([Double], the binary64
      format of the Standard Library's [SpecFloat]). Quantities, stock
      levels, day numbers and amounts in whole pesos are whole numbers: the
      tables and the cart hold them as integers ([Z]), on which the
      additions and multiplications of the code are exact below [2^53]
      ([double_add_of_Z], [double_mul_of_Z]). Amounts with centavos are not
      whole numbers; for them the totals of the cart and of the checkout
      page are computed in double arithmetic in [Doubles].
    - The [orders] table carries the trigger
      [update_seller_customers_on_order], which runs after every insert and
      after every update that sets [status]; [insert_order] and the status
      updates run it.
    - A backend call resolves to a [response] with a [data] and an [error]
      field, as the Supabase client does; the tables the code writes are
      fields of a [World] that is threaded through every operation, and the
      answers the code cannot determine itself (the signed-in user, an
      error reported by the backend for one call, the id given to a new
      row) come from an [Env].
    - [throw new Error(msg)] is the [Thrown msg] outcome.
    - Toasts and console output are kept only where they are the visible
      result of an operation. *)

From Stdlib Require Import ZArith List String Ascii Bool Lia SpecFloat.
From stdpp Require Import gmap strings list fin_maps sorting.
Import ListNotations.

Local Open Scope string_scope.
Local Open Scope Z_scope.

(** ** Values shared by all services *)

(** [{ data, error }] as returned by the backend client. *)
Record response (A : Type) : Type := mkResponse {
  data : option A;
  error : option string
}.
Arguments mkResponse {A} _ _.
Arguments data {A} _.
Arguments error {A} _.

Definition ok_response {A : Type} (a : A) : response A := mkResponse (Some a) None.
Definition error_response {A : Type} (msg : string) : response A := mkResponse None (Some msg).

(** Result of an [async] function: the value it resolves to, or the error
    it throws. *)
Inductive outcome (A : Type) : Type :=
| Returned (a : A)
| Thrown (msg : string).
Arguments Returned {A} _.
Arguments Thrown {A} _.

(** JavaScript truthiness of a string that may be [null] or [undefined]. *)
Definition truthy (s : option string) : bool :=
  match s with
  | Some s => negb (String.eqb s "")
  | None => false
  end.

(** [s || null] on a string. *)
Definition or_null (s : option string) : option string :=
  if truthy s then s else None.

(** [n || d] on a number that may be [null] or [undefined]. *)
Definition num_or (n : option Z) (d : Z) : Z :=
  match n with
  | Some v => if v =? 0 then d else v
  | None => d
  end.

(** Numeric coercion of a number that may be [null]: [null] counts as 0 in
    arithmetic and comparisons. *)
Definition to_number (n : option Z) : Z := num_or n 0.

(** ** JavaScript numbers

    A JavaScript number is an IEEE 754 binary64 value; [+], [*] and [/]
    round to nearest, ties to even. *)

Module Double.

Definition prec : Z := 53.
Definition emax : Z := 1024.

Definition double : Type := spec_float.

Definition add : double -> double -> double := SFadd prec emax.
Definition mul : double -> double -> double := SFmul prec emax.
Definition div : double -> double -> double := SFdiv prec emax.

(** The number an integer literal or an integer column denotes. *)
Definition of_Z (n : Z) : double := binary_normalize prec emax n 0 false.

(** The double holding the positive integer [p], for [p] below [2^53]:
    the mantissa is [p] shifted to 53 bits. *)
Definition canon (p : positive) : double :=
  S754_finite false (Z.to_pos (Z.pos p * 2 ^ (53 - Z.pos (digits2_pos p))))
              (Z.pos (digits2_pos p) - 53).

(** The number a decimal with [places] digits after the point denotes:
    the double nearest to [n / 10^places], for [n] and [10^places] below
    [2^53], where both are exact and the division rounds once.
    [decimal 1501 1] is [150.1]. *)
Definition decimal (n places : Z) : double := div (of_Z n) (of_Z (10 ^ places)).

(** The exact value of a finite double, in units of [2^-1074]. *)
Definition exact (x : double) : option Z :=
  match x with
  | S754_zero _ => Some 0
  | S754_finite s m e =>
      Some ((if s then Z.neg m else Z.pos m) * 2 ^ (e + 1074))
  | S754_infinity _ | S754_nan => None
  end.

End Double.

(** ** Cart store (src/components/buyer/shopping/Cart.tsx) *)

Module Cart.

(** A cart line. [price] and [quantity] are whole numbers here; lines
    whose price has centavos are the [Doubles.Line]s. *)
Record CartItem : Type := mkCartItem {
  id : string;
  name : string;
  price : Z;
  quantity : Z;
  image : string;
  seller : string;
  selected : bool
}.

Definition set_quantity (item : CartItem) (q : Z) : CartItem :=
  mkCartItem (id item) (name item) (price item) q (image item) (seller item)
             (selected item).

Definition set_selected (item : CartItem) (b : bool) : CartItem :=
  mkCartItem (id item) (name item) (price item) (quantity item) (image item)
             (seller item) b.

(** Columns selected from [products] by [addItem] and [updateQuantity]. *)
Record ProductData : Type := mkProductData {
  stock_quantity : option Z;
  is_available : bool;
  seller_id : option string;
  product_name : string
}.

(** [currentItems.findIndex(item => item.id === pid)] *)
Fixpoint findIndex (pid : string) (items : list CartItem) : option nat :=
  match items with
  | [] => None
  | item :: rest =>
      if String.eqb (id item) pid then Some 0%nat
      else option_map S (findIndex pid rest)
  end.

(** The state updater passed to [setItems] by [addItem]. *)
Definition addItem_update (product : CartItem) (productData : ProductData)
           (currentItems : list CartItem) : list CartItem :=
  match findIndex (id product) currentItems with
  | Some existingItemIndex =>
      match currentItems !! existingItemIndex with
      | Some existing =>
          let newQuantity := quantity existing + 1 in
          if to_number (stock_quantity productData) <? newQuantity
          then currentItems
          else <[existingItemIndex := set_quantity existing newQuantity]> currentItems
      | None => currentItems
      end
  | None =>
      currentItems ++
        [mkCartItem (id product) (name product) (price product) 1 (image product)
                    (default "" (seller_id productData)) false]
  end.

(** [addItem]: the product is looked up first; the cart changes only when
    the product is available, in stock and has a seller. *)
Definition addItem (reply : response ProductData) (product : CartItem)
           (items : list CartItem) : list CartItem :=
  match error reply with
  | Some _ => items
  | None =>
      match data reply with
      | None => items
      | Some productData =>
          if negb (is_available productData)
             || (to_number (stock_quantity productData) <=? 0)
          then items
          else if negb (truthy (seller_id productData)) then items
          else addItem_update product productData items
      end
  end.

Definition removeItem (pid : string) (items : list CartItem) : list CartItem :=
  List.filter (fun item => negb (String.eqb (id item) pid)) items.

(** [currentItems.map(item => item.id === pid ? { ...item, quantity: q } : item)] *)
Definition map_quantity (pid : string) (q : Z) (items : list CartItem) : list CartItem :=
  List.map (fun item => if String.eqb (id item) pid then set_quantity item q else item)
           items.

(** [updateQuantity]; [reply] is the answer to the stock query, which is
    only sent when the requested quantity is positive. *)
Definition updateQuantity (reply : response (option Z)) (pid : string) (q : Z)
           (items : list CartItem) : list CartItem :=
  if q <=? 0 then removeItem pid items
  else
    match error reply with
    | Some _ => items
    | None =>
        match data reply with
        | Some stock =>
            if to_number stock <? q
            then map_quantity pid (to_number stock) items
            else map_quantity pid q items
        | None => map_quantity pid q items
        end
    end.

Definition toggleItemSelection (pid : string) (items : list CartItem) : list CartItem :=
  List.map (fun item =>
              if String.eqb (id item) pid
              then set_selected item (negb (selected item)) else item)
           items.

Definition toggleAllSelection (b : bool) (items : list CartItem) : list CartItem :=
  List.map (fun item => set_selected item b) items.

Definition clearCart (items : list CartItem) : list CartItem := [].

(** [items.reduce((total, item) => total + item.price * item.quantity, 0)]
    on whole-number lines; [Doubles.selectedItemsTotal] is the same sum on
    doubles. *)
Definition subtotal (items : list CartItem) : Z :=
  List.fold_left (fun total item => total + price item * quantity item) items 0.

Definition totalPrice (items : list CartItem) : Z := subtotal items.

Definition selectedItems (items : list CartItem) : list CartItem :=
  List.filter selected items.

Definition selectedItemsTotal (items : list CartItem) : Z :=
  subtotal (selectedItems items).

(** The cart invariant: every line has a quantity of at least one. *)
Definition quantities_positive (items : list CartItem) : Prop :=
  Forall (fun item => 1 <= quantity item) items.

End Cart.

(** ** Backend tables and replies *)

(** Order status values of the [orders] table. *)
Inductive OrderStatus : Type :=
| pending | payment_approved | processing | shipped | delivered | cancelled.

Definition OrderStatus_eqb (a b : OrderStatus) : bool :=
  match a, b with
  | pending, pending | payment_approved, payment_approved
  | processing, processing | shipped, shipped
  | delivered, delivered | cancelled, cancelled => true
  | _, _ => false
  end.

(** A row of [orders]. Instants are day numbers (see [Checkout]). Columns
    the services leave out of an insert are [None]. *)
Record OrderRow : Type := mkOrderRow {
  o_id : string;
  o_buyer_id : string;
  o_seller_id : option string;
  o_status : OrderStatus;
  o_total_amount : Z;
  o_created_at : Z;
  o_updated_at : option Z;
  o_payment_method : string;
  o_payment_status : option string;
  o_shipping_address : string;
  o_billing_address : string;
  o_estimated_delivery : option Z;
  o_tracking_number : option string;
  o_tracking_url : option string;
  o_delivery_option : option string;
  o_payment_intent_id : option string
}.

Definition set_status (row : OrderRow) (s : OrderStatus) : OrderRow :=
  mkOrderRow (o_id row) (o_buyer_id row) (o_seller_id row) s (o_total_amount row)
             (o_created_at row) (o_updated_at row) (o_payment_method row)
             (o_payment_status row) (o_shipping_address row) (o_billing_address row)
             (o_estimated_delivery row) (o_tracking_number row) (o_tracking_url row)
             (o_delivery_option row) (o_payment_intent_id row).

(** The row as stored under the id the backend assigns; rows that are
    about to be inserted carry the empty id. *)
Definition set_id (row : OrderRow) (new_id : string) : OrderRow :=
  mkOrderRow new_id (o_buyer_id row) (o_seller_id row) (o_status row)
             (o_total_amount row) (o_created_at row) (o_updated_at row)
             (o_payment_method row) (o_payment_status row) (o_shipping_address row)
             (o_billing_address row) (o_estimated_delivery row) (o_tracking_number row)
             (o_tracking_url row) (o_delivery_option row) (o_payment_intent_id row).

(** A row of [order_items]. *)
Record OrderItemRow : Type := mkOrderItemRow {
  oi_order_id : string;
  oi_product_id : string;
  oi_quantity : Z;
  oi_unit_price : Z;
  oi_total_price : Z
}.

(** The columns of [products] read or written while an order is created. *)
Record ProductRow : Type := mkProductRow {
  p_stock_quantity : option Z;
  p_seller_id : option string;
  p_name : string
}.

(** A row of [inventory_logs]. *)
Record InventoryLogRow : Type := mkInventoryLogRow {
  log_product_id : string;
  log_previous_quantity : Z;
  log_new_quantity : Z;
  log_change_quantity : Z;
  log_reason : string;
  log_created_at : Z;
  log_created_by : option string
}.

(** A row of [seller_customers] without its two key columns. *)
Record SellerCustomerRow : Type := mkSellerCustomerRow {
  sc_total_orders : option Z;
  sc_total_spent : option Z;
  sc_last_purchase_date : Z;
  sc_created_at : Z;
  sc_updated_at : Z;
  sc_status : string;
  sc_tags : list string
}.

(** Remote procedure calls requested from the backend. The backend decides
    from the receiver's preferences whether a notification row results;
    titles and message texts are left out. *)
Inductive RpcCall : Type :=
| LowStockNotification (p_user_id : option string) (product_id product_name : string)
                       (current_stock threshold : Z) (order_id : string)
| NewOrderNotification (p_user_id order_id : string).

(** The tables. The rows of [seller_customers] that have a seller are
    keyed by seller and customer, a pair the table holds at most once; its
    rows whose [seller_id] is [NULL], which the pair does not identify, are
    listed in [unattributed_customers], each with its customer. *)
Record World : Type := mkWorld {
  orders : list OrderRow;
  order_items : list OrderItemRow;
  products : gmap string ProductRow;
  inventory_logs : list InventoryLogRow;
  seller_customers : gmap (string * string) SellerCustomerRow;
  rpc_calls : list RpcCall;
  unattributed_customers : list (string * SellerCustomerRow)
}.

Definition with_orders (w : World) (l : list OrderRow) : World :=
  mkWorld l (order_items w) (products w) (inventory_logs w) (seller_customers w)
          (rpc_calls w) (unattributed_customers w).
Definition with_order_items (w : World) (l : list OrderItemRow) : World :=
  mkWorld (orders w) l (products w) (inventory_logs w) (seller_customers w)
          (rpc_calls w) (unattributed_customers w).
Definition with_products (w : World) (m : gmap string ProductRow) : World :=
  mkWorld (orders w) (order_items w) m (inventory_logs w) (seller_customers w)
          (rpc_calls w) (unattributed_customers w).
Definition with_inventory_logs (w : World) (l : list InventoryLogRow) : World :=
  mkWorld (orders w) (order_items w) (products w) l (seller_customers w)
          (rpc_calls w) (unattributed_customers w).
Definition with_seller_customers (w : World)
           (m : gmap (string * string) SellerCustomerRow) : World :=
  mkWorld (orders w) (order_items w) (products w) (inventory_logs w) m
          (rpc_calls w) (unattributed_customers w).
Definition with_rpc_calls (w : World) (l : list RpcCall) : World :=
  mkWorld (orders w) (order_items w) (products w) (inventory_logs w) (seller_customers w)
          l (unattributed_customers w).
Definition with_unattributed_customers (w : World)
           (l : list (string * SellerCustomerRow)) : World :=
  mkWorld (orders w) (order_items w) (products w) (inventory_logs w) (seller_customers w)
          (rpc_calls w) l.

(** What the backend answers where the code cannot know it beforehand. The
    per-line fields are indexed by the position of the cart line the call
    is made for. *)
Record Env : Type := mkEnv {
  auth : response string;                        (* supabase.auth.getUser(): user id *)
  now : Z;                                       (* new Date() *)
  orders_insert : response string;               (* id of the inserted order *)
  order_items_insert_error : option string;
  products_select_error : nat -> option string;
  products_update_error : nat -> option string;
  inventory_logs_insert_error : nat -> option string;
  product_details_missing : nat -> bool;
  profile_by_id : response string;
  profile_by_user_id : response string;
  database_now : Z                               (* NOW() of the database *)
}.

(** *** The trigger on [orders]

    [CREATE TRIGGER update_seller_customers_on_order AFTER INSERT OR UPDATE
    OF status ON orders FOR EACH ROW EXECUTE FUNCTION
    update_seller_customers_after_order()]. The repository holds the
    function twice: first with variables named like the columns
    ([total_orders], [seller_id]), then corrected with renamed variables
    ([v_total_orders], [v_seller_id]). The corrected function is the one
    embedded here. *)

(** [FROM orders WHERE buyer_id = v_customer_id AND seller_id = v_seller_id] *)
Definition orders_of_pair (rows : list OrderRow) (v_customer_id v_seller_id : string)
  : list OrderRow :=
  List.filter (fun order =>
                 String.eqb (o_buyer_id order) v_customer_id
                 && bool_decide (o_seller_id order = Some v_seller_id))
              rows.

(** [COALESCE(SUM(total_amount), 0)] *)
Definition sum_total_amount (rows : list OrderRow) : Z :=
  List.fold_right (fun order acc => o_total_amount order + acc) 0 rows.

(** The function body for the row [new], run on the tables as they are
    after the statement. The pair's row is recounted from all its orders,
    whatever their status. When [NEW.seller_id] is [NULL] no row compares
    equal: neither a relationship nor an order is found, and a row with no
    seller, no order and nothing spent is inserted. *)
Definition update_seller_customers_after_order (env : Env) (w : World) (new : OrderRow)
  : World :=
  let v_customer_id := o_buyer_id new in
  match o_seller_id new with
  | Some v_seller_id =>
      let counted := orders_of_pair (orders w) v_customer_id v_seller_id in
      let v_total_orders := Z.of_nat (List.length counted) in
      let v_total_spent := sum_total_amount counted in
      match seller_customers w !! (v_seller_id, v_customer_id) with
      | Some existing =>
          with_seller_customers w
            (<[(v_seller_id, v_customer_id) :=
                 mkSellerCustomerRow (Some v_total_orders) (Some v_total_spent)
                                     (o_created_at new) (sc_created_at existing)
                                     (database_now env) "active" (sc_tags existing)]>
               (seller_customers w))
      | None =>
          with_seller_customers w
            (<[(v_seller_id, v_customer_id) :=
                 mkSellerCustomerRow (Some v_total_orders) (Some v_total_spent)
                                     (o_created_at new) (database_now env)
                                     (database_now env) "active" []]>
               (seller_customers w))
      end
  | None =>
      with_unattributed_customers w
        (unattributed_customers w ++
           [(v_customer_id,
             mkSellerCustomerRow (Some 0) (Some 0) (o_created_at new) (database_now env)
                                 (database_now env) "active" [])])
  end.

(** The trigger after an update that sets [status]: once for each updated
    row, after the whole statement. *)
Definition after_status_update (env : Env) (w : World) (updated : list OrderRow)
  : World :=
  List.fold_left (update_seller_customers_after_order env) updated w.

(** The tables once [row] is in [orders] and the trigger has run for it. *)
Definition order_stored (env : Env) (w : World) (row : OrderRow) : World :=
  update_seller_customers_after_order env (with_orders w (orders w ++ [row])) row.

Arguments update_seller_customers_after_order : simpl never.
Arguments after_status_update : simpl never.
Arguments order_stored : simpl never.

(** [from('orders').insert(row).select().single()]: the row is stored under
    the id the backend assigns unless the backend reports an error, and the
    trigger runs for it. *)
Definition insert_order (env : Env) (w : World) (row : OrderRow)
  : World * response OrderRow :=
  match error (orders_insert env), data (orders_insert env) with
  | None, Some new_id =>
      (order_stored env w (set_id row new_id), ok_response (set_id row new_id))
  | e, _ => (w, mkResponse None e)
  end.

(** [from('order_items').insert(rows)]: returns the error, if any. *)
Definition insert_order_items (env : Env) (w : World) (rows : list OrderItemRow)
  : World * option string :=
  match order_items_insert_error env with
  | Some e => (w, Some e)
  | None => (with_order_items w (order_items w ++ rows), None)
  end.

(** [item => ({ order_id, product_id: item.id, quantity, unit_price: item.price,
    total_price: item.price * item.quantity })] *)
Definition order_item_of (order_id : string) (item : Cart.CartItem) : OrderItemRow :=
  mkOrderItemRow order_id (Cart.id item) (Cart.quantity item) (Cart.price item)
                 (Cart.price item * Cart.quantity item).

(** ** UUID format check (both order services)

    [/^[0-9a-f]{8}-[0-9a-f]{4}-[0-9a-f]{4}-[0-9a-f]{4}-[0-9a-f]{12}$/i] *)

Definition is_hex (c : ascii) : bool :=
  let n := nat_of_ascii c in
  ((48 <=? n) && (n <=? 57) || (97 <=? n) && (n <=? 102) || (65 <=? n) && (n <=? 70))%nat.

(** Consumes exactly [n] hexadecimal characters. *)
Fixpoint hex_run (n : nat) (s : string) : option string :=
  match n with
  | O => Some s
  | S n' =>
      match s with
      | String c rest => if is_hex c then hex_run n' rest else None
      | EmptyString => None
      end
  end.

(** Matches the groups of hexadecimal characters, separated by dashes, up
    to the end of the string. *)
Fixpoint hex_groups (groups : list nat) (s : string) : bool :=
  match groups with
  | [] => false
  | [n] =>
      match hex_run n s with
      | Some EmptyString => true
      | _ => false
      end
  | n :: rest =>
      match hex_run n s with
      | Some (String "-"%char s') => hex_groups rest s'
      | _ => false
      end
  end.

Definition isValidUUID (uuid : string) : bool :=
  hex_groups [8; 4; 4; 4; 12]%nat uuid.

(** ** Order creation, cart-service variant
    ([createOrder(items, shippingAddress, billingAddress, paymentMethod)]) *)

Module CartService.

(** [updateOrCreateSellerCustomerRelationship] *)
Definition updateOrCreateSellerCustomerRelationship
           (env : Env) (w : World) (sellerId customerId : string) (totalAmount : Z)
  : World :=
  let currentDate := now env in
  match seller_customers w !! (sellerId, customerId) with
  | Some existingRecord =>
      with_seller_customers w
        (<[(sellerId, customerId) :=
             mkSellerCustomerRow
               (Some (num_or (sc_total_orders existingRecord) 0 + 1))
               (Some (num_or (sc_total_spent existingRecord) 0 + totalAmount))
               currentDate (sc_created_at existingRecord) currentDate
               "active" (sc_tags existingRecord)]> (seller_customers w))
  | None =>
      with_seller_customers w
        (<[(sellerId, customerId) :=
             mkSellerCustomerRow (Some 1) (Some totalAmount) currentDate currentDate
                                 currentDate "active" []]> (seller_customers w))
  end.

(** The part of [createOrder] that records the seller-customer
    relationship; its failures never change what [createOrder] returns. *)
Definition record_relationship (env : Env) (w : World) (sellerId : string)
           (totalWithShipping : Z) : World :=
  match error (profile_by_id env), data (profile_by_id env) with
  | None, Some customerId =>
      updateOrCreateSellerCustomerRelationship env w sellerId customerId totalWithShipping
  | _, _ =>
      match error (profile_by_user_id env), data (profile_by_user_id env) with
      | None, Some customerId =>
          updateOrCreateSellerCustomerRelationship env w sellerId customerId
                                                   totalWithShipping
      | _, _ => w
      end
  end.

Definition shippingFee : Z := 150.

Definition createOrder (env : Env) (w : World) (items : list Cart.CartItem)
           (shippingAddress billingAddress paymentMethod : string)
  : World * outcome OrderRow :=
  match error (auth env), data (auth env) with
  | None, Some user =>
      match items with
      | [] => (w, Thrown "Your cart is empty. Please add items before checkout.")
      | _ :: _ =>
          let totalAmount := Cart.subtotal items in
          let totalWithShipping := totalAmount + shippingFee in
          let paymentStatus :=
            if String.eqb paymentMethod "stripe" then "pending" else "awaiting_payment" in
          let potentialSellerId := or_null (option_map Cart.seller (head items)) in
          let validSeller :=
            match potentialSellerId with
            | Some s => if isValidUUID s then Some s else None
            | None => None
            end in
          let orderData :=
            mkOrderRow "" user validSeller processing totalWithShipping (now env) None
                       (if String.eqb paymentMethod "cod"
                        then "Cash on Delivery" else "stripe")
                       (Some paymentStatus) shippingAddress billingAddress
                       None None None None None in
          let '(w1, reply) := insert_order env w orderData in
          match error reply, data reply with
          | None, Some order =>
              let orderItems := List.map (order_item_of (o_id order)) items in
              let '(w2, itemsError) := insert_order_items env w1 orderItems in
              match itemsError with
              | Some msg => (w2, Thrown ("Failed to add order items: " ++ msg))
              | None =>
                  match validSeller with
                  | Some sellerId =>
                      (record_relationship env w2 sellerId totalWithShipping,
                       Returned order)
                  | None => (w2, Returned order)
                  end
              end
          | Some msg, _ => (w1, Thrown ("Failed to create order: " ++ msg))
          | None, None => (w1, Thrown "Failed to create order: Unknown error")
          end
      end
  | _, _ => (w, Thrown "You must be signed in to place an order")
  end.

End CartService.

(** ** Order creation, order-service variant
    ([createOrder(orderData, cartItems?)], the one the checkout page calls) *)

Module OrderService.

(** The fields of the [Partial<Order>] argument that [createOrder] reads.
    [buyer_id], [status], [created_at] and [updated_at] are overwritten
    before they are read. *)
Record OrderData : Type := mkOrderData {
  seller_id : option string;
  payment_method : option string;
  payment_status : option string;
  shipping_address : option string;
  billing_address : option string;
  total_amount : option Z;
  estimated_delivery : option Z;
  tracking_number : option string;
  tracking_url : option string;
  delivery_option : option string;
  payment_intent_id : option string
}.

Definition threshold : Z := 5.

(** [from('products').select('stock_quantity, seller_id').eq('id', pid).single()]
    for the cart line at position [i]. *)
Definition select_product (env : Env) (w : World) (i : nat) (pid : string)
  : response ProductRow :=
  match products_select_error env i with
  | Some e => error_response e
  | None =>
      match products w !! pid with
      | Some product => ok_response product
      | None => error_response "JSON object requested, multiple (or no) rows returned"
      end
  end.

(** [from('products').select('name').eq('id', pid).single()]; only [data]
    is read. *)
Definition select_product_name (env : Env) (w : World) (i : nat) (pid : string)
  : option string :=
  if product_details_missing env i then None
  else option_map p_name (products w !! pid).

(** [from('products').update({ stock_quantity }).eq('id', pid)] *)
Definition update_stock (w : World) (pid : string) (newQuantity : Z) : World :=
  with_products w
    (alter (fun product => mkProductRow (Some newQuantity) (p_seller_id product)
                                        (p_name product))
           pid (products w)).

(** [`Order fulfillment (Order #${orderId.substr(0, 8)})`] *)
Definition fulfillment_reason (orderId : string) : string :=
  "Order fulfillment (Order #" ++ String.substring 0 8 orderId ++ ")".

(** One iteration of the loop [for (const item of cartItems)], for the
    line at position [i]. *)
Definition update_inventory (env : Env) (orderId : string) (w : World) (i : nat)
           (item : Cart.CartItem) : World :=
  let reply := select_product env w i (Cart.id item) in
  match error reply with
  | Some _ => w
  | None =>
      match data reply with
      | None => w
      | Some product =>
          let previousQuantity := num_or (p_stock_quantity product) 0 in
          let newQuantity := Z.max 0 (previousQuantity - Cart.quantity item) in
          match products_update_error env i with
          | Some _ => w
          | None =>
              let w1 := update_stock w (Cart.id item) newQuantity in
              let w2 :=
                match inventory_logs_insert_error env i with
                | Some _ => w1
                | None =>
                    with_inventory_logs w1
                      (inventory_logs w1 ++
                         [mkInventoryLogRow (Cart.id item) previousQuantity newQuantity
                                            (- Cart.quantity item)
                                            (fulfillment_reason orderId) (now env)
                                            (p_seller_id product)])
                end in
              match select_product_name env w2 i (Cart.id item) with
              | Some productName =>
                  if (0 <? newQuantity) && (newQuantity <=? threshold)
                  then with_rpc_calls w2
                         (rpc_calls w2 ++
                            [LowStockNotification (p_seller_id product) (Cart.id item)
                                                  productName newQuantity threshold
                                                  orderId])
                  else w2
              | None => w2
              end
          end
      end
  end.

(** The whole loop, starting at position [i]. *)
Fixpoint update_inventories (env : Env) (orderId : string) (w : World) (i : nat)
         (cartItems : list Cart.CartItem) : World :=
  match cartItems with
  | [] => w
  | item :: rest =>
      update_inventories env orderId (update_inventory env orderId w i item) (S i) rest
  end.

(** [createNewOrderNotification]: the request is sent; its errors are
    logged and swallowed. *)
Definition createNewOrderNotification (w : World) (sellerId orderId : string) : World :=
  with_rpc_calls w (rpc_calls w ++ [NewOrderNotification sellerId orderId]).

(** First part of [createOrder]: defaults, required fields and payment
    method handling. Returns [validatedOrderData] or the validation
    error. *)
Definition validatedOrderData (env : Env) (user : string) (orderData : OrderData)
  : outcome OrderRow :=
  let status := pending in
  let payment_status0 :=
    if truthy (payment_status orderData) then payment_status orderData
    else Some "pending" in
  let billing :=
    if negb (truthy (billing_address orderData)) && truthy (shipping_address orderData)
    then shipping_address orderData else billing_address orderData in
  if negb (truthy (payment_method orderData))
  then Thrown "Payment method is required"
  else if negb (truthy (shipping_address orderData))
  then Thrown "Shipping address is required"
  else if negb (truthy billing)
  then Thrown "Billing address is required"
  else
    let method := default "" (payment_method orderData) in
    let '(method1, payment_status1) :=
      if String.eqb method "stripe"
      then ("Credit Card",
            if bool_decide (payment_status0 = Some "succeeded")
            then Some "paid" else payment_status0)
      else if String.eqb method "cod"
      then (method, Some "pending")
      else (method, payment_status0) in
    Returned
      (mkOrderRow "" user (seller_id orderData) status
                  (num_or (total_amount orderData) 0) (now env) (Some (now env))
                  method1 payment_status1
                  (default "" (shipping_address orderData)) (default "" billing)
                  (estimated_delivery orderData) (tracking_number orderData)
                  (tracking_url orderData) (delivery_option orderData)
                  (payment_intent_id orderData)).

(** Second part: [if (cartItems && cartItems.length > 0) { ... }]. A
    failed insert of the order items is logged and nothing else. *)
Definition write_items (env : Env) (w : World) (orderId : string)
           (cartItems : option (list Cart.CartItem)) : World :=
  match cartItems with
  | Some (first :: others) =>
      let items := first :: others in
      let orderItems := List.map (order_item_of orderId) items in
      let '(w2, _) := insert_order_items env w orderItems in
      update_inventories env orderId w2 0%nat items
  | _ => w
  end.

(** Third part: [if (orderData.seller_id) { await createNewOrderNotification(...) }]. *)
Definition notify_seller (w : World) (orderData : OrderData) (orderId : string) : World :=
  match seller_id orderData with
  | Some sellerId =>
      if truthy (Some sellerId)
      then createNewOrderNotification w sellerId orderId
      else w
  | None => w
  end.

Definition createOrder (env : Env) (w : World) (orderData : OrderData)
           (cartItems : option (list Cart.CartItem)) : World * outcome (option string) :=
  match data (auth env) with
  | None => (w, Returned None)
  | Some user =>
      match validatedOrderData env user orderData with
      | Thrown msg => (w, Thrown msg)
      | Returned validated =>
          let '(w1, reply) := insert_order env w validated in
          match error reply with
          | Some msg => (w1, Thrown ("Failed to create order: " ++ msg))
          | None =>
              match data reply with
              | None => (w1, Thrown "Failed to create order: No ID returned")
              | Some row =>
                  if String.eqb (o_id row) ""
                  then (w1, Thrown "Failed to create order: No ID returned")
                  else
                    let orderId := o_id row in
                    let w3 := write_items env w1 orderId cartItems in
                    let w4 := notify_seller w3 orderData orderId in
                    (w4, Returned (Some orderId))
              end
          end
      end
  end.

End OrderService.

(** ** Payment intents ([createPaymentIntent]) *)

Module StripeService.

(** Body of the request posted to the payment server. *)
Record PaymentIntentRequest : Type := mkPaymentIntentRequest {
  amount : Z;
  sellerId : option string;
  userId : string;
  items : list (string * Z)
}.

Record PaymentIntent : Type := mkPaymentIntent {
  clientSecret : string;
  paymentIntentId : string
}.

(** The payment server's answer ([None] when it cannot be reached or
    answers with an error status) and the mock intent made up otherwise. *)
Record PaymentServer : Type := mkPaymentServer {
  server_reply : option PaymentIntent;
  mock_intent : PaymentIntent
}.

Definition shippingFee : Z := 150.

Definition createPaymentIntent (env : Env) (server : PaymentServer)
           (cartItems : list Cart.CartItem) (seller : option string)
  : outcome (PaymentIntentRequest * PaymentIntent) :=
  match error (auth env), data (auth env) with
  | None, Some user =>
      let totalAmount := Cart.subtotal cartItems in
      let totalWithShipping := totalAmount + shippingFee in
      let request :=
        mkPaymentIntentRequest totalWithShipping seller user
          (List.map (fun item => (Cart.id item, Cart.quantity item)) cartItems) in
      match server_reply server with
      | Some intent => Returned (request, intent)
      | None => Returned (request, mock_intent server)
      end
  | _, _ => Thrown "You must be signed in to make a payment"
  end.

End StripeService.

(** ** Checkout page (src/pages/Checkout.tsx) *)

Module Checkout.

Record DeliveryOption : Type := mkDeliveryOption {
  id : string;
  name : string;
  description : string;
  fee : Z;
  minDays : Z;
  maxDays : Z
}.

Definition deliveryOptions : list DeliveryOption :=
  [ mkDeliveryOption "standard" "Standard Delivery" "3-5 business days" 50 3 5;
    mkDeliveryOption "express" "Express Delivery" "1-2 business days" 100 1 2;
    mkDeliveryOption "maxim" "Maxim Same-day" "Same day delivery" 150 0 1 ].

(** [deliveryOptions.find(option => option.id === selectedDeliveryOption)] *)
Definition selectedDeliveryDetails (selectedDeliveryOption : string)
  : option DeliveryOption :=
  List.find (fun option => String.eqb (id option) selectedDeliveryOption) deliveryOptions.

(** [deliveryOptions.find(...)?.fee || 50] *)
Definition selectedDeliveryFee (selectedDeliveryOption : string) : Z :=
  num_or (option_map fee (selectedDeliveryDetails selectedDeliveryOption)) 50.

(** *** Dates

    An instant is represented by its day number, day 0 being Thursday
    1 January 1970; the time of day, which [addBusinessDays] restores
    unchanged, is left out. *)

(** [Date.prototype.getDay]: 0 is Sunday, 6 is Saturday. *)
Definition getDay (date : Z) : Z := (date + 4) mod 7.

Definition isSaturday (date : Z) : bool := getDay date =? 6.
Definition isSunday (date : Z) : bool := getDay date =? 0.
Definition isWeekend (date : Z) : bool := isSunday date || isSaturday date.

(** The loop of date-fns' [addBusinessDays] over the days that are not
    part of a full week:
    [while (restDays > 0) { date += sign; if (!isWeekend(date)) restDays -= 1 }].
    [None] when [fuel] iterations do not finish it. *)
Fixpoint rest_loop (fuel : nat) (sign date restDays : Z) : option Z :=
  if restDays >? 0 then
    match fuel with
    | O => None
    | S fuel' =>
        let date' := date + sign in
        rest_loop fuel' sign date' (if isWeekend date' then restDays else restDays - 1)
    end
  else Some date.

(** [addBusinessDays(date, amount)] of the date-fns library, which the
    page imports: full weeks are added as seven days each, the remaining
    days one at a time; a start on a weekend that ends on a weekend is
    moved to the neighbouring business day. At most four days remain, and
    each takes at most three iterations. *)
Definition addBusinessDays (date amount : Z) : option Z :=
  let startedOnWeekend := isWeekend date in
  let sign := if amount <? 0 then -1 else 1 in
  let fullWeeks := Z.quot amount 5 in
  let date1 := date + fullWeeks * 7 in
  let restDays := Z.abs (Z.rem amount 5) in
  match rest_loop 12 sign date1 restDays with
  | None => None
  | Some date2 =>
      if startedOnWeekend && isWeekend date2 && negb (amount =? 0) then
        let date3 :=
          if isSaturday date2 then date2 + (if sign <? 0 then 2 else -1) else date2 in
        let date4 :=
          if isSunday date3 then date3 + (if sign <? 0 then 1 else -2) else date3 in
        Some date4
      else Some date2
  end.

(** [calculateEstimatedDelivery]: [null] when no option matches. *)
Definition calculateEstimatedDelivery (today : Z) (selectedDeliveryOption : string)
  : option Z :=
  match selectedDeliveryDetails selectedDeliveryOption with
  | None => None
  | Some details => addBusinessDays today (maxDays details)
  end.

(** Number of business days among the [n] days that follow [date]. *)
Fixpoint business_days_after (date : Z) (n : nat) : Z :=
  match n with
  | O => 0
  | S n' =>
      business_days_after date n'
      + (if isWeekend (date + Z.of_nat n) then 0 else 1)
  end.

(** *** Form state *)

Record ShippingInfo : Type := mkShippingInfo {
  fullName : string;
  address : string;
  city : string;
  province : string;
  postalCode : string;
  phone : string
}.

Inductive PaymentMethod : Type := stripe | cod.

Record State : Type := mkState {
  items : list Cart.CartItem;              (* the cart *)
  paymentMethod : PaymentMethod;
  selectedDeliveryOption : string;
  shippingInfo : ShippingInfo;
  clientSecret : option string
}.

(** What the user sees after a handler has run. *)
Inductive Feedback : Type :=
| ToastError (msg : string)
| ToastSuccess (msg : string) (orderId : option string)
| CardPaymentPending.

(** [validateShippingInfo]: the message for the first empty field, in the
    order of the keys of [shippingInfo]. *)
Definition validateShippingInfo (info : ShippingInfo) : option string :=
  option_map (fun field => "Please enter your " ++ snd field)
    (List.find (fun field => String.eqb (fst field) "")
       [ (fullName info, "full name"); (address info, "address"); (city info, "city");
         (province info, "province"); (postalCode info, "postal code");
         (phone info, "phone") ]).

Definition formattedAddress (info : ShippingInfo) : string :=
  fullName info ++ ", " ++ address info ++ ", " ++ city info ++ ", "
  ++ province info ++ " " ++ postalCode info ++ ", Phone: " ++ phone info.

Definition selectedItems (st : State) : list Cart.CartItem :=
  Cart.selectedItems (items st).

Definition totalWithShipping (st : State) : Z :=
  Cart.selectedItemsTotal (items st) + selectedDeliveryFee (selectedDeliveryOption st).

(** [selectedItems[0]?.seller || null] *)
Definition sellerId (st : State) : option string :=
  or_null (option_map Cart.seller (head (selectedItems st))).

(** [orderData] as built by [handleSubmit]. *)
Definition orderData_submit (today : Z) (st : State) : OrderService.OrderData :=
  OrderService.mkOrderData
    (sellerId st)
    (Some (match paymentMethod st with stripe => "stripe" | cod => "cod" end))
    None
    (Some (formattedAddress (shippingInfo st)))
    (Some (formattedAddress (shippingInfo st)))
    (Some (totalWithShipping st))
    (calculateEstimatedDelivery today (selectedDeliveryOption st))
    None None
    (Some (selectedDeliveryOption st))
    None.

(** [orderData] as built by [onPaymentSuccess]. *)
Definition orderData_paid (today : Z) (st : State) (completedPaymentIntentId : string)
  : OrderService.OrderData :=
  OrderService.mkOrderData
    (sellerId st)
    (Some "stripe")
    (Some "succeeded")
    (Some (formattedAddress (shippingInfo st)))
    (Some (formattedAddress (shippingInfo st)))
    (Some (totalWithShipping st))
    (calculateEstimatedDelivery today (selectedDeliveryOption st))
    None None
    (Some (selectedDeliveryOption st))
    (Some completedPaymentIntentId).

(** [handleSubmit]: returns the world, the cart and the feedback. *)
Definition handleSubmit (env : Env) (today : Z) (w : World) (st : State)
  : World * list Cart.CartItem * Feedback :=
  match validateShippingInfo (shippingInfo st) with
  | Some msg => (w, items st, ToastError msg)
  | None =>
      match selectedItems st with
      | [] => (w, items st, ToastError "No items selected for checkout")
      | _ :: _ =>
          match paymentMethod st with
          | cod =>
              match OrderService.createOrder env w (orderData_submit today st)
                                             (Some (selectedItems st)) with
              | (w', Returned orderId) =>
                  (w', Cart.clearCart (items st),
                   ToastSuccess "Order placed successfully!" orderId)
              | (w', Thrown msg) =>
                  (w', items st,
                   ToastError
                     (if String.eqb msg ""
                      then "Failed to place your COD order. Please try again."
                      else msg))
              end
          | stripe =>
              match clientSecret st with
              | None =>
                  (w, items st,
                   ToastError "Payment system is not ready yet. Please try again.")
              | Some _ => (w, items st, CardPaymentPending)
              end
          end
      end
  end.

(** [onPaymentSuccess], called by the card form once the payment went
    through. *)
Definition onPaymentSuccess (env : Env) (today : Z) (w : World) (st : State)
           (completedPaymentIntentId : string)
  : World * list Cart.CartItem * Feedback :=
  match OrderService.createOrder env w (orderData_paid today st completedPaymentIntentId)
                                 (Some (selectedItems st)) with
  | (w', Returned (Some orderId)) =>
      if String.eqb orderId ""
      then (w', items st, ToastError "Failed to create order: No order ID returned")
      else (w', Cart.clearCart (items st),
            ToastSuccess "Payment successful! Your order has been placed."
                         (Some orderId))
  | (w', Returned None) =>
      (w', items st, ToastError "Failed to create order: No order ID returned")
  | (w', Thrown msg) =>
      (w', items st,
       ToastError
         (if String.eqb msg ""
          then "Payment was successful, but there was an issue creating your order."
          else msg))
  end.

(** The effect that fetches a payment intent for the selected items. *)
Definition fetchPaymentIntent (env : Env) (server : StripeService.PaymentServer)
           (st : State)
  : option (outcome (StripeService.PaymentIntentRequest * StripeService.PaymentIntent)) :=
  match paymentMethod st, selectedItems st, clientSecret st with
  | stripe, _ :: _, None =>
      Some (StripeService.createPaymentIntent env server (selectedItems st) (sellerId st))
  | _, _, _ => None
  end.

End Checkout.

(** ** The page's amounts in double arithmetic

    The cart's [selectedItemsTotal], the checkout page's
    [totalWithShipping] and the [total_price] of an order item, computed on
    doubles as the code computes them. *)

Module Doubles.

(** The two numbers of a cart line. *)
Record Line : Type := mkLine {
  price : Double.double;
  quantity : Double.double
}.

(** A cart line of the integer embedding, as the doubles it holds. *)
Definition line_of (item : Cart.CartItem) : Line :=
  mkLine (Double.of_Z (Cart.price item)) (Double.of_Z (Cart.quantity item)).

(** [selectedItems.reduce((total, item) => total + item.price * item.quantity, 0)] *)
Definition selectedItemsTotal (selectedItems : list Line) : Double.double :=
  List.fold_left (fun total item => Double.add total (Double.mul (price item) (quantity item)))
                 selectedItems (Double.of_Z 0).

(** [selectedItemsTotal + selectedDeliveryFee] *)
Definition totalWithShipping (selectedItems : list Line) (selectedDeliveryFee : Double.double)
  : Double.double :=
  Double.add (selectedItemsTotal selectedItems) selectedDeliveryFee.

(** [total_price: item.price * item.quantity] of the order item. *)
Definition total_price (item : Line) : Double.double :=
  Double.mul (price item) (quantity item).

(** The exact sum of finite doubles, in units of [2^-1074]. *)
Definition exact_sum (amounts : list Double.double) : option Z :=
  List.fold_right (fun amount acc =>
                     match Double.exact amount, acc with
                     | Some v, Some total => Some (v + total)
                     | _, _ => None
                     end)
                  (Some 0) amounts.

End Doubles.

(** ** Buyer's order card (src/components/buyer/orders/OrderCard.tsx) *)

Module OrderCard.

(** The order shown by the card; [status] is the value read from the
    [orders] table when the list was loaded. *)
Record Order : Type := mkOrder {
  id : string;
  status : OrderStatus;
  total : Z
}.

Inductive Toast : Type :=
| ToastError (msg : string)
| ToastSuccess (msg : string).

(** [from('orders').update({ status: 'cancelled' }).eq('id', oid).eq('buyer_id', uid)] *)
Definition cancel_rows (oid uid : string) (rows : list OrderRow) : list OrderRow :=
  List.map (fun row =>
              if String.eqb (o_id row) oid && String.eqb (o_buyer_id row) uid
              then set_status row cancelled else row)
           rows.

(** The rows the update has matched. *)
Definition cancelled_rows (oid uid : string) (rows : list OrderRow) : list OrderRow :=
  List.filter (fun row => String.eqb (o_id row) oid && String.eqb (o_buyer_id row) uid)
              rows.

(** [handleCancelOrder]; [update_error] is the error the backend reports
    for the update, if any. The update sets [status], so the trigger on
    [orders] runs for the rows it has matched. *)
Definition handleCancelOrder (env : Env) (update_error : option string) (w : World)
           (order : Order) : World * Toast :=
  if negb (OrderStatus_eqb (status order) processing)
  then (w, ToastError "Only orders in processing status can be cancelled")
  else
    match data (auth env) with
    | None => (w, ToastError "You must be logged in to cancel an order")
    | Some user =>
        match update_error with
        | Some _ =>
            (w, ToastError
                  "Failed to cancel the order. Please try again or contact support.")
        | None =>
            let w1 := with_orders w (cancel_rows (id order) user (orders w)) in
            (after_status_update env w1 (cancelled_rows (id order) user (orders w1)),
             ToastSuccess "Order cancelled successfully")
        end
    end.

Definition canBeCancelled (order : Order) : bool :=
  OrderStatus_eqb (status order) processing.

End OrderCard.

(** ** Vocabulary of the properties *)

(** The [order_items] rows of one order. *)
Definition order_items_of (w : World) (orderId : string) : list OrderItemRow :=
  List.filter (fun row => String.eqb (oi_order_id row) orderId) (order_items w).

Definition sum_total_price (rows : list OrderItemRow) : Z :=
  List.fold_right (fun row acc => oi_total_price row + acc) 0 rows.

(** The [inventory_logs] rows of one product among [rows]. *)
Definition logs_of_product (pid : string) (rows : list InventoryLogRow)
  : list InventoryLogRow :=
  List.filter (fun row => String.eqb (log_product_id row) pid) rows.

(** The low-stock notification requests for one product among [calls]. *)
Definition is_low_stock_request (pid : string) (call : RpcCall) : bool :=
  match call with
  | LowStockNotification _ product_id _ _ _ _ => String.eqb product_id pid
  | NewOrderNotification _ _ => false
  end.

Definition low_stock_requests (pid : string) (calls : list RpcCall) : list RpcCall :=
  List.filter (is_low_stock_request pid) calls.

(** ** Sample data *)

Module Sample.

Definition seller_uuid : string := "123e4567-e89b-12d3-a456-426614174000".

(** One cart line: price 500, quantity 2, selected. *)
Definition basket : Cart.CartItem :=
  Cart.mkCartItem "p1" "Woven basket" 500 2 "basket.png" seller_uuid true.

Definition shipping : Checkout.ShippingInfo :=
  Checkout.mkShippingInfo "Ana Cruz" "12 Rizal St" "Cebu City" "Cebu" "6000"
                          "09171234567".

(** A backend that accepts every call. *)
Definition env : Env :=
  mkEnv (ok_response "buyer-1") 20000 (ok_response "order-0001") None
        (fun _ => None) (fun _ => None) (fun _ => None) (fun _ => false)
        (ok_response "buyer-1") (ok_response "buyer-1") 20000.

(** The same backend, except that it rejects the insert into
    [order_items]. *)
Definition env_items_rejected : Env :=
  mkEnv (ok_response "buyer-1") 20000 (ok_response "order-0001")
        (Some "new row violates row-level security policy")
        (fun _ => None) (fun _ => None) (fun _ => None) (fun _ => false)
        (ok_response "buyer-1") (ok_response "buyer-1") 20000.

(** The same backend, except that it rejects every insert into
    [inventory_logs]. *)
Definition env_logs_rejected : Env :=
  mkEnv (ok_response "buyer-1") 20000 (ok_response "order-0001") None
        (fun _ => None) (fun _ => None)
        (fun _ => Some "new row violates row-level security policy")
        (fun _ => false)
        (ok_response "buyer-1") (ok_response "buyer-1") 20000.

Definition product (stock : Z) : ProductRow :=
  mkProductRow (Some stock) (Some seller_uuid) "Woven basket".

(** A world with the one product, [stock] pieces in stock. *)
Definition world (stock : Z) : World :=
  mkWorld [] [] {[ "p1" := product stock ]} [] ∅ [] [].

(** Checkout of the basket, cash on delivery, same-day delivery. *)
Definition checkout : Checkout.State :=
  Checkout.mkState [basket] Checkout.cod "maxim" shipping None.

Definition same_day : Checkout.DeliveryOption :=
  Checkout.mkDeliveryOption "maxim" "Maxim Same-day" "Same day delivery" 150 0 1.

(** Checkout of the basket by card, standard delivery, before the
    payment intent has been fetched. *)
Definition card_checkout : Checkout.State :=
  Checkout.mkState [basket] Checkout.stripe "standard" shipping None.

(** A payment server that cannot be reached. *)
Definition payment_server : StripeService.PaymentServer :=
  StripeService.mkPaymentServer
    None (StripeService.mkPaymentIntent "mock_1_secret_a" "mock_pi_1_a").

(** The stock query answering that the product is sold out. *)
Definition sold_out : response (option Z) := ok_response (Some 0).

(** Three selected lines with centavos: 150.10, 150.20 and 150.70, one
    piece each. *)
Definition centavo_lines : list Doubles.Line :=
  [Doubles.mkLine (Double.decimal 1501 1) (Double.of_Z 1);
   Doubles.mkLine (Double.decimal 1502 1) (Double.of_Z 1);
   Doubles.mkLine (Double.decimal 1507 1) (Double.of_Z 1)].

End Sample.

(** The [inventory_logs] row the order writer builds for a cart line whose
    product row was [product] when it was read. *)
Definition fulfillment_log (env : Env) (orderId : string) (item : Cart.CartItem)
           (product : ProductRow) : InventoryLogRow :=
  let previous := num_or (p_stock_quantity product) 0 in
  mkInventoryLogRow (Cart.id item) previous (Z.max 0 (previous - Cart.quantity item))
                    (- Cart.quantity item) (OrderService.fulfillment_reason orderId)
                    (now env) (p_seller_id product).

(** ** Cart totals and the cart sidebar
    (src/components/buyer/shopping/Cart.tsx, CartSidebar.tsx) *)

Module CartSidebar.

(** [items.reduce((total, item) => total + item.quantity, 0)] *)
Definition totalItems (items : list Cart.CartItem) : Z :=
  List.fold_left (fun total item => total + Cart.quantity item) items 0.

Definition selectedItemsCount (items : list Cart.CartItem) : Z :=
  totalItems (Cart.selectedItems items).

(** [items.length > 0 && items.every(item => item.selected)] *)
Definition allSelected (items : list Cart.CartItem) : bool :=
  negb (Nat.eqb (List.length items) 0) && List.forallb Cart.selected items.

(** [selectedItemsCount > 0]; the checkout button is disabled without it. *)
Definition someSelected (items : list Cart.CartItem) : bool :=
  0 <? selectedItemsCount items.

(** The subtotal shown: [someSelected ? selectedItemsTotal : '0']. *)
Definition shownSubtotal (items : list Cart.CartItem) : Z :=
  if someSelected items then Cart.selectedItemsTotal items else 0.

(** The minus button of a line:
    [updateQuantity(item.id, Math.max(1, item.quantity - 1))],
    disabled when [item.quantity <= 1]. *)
Definition minus (reply : response (option Z)) (item : Cart.CartItem)
           (items : list Cart.CartItem) : list Cart.CartItem :=
  if Cart.quantity item <=? 1 then items
  else Cart.updateQuantity reply (Cart.id item) (Z.max 1 (Cart.quantity item - 1)) items.

(** The plus button of a line: [updateQuantity(item.id, item.quantity + 1)]. *)
Definition plus (reply : response (option Z)) (item : Cart.CartItem)
           (items : list Cart.CartItem) : list Cart.CartItem :=
  Cart.updateQuantity reply (Cart.id item) (Cart.quantity item + 1) items.

End CartSidebar.

(** ** Order queries and status updates of the order service
    ([getBuyerOrders], [getSellerOrders], [updateOrderStatus],
    [updateOrderPaymentStatus], [getOrders]) *)

Module OrderQueries.

(** [.order('created_at', { ascending: false })]: [a] may come before [b]
    when it is not older. *)
Definition not_older (a b : OrderRow) : Prop := o_created_at b <= o_created_at a.

#[export] Instance not_older_dec : RelDecision not_older.
Proof. intros a b. unfold not_older. apply _. Defined.

Definition newest_first (rows : list OrderRow) : list OrderRow :=
  merge_sort not_older rows.

(** The object [getBuyerOrders] and [getSellerOrders] build from a row. *)
Record OrderView : Type := mkOrderView {
  id : string;
  buyer_id : string;
  seller_id : option string;
  product_ids : list string;
  status : OrderStatus;
  total_amount : Z;
  created_at : Z;
  updated_at : option Z;
  payment_method : string;
  shipping_address : string;
  billing_address : string;
  tracking_number : option string
}.

Definition view_of (order : OrderRow) : OrderView :=
  mkOrderView (o_id order) (o_buyer_id order) (o_seller_id order) []
              (o_status order) (o_total_amount order) (o_created_at order)
              (o_updated_at order) (o_payment_method order) (o_shipping_address order)
              (o_billing_address order) (o_tracking_number order).

(** [getBuyerOrders]; [select_error] is the error the backend reports for
    the query, if any. A missing user and a failed query both give []. *)
Definition getBuyerOrders (env : Env) (select_error : option string) (w : World)
  : list OrderView :=
  match data (auth env) with
  | None => []
  | Some user =>
      match select_error with
      | Some _ => []
      | None =>
          List.map view_of
            (newest_first
               (List.filter (fun order => String.eqb (o_buyer_id order) user) (orders w)))
      end
  end.

(** [.eq('seller_id', user.id)] *)
Definition sold_by (user : string) (order : OrderRow) : bool :=
  match o_seller_id order with
  | Some seller => String.eqb seller user
  | None => false
  end.

Definition getSellerOrders (env : Env) (select_error : option string) (w : World)
  : list OrderView :=
  match data (auth env) with
  | None => []
  | Some user =>
      match select_error with
      | Some _ => []
      | None => List.map view_of (newest_first (List.filter (sold_by user) (orders w)))
      end
  end.

(** A request to [create_order_status_notification] for the buyer. *)
Inductive StatusNotification : Type :=
| OrderStatusNotification (p_user_id p_order_id : string) (p_status : OrderStatus).

(** [.update({ status, updated_at }).eq('id', orderId)] *)
Definition update_status (orderId : string) (status : OrderStatus) (at_ : Z)
           (rows : list OrderRow) : list OrderRow :=
  List.map (fun row =>
              if String.eqb (o_id row) orderId
              then mkOrderRow (o_id row) (o_buyer_id row) (o_seller_id row) status
                              (o_total_amount row) (o_created_at row) (Some at_)
                              (o_payment_method row) (o_payment_status row)
                              (o_shipping_address row) (o_billing_address row)
                              (o_estimated_delivery row) (o_tracking_number row)
                              (o_tracking_url row) (o_delivery_option row)
                              (o_payment_intent_id row)
              else row)
           rows.

(** [.eq('id', orderId)]: the rows an update by id has matched. *)
Definition rows_with_id (orderId : string) (rows : list OrderRow) : list OrderRow :=
  List.filter (fun row => String.eqb (o_id row) orderId) rows.

(** [.select('*').eq('id', orderId).single()]: an error unless exactly one
    row has the id. *)
Definition select_order (select_error : option string) (w : World) (orderId : string)
  : response OrderRow :=
  match select_error with
  | Some e => error_response e
  | None =>
      match List.filter (fun row => String.eqb (o_id row) orderId) (orders w) with
      | [row] => ok_response row
      | _ => error_response "JSON object requested, multiple (or no) rows returned"
      end
  end.

(** The notification requested after the update: one for the statuses
    [payment_approved], [shipped] and [delivered], none for the others. *)
Definition status_notifications (buyerId orderId : string) (status : OrderStatus)
  : list StatusNotification :=
  match status with
  | payment_approved | shipped | delivered =>
      [OrderStatusNotification buyerId orderId status]
  | _ => []
  end.

(** [updateOrderStatus]: the world, the notifications requested and the
    boolean returned. Every error is caught, shown and turned into
    [false]. The update sets [status], so the trigger on [orders] runs for
    the updated rows. *)
Definition updateOrderStatus (env : Env) (select_error update_error : option string)
           (w : World) (orderId : string) (status : OrderStatus)
  : World * list StatusNotification * bool :=
  match data (auth env) with
  | None => (w, [], false)
  | Some user =>
      let reply := select_order select_error w orderId in
      match error reply, data reply with
      | None, Some order =>
          if bool_decide (o_seller_id order = Some user)
          then
            match update_error with
            | Some _ => (w, [], false)
            | None =>
                let w1 :=
                  with_orders w (update_status orderId status (now env) (orders w)) in
                (after_status_update env w1 (rows_with_id orderId (orders w1)),
                 status_notifications (o_buyer_id order) orderId status, true)
            end
          else (w, [], false)
      | _, _ => (w, [], false)
      end
  end.

(** [.update({ payment_intent_id, payment_status }).eq('id', orderId)] *)
Definition update_payment (orderId paymentIntentId status : string)
           (rows : list OrderRow) : list OrderRow :=
  List.map (fun row =>
              if String.eqb (o_id row) orderId
              then mkOrderRow (o_id row) (o_buyer_id row) (o_seller_id row) (o_status row)
                              (o_total_amount row) (o_created_at row) (o_updated_at row)
                              (o_payment_method row) (Some status)
                              (o_shipping_address row) (o_billing_address row)
                              (o_estimated_delivery row) (o_tracking_number row)
                              (o_tracking_url row) (o_delivery_option row)
                              (Some paymentIntentId)
              else row)
           rows.

Definition updateOrderPaymentStatus (update_error : option string) (w : World)
           (orderId paymentIntentId status : string) : World * outcome bool :=
  match update_error with
  | Some msg => (w, Thrown ("Failed to update order payment status: " ++ msg))
  | None =>
      (with_orders w (update_payment orderId paymentIntentId status (orders w)),
       Returned true)
  end.

(** *** [getOrders], the list behind the buyer's order cards *)

Record Address : Type := mkAddress {
  address_line1 : string;
  address_line2 : string;
  city : string;
  state : string;
  postal_code : string;
  country : string
}.

(** What the backend holds about the buyer and the product pictures. *)
Record Account : Type := mkAccount {
  orders_error : option string;
  user_address : option Address;           (* addresses, maybeSingle *)
  user_phone : option string;              (* profiles.phone *)
  first_image : string -> option string    (* product_images, limit 1 *)
}.

Record BuyerOrderItem : Type := mkBuyerOrderItem {
  item_name : string;
  item_quantity : Z;
  item_price : Z;
  item_image : string;
  item_product_id : string
}.

Record Tracking : Type := mkTracking {
  tracking_id : string;
  courier : string;
  url : string;
  estimatedDelivery : option Z
}.

Record BuyerOrder : Type := mkBuyerOrder {
  order_id : string;
  date : Z;
  items : list BuyerOrderItem;
  total : Z;
  order_status : OrderStatus;
  paymentStatus : option string;
  paymentMethod : string;
  addresses : Address;
  phone : option string;
  tracking : option Tracking
}.

Definition empty_address : Address := mkAddress "" "" "" "" "" "".

(** [product?.name || 'Product Name Unavailable'] *)
Definition shown_name (w : World) (productId : string) : string :=
  match products w !! productId with
  | Some product =>
      if String.eqb (p_name product) "" then "Product Name Unavailable" else p_name product
  | None => "Product Name Unavailable"
  end.

Definition buyer_item (w : World) (account : Account) (item : OrderItemRow)
  : BuyerOrderItem :=
  mkBuyerOrderItem (shown_name w (oi_product_id item)) (oi_quantity item)
                   (oi_unit_price item) (default "" (first_image account (oi_product_id item)))
                   (oi_product_id item).

Definition buyer_order (w : World) (account : Account) (order : OrderRow) : BuyerOrder :=
  mkBuyerOrder
    (o_id order) (o_created_at order)
    (List.map (buyer_item w account)
       (List.filter (fun item => String.eqb (oi_order_id item) (o_id order))
                    (order_items w)))
    (o_total_amount order) (o_status order) (o_payment_status order)
    (o_payment_method order)
    (default empty_address (user_address account))
    (or_null (user_phone account))
    (if truthy (o_tracking_number order)
     then Some (mkTracking (default "" (o_tracking_number order)) "Shipping Partner"
                           (default "" (or_null (o_tracking_url order)))
                           (o_estimated_delivery order))
     else None).

Definition getOrders (env : Env) (account : Account) (w : World)
  : outcome (list BuyerOrder) :=
  match error (auth env), data (auth env) with
  | None, Some user =>
      match orders_error account with
      | Some msg => Thrown ("Failed to fetch orders: " ++ msg)
      | None =>
          Returned
            (List.map (buyer_order w account)
               (newest_first
                  (List.filter (fun order => String.eqb (o_buyer_id order) user)
                               (orders w))))
      end
  | _, _ => Thrown "You must be signed in to view orders"
  end.

(** The part of a listed order that the order card's cancellation reads. *)
Definition card_of (order : BuyerOrder) : OrderCard.Order :=
  OrderCard.mkOrder (order_id order) (order_status order) (total order).

End OrderQueries.

(** ** Processing a payment ([processPayment] of the payment service) *)

Module Payments.

(** Answer of the payment server to [/confirm-payment]. *)
Inductive Confirmation : Type :=
| Confirmed (message : option string)      (* response.ok *)
| Refused (message : option string)        (* an error status *)
| Unreachable.                             (* fetch rejects *)

(** [.update({ payment_status: 'succeeded', status: 'pending',
    payment_intent_id }).eq('id', orderId)] *)
Definition mark_succeeded (orderId paymentIntentId : string) (rows : list OrderRow)
  : list OrderRow :=
  List.map (fun row =>
              if String.eqb (o_id row) orderId
              then mkOrderRow (o_id row) (o_buyer_id row) (o_seller_id row) pending
                              (o_total_amount row) (o_created_at row) (o_updated_at row)
                              (o_payment_method row) (Some "succeeded")
                              (o_shipping_address row) (o_billing_address row)
                              (o_estimated_delivery row) (o_tracking_number row)
                              (o_tracking_url row) (o_delivery_option row)
                              (Some paymentIntentId)
              else row)
           rows.

Record Result : Type := mkResult {
  success : bool;
  message : string
}.

(** The direct update of the order, used for mock intents and as the
    fallback, followed by the trigger on [orders]. *)
Definition record_success (env : Env) (update_error : option string) (w : World)
           (orderId paymentIntentId : string) (note : string) : World * outcome Result :=
  match update_error with
  | Some msg => (w, Thrown msg)
  | None =>
      let w1 := with_orders w (mark_succeeded orderId paymentIntentId (orders w)) in
      (after_status_update env w1 (OrderQueries.rows_with_id orderId (orders w1)),
       Returned (mkResult true note))
  end.

(** [processPayment]. An error thrown while talking to the payment server,
    a refusal included, is caught by the inner [catch], which records the
    payment as succeeded. The update sets [status], so the trigger on
    [orders] runs for the updated rows. *)
Definition processPayment (env : Env) (server : Confirmation)
           (update_error : option string) (w : World) (paymentIntentId orderId : string)
  : World * outcome Result :=
  if String.prefix "mock_pi_" paymentIntentId
  then record_success env update_error w orderId paymentIntentId
                      "Payment processed successfully (mock)"
  else
    match server with
    | Confirmed note =>
        (w, Returned (mkResult true
                        (if truthy note then default "" note
                         else "Payment processed successfully")))
    | Refused _ | Unreachable =>
        record_success env update_error w orderId paymentIntentId
                       "Payment processed successfully (fallback)"
    end.

End Payments.

(** ** Transaction history (src/components/buyer/BuyerPayments.tsx) *)

Module BuyerPayments.

Inductive TransactionStatus : Type := completed | pending_payment | failed.

(** [mapPaymentStatusToTransactionStatus(paymentStatus, orderStatus)];
    [pending_payment] is the value ['pending']. *)
Definition mapPaymentStatusToTransactionStatus (paymentStatus : option string)
           (orderStatus : OrderStatus) : TransactionStatus :=
  if bool_decide (paymentStatus = Some "approved")
     || bool_decide (paymentStatus = Some "paid")
  then completed
  else if bool_decide (paymentStatus = Some "failed")
          || bool_decide (paymentStatus = Some "rejected")
  then failed
  else
    match orderStatus with
    | payment_approved | shipped | delivered => completed
    | cancelled => failed
    | _ => pending_payment
    end.

(** [s.includes(pattern)] *)
Definition includes (pattern s : string) : bool :=
  match String.index 0 pattern s with
  | Some _ => true
  | None => false
  end.

(** ASCII letters of [toLowerCase] and [toUpperCase]. *)
Definition lower_char (c : ascii) : ascii :=
  let n := nat_of_ascii c in
  if ((65 <=? n) && (n <=? 90))%nat then ascii_of_nat (n + 32) else c.
Definition upper_char (c : ascii) : ascii :=
  let n := nat_of_ascii c in
  if ((97 <=? n) && (n <=? 122))%nat then ascii_of_nat (n - 32) else c.

Fixpoint map_string (f : ascii -> ascii) (s : string) : string :=
  match s with
  | EmptyString => EmptyString
  | String c rest => String (f c) (map_string f rest)
  end.

Definition toLowerCase : string -> string := map_string lower_char.
Definition toUpperCase : string -> string := map_string upper_char.

Definition formatPaymentMethodName (method : string) : string :=
  if includes "card" method then "Credit/Debit Card"
  else if includes "cod" (toLowerCase method) then "Cash on Delivery"
  else method.

Record TransactionProduct : Type := mkTransactionProduct {
  product_name : string;
  product_image : option string
}.

Record Transaction : Type := mkTransaction {
  id : string;
  date : Z;
  amount : Z;
  description : string;
  status : TransactionStatus;
  paymentMethod : string;
  products_shown : list TransactionProduct
}.

(** What the page cannot know beforehand: the error of each query and
    the primary picture of a product. *)
Record Backend : Type := mkBackend {
  orders_error : option string;
  items_error : string -> option string;      (* by order id *)
  primary_image : string -> option string     (* by product id *)
}.

(** The products of one order: a line whose product is gone is left out. *)
Definition products_of (backend : Backend) (w : World) (orderId : string)
  : list TransactionProduct :=
  match items_error backend orderId with
  | Some _ => []
  | None =>
      List.flat_map
        (fun item =>
           match products w !! oi_product_id item with
           | Some product =>
               [mkTransactionProduct (p_name product)
                                     (primary_image backend (oi_product_id item))]
           | None => []
           end)
        (List.filter (fun item => String.eqb (oi_order_id item) orderId) (order_items w))
  end.

Definition transaction_of (backend : Backend) (w : World) (order : OrderRow)
  : Transaction :=
  mkTransaction
    (o_id order) (o_created_at order) (o_total_amount order)
    ("Order #" ++ toUpperCase (String.substring 0 8 (o_id order)))
    (mapPaymentStatusToTransactionStatus (o_payment_status order) (o_status order))
    (formatPaymentMethodName (o_payment_method order))
    (products_of backend w (o_id order)).

(** [fetchTransactions]: the transactions shown, or the error. *)
Definition fetchTransactions (env : Env) (backend : Backend) (w : World)
  : outcome (list Transaction) :=
  match data (auth env) with
  | None => Thrown "You must be logged in to view your transactions"
  | Some buyerId =>
      match orders_error backend with
      | Some msg => Thrown msg
      | None =>
          Returned
            (List.map (transaction_of backend w)
               (OrderQueries.newest_first
                  (List.filter (fun order => String.eqb (o_buyer_id order) buyerId)
                               (orders w))))
      end
  end.

End BuyerPayments.

(** ** Products a buyer can review ([getReviewableProducts]) *)

Module Reviews.

(** A row of [reviews]. *)
Record ReviewRow : Type := mkReviewRow {
  r_buyer_id : string;
  r_product_id : string
}.

Record Backend : Type := mkBackend {
  orders_error : option string;
  reviews_error : option string;
  products_error : option string;
  first_image : string -> option string;   (* product_images, limit 1 *)
  today : Z                                (* new Date() *)
}.

Record Reviewable : Type := mkReviewable {
  id : string;
  name : string;
  image : string;
  orderId : string;
  orderDate : Z
}.

(** The ids in the order in which [Set.prototype.add] first saw them. *)
Fixpoint distinct (ids : list string) : list string :=
  match ids with
  | [] => []
  | pid :: rest =>
      pid :: List.filter (fun other => negb (String.eqb other pid)) (distinct rest)
  end.

(** The delivered orders of the buyer, each with its order items. *)
Definition delivered_orders (w : World) (buyerId : string) : list OrderRow :=
  List.filter (fun order =>
                 String.eqb (o_buyer_id order) buyerId
                 && OrderStatus_eqb (o_status order) delivered)
              (orders w).

Definition items_of (w : World) (order : OrderRow) : list OrderItemRow :=
  List.filter (fun item => String.eqb (oi_order_id item) (o_id order)) (order_items w).

(** The pairs [(product_id, order)] in the order of the two [forEach]. *)
Definition ordered_products (w : World) (buyerId : string) : list (string * OrderRow) :=
  List.flat_map (fun order => List.map (fun item => (oi_product_id item, order))
                                       (items_of w order))
                (delivered_orders w buyerId).

(** [orderProductMap.get(pid)]: the last order set for the product. *)
Definition order_of (pairs : list (string * OrderRow)) (pid : string) : option OrderRow :=
  option_map snd (List.find (fun pair => String.eqb (fst pair) pid) (List.rev pairs)).

Definition reviewed_by (reviews : list ReviewRow) (buyerId : string)
           (productIds : list string) : list string :=
  List.map r_product_id
    (List.filter (fun review =>
                    String.eqb (r_buyer_id review) buyerId
                    && List.existsb (String.eqb (r_product_id review)) productIds)
                 reviews).

(** [getReviewableProducts]: every error ends in the empty list. The
    products are listed in the order of the requested ids. *)
Definition getReviewableProducts (env : Env) (backend : Backend)
           (reviews : list ReviewRow) (w : World) : list Reviewable :=
  match error (auth env), data (auth env) with
  | None, Some buyerId =>
      match orders_error backend with
      | Some _ => []
      | None =>
          let pairs := ordered_products w buyerId in
          let productIds := distinct (List.map fst pairs) in
          match productIds with
          | [] => []
          | _ :: _ =>
              match reviews_error backend with
              | Some _ => []
              | None =>
                  let reviewedProductIds := reviewed_by reviews buyerId productIds in
                  let unreviewedProductIds :=
                    List.filter
                      (fun pid => negb (List.existsb (String.eqb pid) reviewedProductIds))
                      productIds in
                  match unreviewedProductIds with
                  | [] => []
                  | _ :: _ =>
                      match products_error backend with
                      | Some _ => []
                      | None =>
                          List.flat_map
                            (fun pid =>
                               match products w !! pid with
                               | Some product =>
                                   [mkReviewable
                                      pid (p_name product)
                                      (default "/placeholder.svg" (first_image backend pid))
                                      (default "" (option_map o_id (order_of pairs pid)))
                                      (default (today backend)
                                         (option_map o_created_at (order_of pairs pid)))]
                               | None => []
                               end)
                            unreviewedProductIds
                      end
                  end
              end
          end
      end
  | _, _ => []
  end.

End Reviews.

(** ** Vocabulary of the further properties *)

(** The quantity the cart holds of a product: that of its first line, 0
    when the product is not in the cart. *)
Fixpoint quantity_of (pid : string) (items : list Cart.CartItem) : Z :=
  match items with
  | [] => 0
  | item :: rest =>
      if String.eqb (Cart.id item) pid then Cart.quantity item else quantity_of pid rest
  end.

(** Whether [addItem] goes on to change the cart after the product
    lookup: no error, a product that is available, in stock and has a
    seller. *)
Definition lookup_accepts (reply : response Cart.ProductData) : bool :=
  match error reply, data reply with
  | None, Some productData =>
      Cart.is_available productData
      && (0 <? to_number (Cart.stock_quantity productData))
      && truthy (Cart.seller_id productData)
  | _, _ => false
  end.

(** The stock a product lookup reports (0 without data). *)
Definition reported_stock (reply : response Cart.ProductData) : Z :=
  match data reply with
  | Some productData => to_number (Cart.stock_quantity productData)
  | None => 0
  end.

Fixpoint all_hex (s : string) : bool :=
  match s with
  | EmptyString => true
  | String c rest => is_hex c && all_hex rest
  end.

(** More sample data. *)
Module Scenario.

Definition jar : Cart.CartItem :=
  Cart.mkCartItem "p2" "Honey jar" 120 1 "jar.png" Sample.seller_uuid false.

Definition in_stock (stock : Z) : response Cart.ProductData :=
  ok_response (Cart.mkProductData (Some stock) true (Some Sample.seller_uuid) "Honey jar").

(** An order of buyer-1 sold by the sample seller. *)
Definition order (oid : string) (status : OrderStatus) (created : Z)
           (payment : option string) : OrderRow :=
  mkOrderRow oid "buyer-1" (Some Sample.seller_uuid) status 1150 created None
             "Credit Card" payment "12 Rizal St" "12 Rizal St" None None None None None.

(** The backend as the sample seller sees it. *)
Definition seller_env : Env :=
  mkEnv (ok_response Sample.seller_uuid) 20010 (ok_response "order-0002") None
        (fun _ => None) (fun _ => None) (fun _ => None) (fun _ => false)
        (ok_response Sample.seller_uuid) (ok_response Sample.seller_uuid) 20010.

Definition world_with (rows : list OrderRow) (lines : list OrderItemRow) : World :=
  mkWorld rows lines {[ "p1" := Sample.product 10 ]} [] ∅ [] [].

End Scenario.

(** * Properties *)

(** ** Auxiliary facts *)

(** The trigger on [orders] writes to [seller_customers] only. *)
Lemma trigger_frame env w new :
  orders (update_seller_customers_after_order env w new) = orders w /\
  order_items (update_seller_customers_after_order env w new) = order_items w /\
  products (update_seller_customers_after_order env w new) = products w /\
  inventory_logs (update_seller_customers_after_order env w new) = inventory_logs w /\
  rpc_calls (update_seller_customers_after_order env w new) = rpc_calls w.
Proof.
  unfold update_seller_customers_after_order.
  destruct (o_seller_id new) as [seller|]; [|auto].
  destruct (seller_customers w !! (seller, o_buyer_id new)); auto.
Qed.

Lemma trigger_orders env w new :
  orders (update_seller_customers_after_order env w new) = orders w.
Proof. apply trigger_frame. Qed.

Lemma order_stored_frame env w row :
  orders (order_stored env w row) = (orders w ++ [row])%list /\
  order_items (order_stored env w row) = order_items w /\
  products (order_stored env w row) = products w /\
  inventory_logs (order_stored env w row) = inventory_logs w /\
  rpc_calls (order_stored env w row) = rpc_calls w.
Proof.
  unfold order_stored.
  destruct (trigger_frame env (with_orders w (orders w ++ [row])) row)
    as (-> & -> & -> & -> & ->).
  auto.
Qed.

Lemma order_stored_orders env w row :
  orders (order_stored env w row) = (orders w ++ [row])%list.
Proof. apply order_stored_frame. Qed.

Lemma after_status_update_frame env updated : forall w,
  orders (after_status_update env w updated) = orders w /\
  order_items (after_status_update env w updated) = order_items w /\
  products (after_status_update env w updated) = products w /\
  inventory_logs (after_status_update env w updated) = inventory_logs w /\
  rpc_calls (after_status_update env w updated) = rpc_calls w.
Proof.
  unfold after_status_update.
  induction updated as [|new rest IH]; intros w; simpl; [auto|].
  destruct (IH (update_seller_customers_after_order env w new)) as (-> & -> & -> & -> & ->).
  apply trigger_frame.
Qed.

Lemma after_status_update_orders env w updated :
  orders (after_status_update env w updated) = orders w.
Proof. apply after_status_update_frame. Qed.

Section Frames.

Variable env : Env.
Variable orderId : string.

Lemma update_inventory_orders w i item :
  orders (OrderService.update_inventory env orderId w i item) = orders w.
Proof.
  unfold OrderService.update_inventory.
  repeat (case_match; simpl; try reflexivity).
Qed.

Lemma update_inventory_order_items w i item :
  order_items (OrderService.update_inventory env orderId w i item) = order_items w.
Proof.
  unfold OrderService.update_inventory.
  repeat (case_match; simpl; try reflexivity).
Qed.

Lemma update_inventories_orders items : forall w i,
  orders (OrderService.update_inventories env orderId w i items) = orders w.
Proof.
  induction items as [|item rest IH]; intros w i; simpl; [reflexivity|].
  rewrite IH. apply update_inventory_orders.
Qed.

Lemma update_inventories_order_items items : forall w i,
  order_items (OrderService.update_inventories env orderId w i items) = order_items w.
Proof.
  induction items as [|item rest IH]; intros w i; simpl; [reflexivity|].
  rewrite IH. apply update_inventory_order_items.
Qed.

End Frames.

Lemma truthy_Some s : truthy (Some s) = true -> s <> "".
Proof.
  simpl. intros H ->. discriminate.
Qed.

Lemma subtotal_acc items : forall acc,
  List.fold_left (fun total item => total + Cart.price item * Cart.quantity item) items acc
  = acc + Cart.subtotal items.
Proof.
  unfold Cart.subtotal.
  induction items as [|item rest IH]; intros acc; simpl; [lia|].
  rewrite IH, (IH (0 + _)). lia.
Qed.

Lemma subtotal_cons item rest :
  Cart.subtotal (item :: rest)
  = Cart.price item * Cart.quantity item + Cart.subtotal rest.
Proof.
  unfold Cart.subtotal at 1. simpl. rewrite subtotal_acc. lia.
Qed.

Lemma sum_total_price_order_items orderId items :
  sum_total_price (List.map (order_item_of orderId) items) = Cart.subtotal items.
Proof.
  induction items as [|item rest IH]; [reflexivity|].
  rewrite subtotal_cons. simpl. rewrite IH. reflexivity.
Qed.

Lemma order_items_of_new orderId items :
  List.filter (fun row => String.eqb (oi_order_id row) orderId)
              (List.map (order_item_of orderId) items)
  = List.map (order_item_of orderId) items.
Proof.
  induction items as [|item rest IH]; [reflexivity|].
  simpl. rewrite String.eqb_refl, IH. reflexivity.
Qed.

Lemma validatedOrderData_row env user orderData validated :
  OrderService.validatedOrderData env user orderData = Returned validated ->
  o_buyer_id validated = user /\
  o_status validated = pending /\
  o_seller_id validated = OrderService.seller_id orderData /\
  o_total_amount validated = num_or (OrderService.total_amount orderData) 0.
Proof.
  unfold OrderService.validatedOrderData. intros H.
  repeat (case_match; try discriminate); simplify_eq; simpl; auto.
Qed.

Lemma insert_order_ok env w row w1 reply stored :
  insert_order env w row = (w1, reply) ->
  error reply = None -> data reply = Some stored ->
  stored = set_id row (o_id stored) /\ data (orders_insert env) = Some (o_id stored) /\
  error (orders_insert env) = None /\
  w1 = order_stored env w stored.
Proof.
  unfold insert_order. intros H He Hd.
  destruct (error (orders_insert env)) as [e|] eqn:He'.
  - destruct (data (orders_insert env)); simplify_eq; simpl in *; discriminate.
  - destruct (data (orders_insert env)) as [new_id|] eqn:Hd';
      simplify_eq; simpl in *; simplify_eq. auto.
Qed.

Lemma write_items_orders env w orderId cartItems :
  orders (OrderService.write_items env w orderId cartItems) = orders w.
Proof.
  unfold OrderService.write_items, insert_order_items.
  destruct cartItems as [[|first others]|]; try reflexivity.
  destruct (order_items_insert_error env); rewrite update_inventories_orders; reflexivity.
Qed.

Lemma write_items_order_items env w orderId cartItems :
  order_items (OrderService.write_items env w orderId cartItems) =
    (order_items w ++
       match cartItems, order_items_insert_error env with
       | Some items, None => List.map (order_item_of orderId) items
       | _, _ => []
       end)%list.
Proof.
  unfold OrderService.write_items, insert_order_items.
  destruct cartItems as [[|first others]|].
  - destruct (order_items_insert_error env); rewrite app_nil_r; reflexivity.
  - destruct (order_items_insert_error env);
      rewrite update_inventories_order_items; cbn [order_items with_order_items];
      rewrite ?app_nil_r; reflexivity.
  - rewrite app_nil_r; reflexivity.
Qed.

Lemma notify_seller_frame w orderData orderId :
  orders (OrderService.notify_seller w orderData orderId) = orders w /\
  order_items (OrderService.notify_seller w orderData orderId) = order_items w /\
  products (OrderService.notify_seller w orderData orderId) = products w /\
  inventory_logs (OrderService.notify_seller w orderData orderId) = inventory_logs w.
Proof.
  unfold OrderService.notify_seller.
  repeat case_match; auto.
Qed.

(** What a successful run of the order-service [createOrder] has written. *)
Lemma createOrder_returned env w orderData cartItems w' orderId :
  OrderService.createOrder env w orderData cartItems = (w', Returned (Some orderId)) ->
  exists row user validated,
    data (auth env) = Some user /\
    OrderService.validatedOrderData env user orderData = Returned validated /\
    row = set_id validated orderId /\
    data (orders_insert env) = Some orderId /\
    error (orders_insert env) = None /\
    orderId <> "" /\
    w' = OrderService.notify_seller
           (OrderService.write_items env (order_stored env w row) orderId
                                     cartItems)
           orderData orderId.
Proof.
  unfold OrderService.createOrder. intros H.
  destruct (data (auth env)) as [user|] eqn:Huser; [|discriminate].
  destruct (OrderService.validatedOrderData env user orderData) as [validated|] eqn:Hv;
    [|discriminate].
  destruct (insert_order env w validated) as [w1 reply] eqn:Hins.
  destruct (error reply) eqn:He; [discriminate|].
  destruct (data reply) as [stored|] eqn:Hd; [|discriminate].
  destruct (String.eqb (o_id stored) "") eqn:Hid; [discriminate|].
  destruct (insert_order_ok _ _ _ _ _ _ Hins He Hd) as (Hrow & Hdata & Herr & ->).
  injection H as <- <-.
  exists stored, user, validated. apply String.eqb_neq in Hid. auto 10.
Qed.

Lemma createOrder_row env w orderData cartItems w' orderId :
  OrderService.createOrder env w orderData cartItems = (w', Returned (Some orderId)) ->
  exists row,
    orders w' = (orders w ++ [row])%list /\
    o_id row = orderId /\
    o_status row = pending /\
    o_seller_id row = OrderService.seller_id orderData /\
    o_total_amount row = num_or (OrderService.total_amount orderData) 0 /\
    order_items w' =
      (order_items w ++
        match cartItems, order_items_insert_error env with
        | Some items, None => List.map (order_item_of orderId) items
        | _, _ => []
        end)%list.
Proof.
  intros H.
  destruct (createOrder_returned _ _ _ _ _ _ H)
    as (row & user & validated & Hu & Hv & -> & _ & _ & _ & ->).
  destruct (validatedOrderData_row _ _ _ _ Hv) as (? & ? & ? & ?).
  destruct (notify_seller_frame
              (OrderService.write_items env
                 (order_stored env w (set_id validated orderId)) orderId
                 cartItems)
              orderData orderId) as (-> & -> & _ & _).
  exists (set_id validated orderId).
  rewrite write_items_orders, write_items_order_items.
  destruct (order_stored_frame env w (set_id validated orderId)) as (-> & -> & _).
  simpl. auto 10.
Qed.

Lemma num_or_zero n : num_or (Some n) 0 = n.
Proof.
  unfold num_or. destruct (Z.eqb_spec n 0); congruence.
Qed.

Lemma selectedDeliveryDetails_in sel option :
  Checkout.selectedDeliveryDetails sel = Some option ->
  In option Checkout.deliveryOptions /\ Checkout.id option = sel.
Proof.
  unfold Checkout.selectedDeliveryDetails. intros H.
  apply List.find_some in H as [Hin Heq].
  apply String.eqb_eq in Heq. auto.
Qed.

Lemma selectedDeliveryFee_details sel option :
  Checkout.selectedDeliveryDetails sel = Some option ->
  Checkout.selectedDeliveryFee sel = Checkout.fee option.
Proof.
  intros H. unfold Checkout.selectedDeliveryFee. rewrite H.
  apply selectedDeliveryDetails_in in H as [Hin _].
  simpl in Hin.
  destruct Hin as [<-|[<-|[<-|[]]]]; reflexivity.
Qed.

(** ** Whole numbers in double arithmetic

    A non-negative integer below [2^53] is held exactly by a double, and
    sums and products of such integers that stay below [2^53] are computed
    exactly. *)

Lemma digits2_pos_size p : digits2_pos p = Pos.size p.
Proof. induction p; simpl; congruence. Qed.

Lemma digits2_pos_bounds p :
  2 ^ (Zpos (digits2_pos p) - 1) <= Zpos p < 2 ^ Zpos (digits2_pos p).
Proof.
  rewrite digits2_pos_size.
  pose proof (Pos.size_gt p) as Hgt. pose proof (Pos.size_le p) as Hle.
  apply Pos2Z.pos_lt_pos in Hgt. apply Pos2Z.pos_le_pos in Hle.
  rewrite Pos2Z.inj_pow in Hgt, Hle.
  change (Zpos p~0) with (2 * Zpos p) in Hle.
  assert (H : 2 ^ Zpos (Pos.size p) = 2 * 2 ^ (Zpos (Pos.size p) - 1)).
  { rewrite <- Z.pow_succ_r by lia. f_equal. lia. }
  lia.
Qed.

Lemma digits2_pos_unique p d :
  2 ^ (d - 1) <= Zpos p < 2 ^ d -> Zpos (digits2_pos p) = d.
Proof.
  intros [Hlo Hhi]. pose proof (digits2_pos_bounds p) as [Hlo' Hhi'].
  set (d' := Zpos (digits2_pos p)) in *.
  assert (Hd' : 1 <= d') by (unfold d'; lia).
  destruct (Z.lt_trichotomy d' d) as [Hlt|[Heq|Hgt]]; [|exact Heq|].
  - assert (2 ^ d' <= 2 ^ (d - 1)) by (apply Z.pow_le_mono_r; lia). lia.
  - assert (Hd : 0 <= d).
    { destruct (Z.le_gt_cases 0 d); [assumption|].
      rewrite (Z.pow_neg_r 2 d) in Hhi by lia. lia. }
    assert (2 ^ d <= 2 ^ (d' - 1)) by (apply Z.pow_le_mono_r; lia). lia.
Qed.

Lemma digits_shift c n :
  0 <= n -> Zdigits2 (Zpos c * 2 ^ n) = Zpos (digits2_pos c) + n.
Proof.
  intros Hn. pose proof (digits2_pos_bounds c) as [Hlo Hhi].
  assert (Hpos : 0 < 2 ^ n) by (apply Z.pow_pos_nonneg; lia).
  assert (Hb : 2 ^ (Zpos (digits2_pos c) + n - 1) <= Zpos c * 2 ^ n
               < 2 ^ (Zpos (digits2_pos c) + n)).
  { replace (Zpos (digits2_pos c) + n - 1) with ((Zpos (digits2_pos c) - 1) + n) by lia.
    rewrite !Z.pow_add_r by lia. nia. }
  assert (Hq : 0 < Zpos c * 2 ^ n) by nia.
  destruct (Zpos c * 2 ^ n) as [|q|q]; try lia.
  simpl. apply digits2_pos_unique, Hb.
Qed.

Lemma iter_pos_nat {A} (f : A -> A) p : forall x,
  SpecFloat.iter_pos f p x = Nat.iter (Pos.to_nat p) f x.
Proof.
  induction p as [p IH|p IH|]; intros x; cbn [SpecFloat.iter_pos].
  - rewrite !IH, Pos2Nat.inj_xI.
    replace (S (2 * Pos.to_nat p))%nat with (Pos.to_nat p + S (Pos.to_nat p))%nat by lia.
    rewrite Nat.iter_add, Nat.iter_succ_r. reflexivity.
  - rewrite !IH, Pos2Nat.inj_xO.
    replace (2 * Pos.to_nat p)%nat with (Pos.to_nat p + Pos.to_nat p)%nat by lia.
    rewrite Nat.iter_add. reflexivity.
  - reflexivity.
Qed.

Lemma shr_1_even m :
  0 <= m ->
  shr_1 (Build_shr_record (2 * m) false false) = Build_shr_record m false false.
Proof. intros Hm. destruct m as [|p|p]; try lia; reflexivity. Qed.

Lemma shr_exact k : forall m,
  0 <= m ->
  Nat.iter k shr_1 (Build_shr_record (m * 2 ^ Z.of_nat k) false false)
  = Build_shr_record m false false.
Proof.
  induction k as [|k IH]; intros m Hm.
  - simpl. f_equal. lia.
  - rewrite Nat.iter_succ_r, Nat2Z.inj_succ, Z.pow_succ_r by lia.
    replace (m * (2 * 2 ^ Z.of_nat k)) with (2 * (m * 2 ^ Z.of_nat k)) by lia.
    rewrite shr_1_even by (apply Z.mul_nonneg_nonneg; [lia|apply Z.pow_nonneg; lia]).
    apply IH, Hm.
Qed.

Lemma shr_shifted c e n :
  0 <= n ->
  shr (Build_shr_record (Zpos c * 2 ^ n) false false) e n
  = (Build_shr_record (Zpos c) false false, e + n).
Proof.
  intros Hn. unfold shr. destruct n as [|p|p]; try lia.
  - rewrite Z.pow_0_r, Z.mul_1_r, Z.add_0_r. reflexivity.
  - rewrite iter_pos_nat. rewrite <- (positive_nat_Z p) at 1.
    rewrite shr_exact by lia. reflexivity.
Qed.

(** Rounding a mantissa that carries [n] trailing zero bits above its
    target exponent is exact. *)
Lemma binary_round_aux_exact s c e n :
  0 <= n ->
  fexp Double.prec Double.emax (Zpos (digits2_pos c) + n + e) = e + n ->
  e + n <= Double.emax - Double.prec ->
  binary_round_aux Double.prec Double.emax s (Zpos c * 2 ^ n) e loc_Exact
  = S754_finite s c (e + n).
Proof.
  intros Hn Hfexp Hmax. unfold binary_round_aux, shr_fexp.
  rewrite digits_shift by assumption. rewrite Hfexp.
  replace (e + n - e) with n by lia. unfold shr_record_of_loc.
  rewrite shr_shifted by assumption.
  cbn [shr_m loc_of_shr_record round_nearest_even Zdigits2].
  replace (Zpos (digits2_pos c) + (e + n)) with (Zpos (digits2_pos c) + n + e) by lia.
  rewrite Hfexp, Z.sub_diag. cbn [shr shr_m].
  destruct (Z.leb_spec (e + n) (Double.emax - Double.prec)); [reflexivity|lia].
Qed.

Lemma digits_small p : Zpos p < 2 ^ 53 -> Zpos (digits2_pos p) <= 53.
Proof.
  intros Hp. pose proof (digits2_pos_bounds p) as [Hlo _].
  destruct (Z.le_gt_cases (Zpos (digits2_pos p)) 53); [assumption|].
  assert (2 ^ 53 <= 2 ^ (Zpos (digits2_pos p) - 1)) by (apply Z.pow_le_mono_r; lia).
  lia.
Qed.


Lemma digits_mono p q :
  Zpos p <= Zpos q -> Zpos (digits2_pos p) <= Zpos (digits2_pos q).
Proof.
  intros Hpq. pose proof (digits2_pos_bounds p) as [Hlo _].
  pose proof (digits2_pos_bounds q) as [_ Hhi].
  destruct (Z.le_gt_cases (Zpos (digits2_pos p)) (Zpos (digits2_pos q)));
    [assumption|].
  assert (2 ^ Zpos (digits2_pos q) <= 2 ^ (Zpos (digits2_pos p) - 1))
    by (apply Z.pow_le_mono_r; lia).
  lia.
Qed.

Lemma fexp_small d : 1 <= d -> fexp Double.prec Double.emax d = d - 53.
Proof. intros Hd. unfold fexp, emin, Double.prec, Double.emax. lia. Qed.

Lemma to_pos_shifted x n :
  0 < x -> 0 <= n -> Zpos (Z.to_pos (x * 2 ^ n)) = x * 2 ^ n.
Proof.
  intros Hx Hn. apply Z2Pos.id.
  apply Z.mul_pos_pos; [assumption|apply Z.pow_pos_nonneg; lia].
Qed.

Lemma shl_align_le mx ex ex' :
  ex' <= ex -> shl_align mx ex ex' = (Z.to_pos (Zpos mx * 2 ^ (ex - ex')), ex').
Proof.
  intros Hle. unfold shl_align.
  destruct (ex' - ex) as [|d|d] eqn:Hd; try lia.
  - replace (ex - ex') with 0 by lia. replace ex' with ex by lia.
    rewrite Z.pow_0_r, Z.mul_1_r. reflexivity.
  - replace (ex - ex') with (Zpos d) by lia. f_equal.
    change (Pos.iter xO mx d) with (shift_pos d mx).
    apply Pos2Z.inj. rewrite shift_pos_correct, Z.pow_pos_fold.
    rewrite Z2Pos.id; [lia|].
    apply Z.mul_pos_pos; [lia|apply Z.pow_pos_nonneg; lia].
Qed.

Lemma shl_align_ge mx ex ex' : ex <= ex' -> shl_align mx ex ex' = (mx, ex).
Proof.
  intros Hle. unfold shl_align. destruct (ex' - ex) eqn:Hd; try lia; reflexivity.
Qed.

(** Any representation [M * 2^e] of a positive integer [v] below [2^53]
    rounds to the double that holds [v]. *)
Lemma binary_round_aux_integer s (M : positive) e (v : positive) :
  Zpos v < 2 ^ 53 ->
  53 - Zpos (digits2_pos v) <= - e ->
  Zpos M = Zpos v * 2 ^ (- e) ->
  binary_round_aux Double.prec Double.emax s (Zpos M) e loc_Exact
  = S754_finite s (Z.to_pos (Zpos v * 2 ^ (53 - Zpos (digits2_pos v))))
                (Zpos (digits2_pos v) - 53).
Proof.
  intros Hv Hroom HM.
  pose proof (digits_small v Hv) as Hd.
  set (d := Zpos (digits2_pos v)) in *.
  assert (Hd1 : 1 <= d) by (unfold d; lia).
  set (c := Z.to_pos (Zpos v * 2 ^ (53 - d))).
  assert (Hc : Zpos c = Zpos v * 2 ^ (53 - d)).
  { unfold c. rewrite Z2Pos.id; [reflexivity|].
    apply Z.mul_pos_pos; [lia|apply Z.pow_pos_nonneg; lia]. }
  assert (Hdc : Zpos (digits2_pos c) = 53).
  { pose proof (digits_shift v (53 - d) ltac:(lia)) as Hs.
    rewrite <- Hc in Hs. change (Zdigits2 (Zpos c)) with (Zpos (digits2_pos c)) in Hs.
    fold d in Hs. lia. }
  set (n := - e - (53 - d)).
  assert (HMc : Zpos M = Zpos c * 2 ^ n).
  { rewrite HM, Hc, <- Z.mul_assoc, <- Z.pow_add_r by (unfold n; lia).
    f_equal. f_equal. unfold n. lia. }
  rewrite HMc.
  replace (d - 53) with (e + n) by (unfold n; lia).
  apply binary_round_aux_exact.
  - unfold n. lia.
  - rewrite Hdc. replace (53 + n + e) with d by (unfold n; lia).
    rewrite fexp_small by assumption. unfold n. lia.
  - unfold Double.emax, Double.prec, n. lia.
Qed.

Lemma of_Z_pos p : Zpos p < 2 ^ 53 -> Double.of_Z (Zpos p) = Double.canon p.
Proof.
  intros Hp. pose proof (digits_small p Hp) as Hd.
  unfold Double.of_Z, binary_normalize, binary_round.
  rewrite Z.add_0_r, fexp_small by lia.
  rewrite shl_align_le by lia.
  unfold Double.canon. apply binary_round_aux_integer.
  - exact Hp.
  - lia.
  - rewrite Z2Pos.id.
    + repeat (f_equal; try lia).
    + apply Z.mul_pos_pos; [lia|apply Z.pow_pos_nonneg; lia].
Qed.

Lemma canon_add a b :
  Zpos a + Zpos b < 2 ^ 53 ->
  Double.add (Double.canon a) (Double.canon b) = Double.canon (a + b).
Proof.
  intros Hsum.
  assert (Ha : Zpos a < 2 ^ 53) by lia. assert (Hb : Zpos b < 2 ^ 53) by lia.
  pose proof (digits_small a Ha) as Hda. pose proof (digits_small b Hb) as Hdb.
  pose proof (digits_small (a + b) ltac:(lia)) as Hds.
  pose proof (digits_mono a (a + b) ltac:(lia)) as Hma.
  pose proof (digits_mono b (a + b) ltac:(lia)) as Hmb.
  set (da := Zpos (digits2_pos a)) in *. set (db := Zpos (digits2_pos b)) in *.
  set (ds := Zpos (digits2_pos (a + b))) in *.
  assert (1 <= da) by (unfold da; lia). assert (1 <= db) by (unfold db; lia).
  unfold Double.add, SFadd, Double.canon. fold da db.
  set (ez := Z.min (da - 53) (db - 53)).
  rewrite !shl_align_le by (unfold ez; lia). cbn [fst cond_Zopp].
  rewrite !to_pos_shifted by (unfold ez; lia).
  rewrite <- !Z.mul_assoc, <- !Z.pow_add_r by (unfold ez; lia).
  replace (53 - da + (da - 53 - ez)) with (- ez) by lia.
  replace (53 - db + (db - 53 - ez)) with (- ez) by lia.
  rewrite <- Z.mul_add_distr_r.
  assert (Hpow : 0 < 2 ^ (- ez)) by (apply Z.pow_pos_nonneg; unfold ez; lia).
  destruct ((Zpos a + Zpos b) * 2 ^ (- ez)) as [|S|S] eqn:HS; try nia.
  unfold binary_normalize, binary_round.
  assert (HdS : Zpos (digits2_pos S) = ds - ez).
  { pose proof (digits_shift (a + b) (- ez) ltac:(unfold ez; lia)) as Hs.
    rewrite Pos2Z.inj_add, HS in Hs.
    change (Zdigits2 (Zpos S)) with (Zpos (digits2_pos S)) in Hs.
    fold ds in Hs. lia. }
  rewrite HdS. replace (ds - ez + ez) with ds by lia.
  rewrite fexp_small by lia.
  rewrite shl_align_ge by (unfold ez; lia).
  apply binary_round_aux_integer.
  - lia.
  - fold ds. unfold ez. lia.
  - rewrite Pos2Z.inj_add. symmetry. exact HS.
Qed.

Lemma canon_mul a b :
  Zpos a < 2 ^ 53 -> Zpos b < 2 ^ 53 -> Zpos a * Zpos b < 2 ^ 53 ->
  Double.mul (Double.canon a) (Double.canon b) = Double.canon (a * b).
Proof.
  intros Ha Hb Hprod.
  pose proof (digits_small a Ha) as Hda. pose proof (digits_small b Hb) as Hdb.
  pose proof (digits_small (a * b) ltac:(lia)) as Hdp.
  pose proof (digits_mono a (a * b) ltac:(nia)) as Hma.
  set (da := Zpos (digits2_pos a)) in *. set (db := Zpos (digits2_pos b)) in *.
  set (dp := Zpos (digits2_pos (a * b))) in *.
  assert (1 <= da) by (unfold da; lia). assert (1 <= db) by (unfold db; lia).
  unfold Double.mul, SFmul, Double.canon. fold da db. cbn [xorb].
  apply binary_round_aux_integer.
  - lia.
  - fold dp. lia.
  - rewrite Pos2Z.inj_mul, !to_pos_shifted by lia.
    replace (- (da - 53 + (db - 53))) with ((53 - da) + (53 - db)) by lia.
    rewrite Z.pow_add_r by lia. rewrite Pos2Z.inj_mul. ring.
Qed.

(** Addition and multiplication of doubles that hold non-negative integers
    are exact as long as the result stays below [2^53]. *)
Lemma double_add_of_Z a b :
  0 <= a -> 0 <= b -> a + b < 2 ^ 53 ->
  Double.add (Double.of_Z a) (Double.of_Z b) = Double.of_Z (a + b).
Proof.
  intros Ha Hb Hsum.
  destruct a as [|a|a], b as [|b|b]; try lia; try reflexivity.
  - rewrite Z.add_0_l, of_Z_pos by lia. reflexivity.
  - rewrite Z.add_0_r, of_Z_pos by lia. reflexivity.
  - rewrite !of_Z_pos by lia. rewrite canon_add by lia.
    change (Zpos a + Zpos b) with (Zpos (a + b)). rewrite of_Z_pos; [reflexivity|].
    rewrite Pos2Z.inj_add. lia.
Qed.

Lemma double_mul_of_Z a b :
  0 <= a < 2 ^ 53 -> 0 <= b < 2 ^ 53 -> a * b < 2 ^ 53 ->
  Double.mul (Double.of_Z a) (Double.of_Z b) = Double.of_Z (a * b).
Proof.
  intros Ha Hb Hprod.
  destruct a as [|a|a], b as [|b|b]; try lia.
  - reflexivity.
  - rewrite of_Z_pos by lia. reflexivity.
  - rewrite of_Z_pos by lia. reflexivity.
  - rewrite !of_Z_pos by lia. rewrite canon_mul by lia.
    change (Zpos a * Zpos b) with (Zpos (a * b)). rewrite of_Z_pos; [reflexivity|].
    rewrite Pos2Z.inj_mul. lia.
Qed.

(** The cart's subtotal of whole-number lines, computed on doubles. *)
Lemma subtotal_nonneg items :
  Forall (fun item => 0 <= Cart.price item < 2 ^ 53 /\ 0 <= Cart.quantity item < 2 ^ 53)
         items ->
  0 <= Cart.subtotal items.
Proof.
  induction 1 as [|item rest Hitem _ IH]; [reflexivity|].
  rewrite subtotal_cons. nia.
Qed.

Lemma doubles_subtotal items : forall acc,
  Forall (fun item => 0 <= Cart.price item < 2 ^ 53 /\ 0 <= Cart.quantity item < 2 ^ 53)
         items ->
  0 <= acc ->
  acc + Cart.subtotal items < 2 ^ 53 ->
  List.fold_left
    (fun total item =>
       Double.add total (Double.mul (Doubles.price item) (Doubles.quantity item)))
    (List.map Doubles.line_of items) (Double.of_Z acc)
  = Double.of_Z (acc + Cart.subtotal items).
Proof.
  induction items as [|item rest IH]; intros acc Hitems Hacc Hbound.
  - simpl. f_equal. unfold Cart.subtotal. simpl. lia.
  - apply List.Forall_cons_iff in Hitems as [Hitem Hrest].
    pose proof (subtotal_nonneg rest Hrest) as Hnonneg.
    rewrite subtotal_cons in Hbound.
    assert (Hline : 0 <= Cart.price item * Cart.quantity item) by nia.
    cbn [List.map List.fold_left Doubles.line_of Doubles.price Doubles.quantity].
    rewrite double_mul_of_Z by lia.
    rewrite double_add_of_Z by lia.
    rewrite IH by (try assumption; lia).
    f_equal. rewrite subtotal_cons. lia.
Qed.

Lemma doubles_total_price items :
  Forall (fun item => 0 <= Cart.price item < 2 ^ 53 /\ 0 <= Cart.quantity item < 2 ^ 53)
         items ->
  Cart.subtotal items < 2 ^ 53 ->
  List.map Doubles.total_price (List.map Doubles.line_of items)
  = List.map (fun item => Double.of_Z (Cart.price item * Cart.quantity item)) items.
Proof.
  induction 1 as [|item rest Hitem Hrest IH]; intros Hbound; [reflexivity|].
  pose proof (subtotal_nonneg rest Hrest) as Hnonneg.
  rewrite subtotal_cons in Hbound.
  assert (Hline : 0 <= Cart.price item * Cart.quantity item) by nia.
  cbn [List.map]. rewrite IH by lia. f_equal.
  unfold Doubles.total_price, Doubles.line_of.
  cbn [Doubles.price Doubles.quantity].
  apply double_mul_of_Z; lia.
Qed.

Lemma doubles_totalWithShipping items fee :
  Forall (fun item => 0 <= Cart.price item < 2 ^ 53 /\ 0 <= Cart.quantity item < 2 ^ 53)
         items ->
  0 <= fee ->
  Cart.subtotal items + fee < 2 ^ 53 ->
  Doubles.totalWithShipping (List.map Doubles.line_of items) (Double.of_Z fee)
  = Double.of_Z (Cart.subtotal items + fee).
Proof.
  intros Hitems Hfee Hbound.
  pose proof (subtotal_nonneg items Hitems) as Hnonneg.
  unfold Doubles.totalWithShipping, Doubles.selectedItemsTotal.
  rewrite (doubles_subtotal items 0) by (try assumption; lia).
  rewrite Z.add_0_l. apply double_add_of_Z; lia.
Qed.

(** Both handlers of the checkout page place the order through the
    order-service [createOrder], with the page's total and the selected
    items. *)
Lemma checkout_places_order env today w st pid w' cart' msg orderId :
  Checkout.handleSubmit env today w st
    = (w', cart', Checkout.ToastSuccess msg (Some orderId))
  \/ Checkout.onPaymentSuccess env today w st pid
    = (w', cart', Checkout.ToastSuccess msg (Some orderId)) ->
  exists orderData,
    OrderService.total_amount orderData = Some (Checkout.totalWithShipping st) /\
    OrderService.createOrder env w orderData (Some (Checkout.selectedItems st))
      = (w', Returned (Some orderId)).
Proof.
  intros [H|H].
  - exists (Checkout.orderData_submit today st). split; [reflexivity|].
    unfold Checkout.handleSubmit in H.
    destruct (Checkout.validateShippingInfo _); [discriminate|].
    destruct (Checkout.selectedItems st) eqn:Hsel; [discriminate|].
    destruct (Checkout.paymentMethod st).
    + destruct (Checkout.clientSecret st); discriminate.
    + destruct (OrderService.createOrder _ _ _ _) as [w1 [r|e]]; [|discriminate].
      injection H as -> _ _ ->. reflexivity.
  - exists (Checkout.orderData_paid today st pid). split; [reflexivity|].
    unfold Checkout.onPaymentSuccess in H.
    destruct (OrderService.createOrder _ _ _ _) as [w1 [[r|]|e]]; try discriminate.
    destruct (String.eqb r ""); [discriminate|].
    injection H as -> _ _ ->. reflexivity.
Qed.

(** C1 (amended): an order placed from the checkout page whose order items
    the backend accepted, for selected cart lines with whole-number prices
    and quantities and a total below [2^53], has a [total_amount] equal to
    the sum of the [total_price] of its order items, one per selected cart
    item and each the item's unit price times its quantity, plus the fee of
    the selected delivery option. The rows inserted for the order are all
    the order items under its id when no earlier row carries that id. On
    such lines the double arithmetic of the page is exact: the total it
    computes and the [total_price] of each order item are the doubles that
    hold the stored integers. *)
Theorem checkout_order_total env today w st pid w' cart' msg orderId chosen :
  Checkout.handleSubmit env today w st
    = (w', cart', Checkout.ToastSuccess msg (Some orderId))
  \/ Checkout.onPaymentSuccess env today w st pid
    = (w', cart', Checkout.ToastSuccess msg (Some orderId)) ->
  Checkout.selectedDeliveryDetails (Checkout.selectedDeliveryOption st) = Some chosen ->
  order_items_insert_error env = None ->
  Forall (fun item => 0 <= Cart.price item < 2 ^ 53 /\ 0 <= Cart.quantity item < 2 ^ 53)
         (Checkout.selectedItems st) ->
  Checkout.totalWithShipping st < 2 ^ 53 ->
  exists row items,
    orders w' = (orders w ++ [row])%list /\
    o_id row = orderId /\
    order_items w' = (order_items w ++ items)%list /\
    items = List.map (order_item_of orderId) (Checkout.selectedItems st) /\
    Forall (fun item => oi_order_id item = orderId /\
                        oi_total_price item = oi_unit_price item * oi_quantity item)
           items /\
    (order_items_of w orderId = [] -> order_items_of w' orderId = items) /\
    o_total_amount row = sum_total_price items + Checkout.fee chosen /\
    Doubles.totalWithShipping (List.map Doubles.line_of (Checkout.selectedItems st))
                              (Double.of_Z (Checkout.fee chosen))
    = Double.of_Z (o_total_amount row) /\
    List.map Doubles.total_price (List.map Doubles.line_of (Checkout.selectedItems st))
    = List.map (fun item => Double.of_Z (oi_total_price item)) items.
Proof.
  intros Hplaced Hoption Hitems Hwhole Hbound.
  destruct (checkout_places_order _ _ _ _ _ _ _ _ _ Hplaced) as (orderData & Htotal & Hrun).
  destruct (createOrder_row _ _ _ _ _ _ Hrun)
    as (row & Horders & Hid & _ & _ & Hamount & Hrows).
  rewrite Hitems in Hrows.
  assert (Hsum : o_total_amount row
                 = Cart.subtotal (Checkout.selectedItems st) + Checkout.fee chosen).
  { rewrite Hamount, Htotal, num_or_zero.
    unfold Checkout.totalWithShipping, Cart.selectedItemsTotal, Checkout.selectedItems.
    rewrite (selectedDeliveryFee_details _ _ Hoption). reflexivity. }
  assert (Hfee : 0 <= Checkout.fee chosen).
  { apply selectedDeliveryDetails_in in Hoption as [Hin _]. simpl in Hin.
    destruct Hin as [<-|[<-|[<-|[]]]]; simpl; lia. }
  assert (Hbound' : Cart.subtotal (Checkout.selectedItems st) + Checkout.fee chosen
                    < 2 ^ 53).
  { unfold Checkout.totalWithShipping, Cart.selectedItemsTotal in Hbound.
    rewrite (selectedDeliveryFee_details _ _ Hoption) in Hbound. exact Hbound. }
  exists row, (List.map (order_item_of orderId) (Checkout.selectedItems st)).
  repeat split; try assumption.
  - apply List.Forall_forall. intros r Hr.
    apply List.in_map_iff in Hr as (item & <- & _). split; reflexivity.
  - intros Hfresh. unfold order_items_of in *.
    rewrite Hrows, List.filter_app, Hfresh. apply order_items_of_new.
  - rewrite Hsum, sum_total_price_order_items. reflexivity.
  - rewrite Hsum. apply doubles_totalWithShipping; assumption.
  - rewrite (List.map_map (order_item_of orderId)).
    apply doubles_total_price; [assumption|]. lia.
Qed.

(** The page's total for one item of price 500 and quantity 2 with the
    same-day fee of 150, and the order it places. *)
Example checkout_example_total :
  Checkout.totalWithShipping Sample.checkout = 1150 /\
  exists w' row,
    Checkout.handleSubmit Sample.env 20000 (Sample.world 10) Sample.checkout
      = (w', [], Checkout.ToastSuccess "Order placed successfully!" (Some "order-0001")) /\
    orders w' = [row] /\ o_total_amount row = 1150 /\
    List.map oi_total_price (order_items_of w' "order-0001") = [1000].
Proof.
  split; [reflexivity|].
  eexists _, _. split; [vm_compute; reflexivity|].
  vm_compute. auto.
Qed.

Lemma checkout_order_total_witness :
  exists row items,
    orders (Checkout.handleSubmit Sample.env 20000 (Sample.world 10) Sample.checkout).1.1
      = ([] ++ [row])%list /\
    o_id row = "order-0001" /\
    order_items
      (Checkout.handleSubmit Sample.env 20000 (Sample.world 10) Sample.checkout).1.1
      = ([] ++ items)%list /\
    items = List.map (order_item_of "order-0001") [Sample.basket] /\
    Forall (fun item => oi_order_id item = "order-0001" /\
                        oi_total_price item = oi_unit_price item * oi_quantity item)
           items /\
    (order_items_of (Sample.world 10) "order-0001" = [] ->
     order_items_of
       (Checkout.handleSubmit Sample.env 20000 (Sample.world 10) Sample.checkout).1.1
       "order-0001"
     = items) /\
    o_total_amount row = sum_total_price items + 150 /\
    Doubles.totalWithShipping (List.map Doubles.line_of [Sample.basket]) (Double.of_Z 150)
    = Double.of_Z (o_total_amount row) /\
    List.map Doubles.total_price (List.map Doubles.line_of [Sample.basket])
    = List.map (fun item => Double.of_Z (oi_total_price item)) items.
Proof.
  apply (checkout_order_total Sample.env 20000 (Sample.world 10) Sample.checkout ""
           _ [] "Order placed successfully!" "order-0001" Sample.same_day).
  - left. vm_compute. reflexivity.
  - reflexivity.
  - reflexivity.
  - repeat constructor; vm_compute; congruence.
  - reflexivity.
Defined.

(** When the backend rejects the order items, the order is still placed,
    with the full total and no order items. *)
Lemma checkout_order_total_items_rejected :
  ~ (forall env today w st w' cart' msg orderId chosen,
        Checkout.handleSubmit env today w st
          = (w', cart', Checkout.ToastSuccess msg (Some orderId)) ->
        Checkout.selectedDeliveryDetails (Checkout.selectedDeliveryOption st)
          = Some chosen ->
        order_items_of w orderId = [] ->
        exists row,
          orders w' = (orders w ++ [row])%list /\
          o_id row = orderId /\
          o_total_amount row
            = sum_total_price (order_items_of w' orderId) + Checkout.fee chosen).
Proof.
  intros claim.
  destruct (claim Sample.env_items_rejected 20000 (Sample.world 10) Sample.checkout
                  (Checkout.handleSubmit Sample.env_items_rejected 20000
                                         (Sample.world 10) Sample.checkout).1.1
                  [] "Order placed successfully!" "order-0001" Sample.same_day)
    as (row & Horders & _ & Htotal).
  - vm_compute. reflexivity.
  - reflexivity.
  - reflexivity.
  - vm_compute in Horders. injection Horders as <-.
    vm_compute in Htotal. discriminate.
Qed.

(** With prices that have centavos the page's total is a rounded sum. For
    three lines of 150.10, 150.20 and 150.70, one piece each, and the
    standard fee of 50, the page computes 500.99999999999994, the double
    below 501: it is neither the double 501 nor the exact sum of the three
    [total_price] values and the fee. *)
Lemma checkout_total_with_centavos :
  Doubles.totalWithShipping Sample.centavo_lines (Double.of_Z 50)
  = S754_finite false 8813685208252415 (-44) /\
  Double.of_Z 501 = S754_finite false 8813685208252416 (-44) /\
  Doubles.totalWithShipping Sample.centavo_lines (Double.of_Z 50) <> Double.of_Z 501 /\
  Double.exact (Doubles.totalWithShipping Sample.centavo_lines (Double.of_Z 50))
  <> Doubles.exact_sum (List.map Doubles.total_price Sample.centavo_lines
                          ++ [Double.of_Z 50]).
Proof.
  split; [vm_compute; reflexivity|]. split; [vm_compute; reflexivity|].
  split; vm_compute; discriminate.
Qed.

(** C1 as stated fails in two ways: the order is placed, with the full
    total, although the backend rejects its order items; and for prices with
    centavos the total the page computes is not the sum of the order items'
    [total_price] values and the fee. *)
Lemma checkout_order_total_fails :
  ~ (forall env today w st w' cart' msg orderId chosen,
        Checkout.handleSubmit env today w st
          = (w', cart', Checkout.ToastSuccess msg (Some orderId)) ->
        Checkout.selectedDeliveryDetails (Checkout.selectedDeliveryOption st)
          = Some chosen ->
        order_items_of w orderId = [] ->
        exists row,
          orders w' = (orders w ++ [row])%list /\
          o_id row = orderId /\
          o_total_amount row
            = sum_total_price (order_items_of w' orderId) + Checkout.fee chosen) /\
  ~ (forall lines fee,
        Double.exact (Doubles.totalWithShipping lines fee)
        = Doubles.exact_sum (List.map Doubles.total_price lines ++ [fee])).
Proof.
  split; [exact checkout_order_total_items_rejected|].
  intros claim.
  apply (proj2 (proj2 (proj2 checkout_total_with_centavos))), claim.
Qed.

(** ** Stock decrement and inventory log *)

Section Inventory.

Variable env : Env.
Variable orderId : string.

Lemma update_inventory_products_other w i item pid :
  pid <> Cart.id item ->
  products (OrderService.update_inventory env orderId w i item) !! pid
  = products w !! pid.
Proof.
  intros Hne. unfold OrderService.update_inventory.
  repeat (case_match; simpl; try reflexivity);
    apply lookup_alter_ne; congruence.
Qed.

Lemma update_inventory_logs w i item :
  exists added,
    inventory_logs (OrderService.update_inventory env orderId w i item)
    = (inventory_logs w ++ added)%list /\
    forall pid, pid <> Cart.id item -> logs_of_product pid added = [].
Proof.
  unfold OrderService.update_inventory.
  repeat (case_match; simpl);
    try (exists []; split; [rewrite app_nil_r; reflexivity | reflexivity]).
  all: eexists [_]; split; [reflexivity|];
    intros pid Hne; simpl;
    destruct (String.eqb_spec (Cart.id item) pid); congruence.
Qed.

Lemma update_inventory_decrement w i item product :
  products w !! Cart.id item = Some product ->
  products_select_error env i = None ->
  products_update_error env i = None ->
  let w1 := OrderService.update_inventory env orderId w i item in
  p_stock_quantity <$> products w1 !! Cart.id item
    = Some (Some (Z.max 0 (num_or (p_stock_quantity product) 0 - Cart.quantity item)))
  /\ inventory_logs w1
     = (inventory_logs w ++
          match inventory_logs_insert_error env i with
          | None => [fulfillment_log env orderId item product]
          | Some _ => []
          end)%list.
Proof.
  intros Hp Hsel Hupd. unfold OrderService.update_inventory, OrderService.select_product.
  rewrite Hsel, Hp. simpl. rewrite Hupd.
  destruct (inventory_logs_insert_error env i); simpl;
    repeat (case_match; simpl);
    rewrite ?app_nil_r, ?lookup_alter_eq, ?Hp; simpl; auto.
Qed.

End Inventory.

Lemma logs_of_product_app pid l1 l2 :
  logs_of_product pid (l1 ++ l2) = (logs_of_product pid l1 ++ logs_of_product pid l2)%list.
Proof. apply List.filter_app. Qed.

Lemma logs_of_product_own env orderId item product :
  logs_of_product (Cart.id item) [fulfillment_log env orderId item product]
  = [fulfillment_log env orderId item product].
Proof.
  unfold logs_of_product. simpl. rewrite String.eqb_refl. reflexivity.
Qed.

(** The loop over distinct products: products outside the cart keep their
    row, and each line whose product is read and updated leaves the floored
    stock and the log row the backend accepted. *)
Lemma update_inventories_distinct env orderId items : forall w k,
  List.NoDup (List.map Cart.id items) ->
  let w' := OrderService.update_inventories env orderId w k items in
  (forall pid, ~ In pid (List.map Cart.id items) ->
               products w' !! pid = products w !! pid) /\
  exists added,
    inventory_logs w' = (inventory_logs w ++ added)%list /\
    (forall pid, ~ In pid (List.map Cart.id items) -> logs_of_product pid added = []) /\
    forall j item product,
      items !! j = Some item ->
      products w !! Cart.id item = Some product ->
      products_select_error env (k + j) = None ->
      products_update_error env (k + j) = None ->
      p_stock_quantity <$> products w' !! Cart.id item
        = Some (Some (Z.max 0 (num_or (p_stock_quantity product) 0 - Cart.quantity item)))
      /\ logs_of_product (Cart.id item) added
         = match inventory_logs_insert_error env (k + j)%nat with
           | None => [fulfillment_log env orderId item product]
           | Some _ => []
           end.
Proof.
  induction items as [|first rest IH]; intros w k Hnodup; simpl.
  - split; [reflexivity|]. exists []. rewrite app_nil_r.
    split; [reflexivity|]. split; [reflexivity|].
    intros j' item product Hj. discriminate.
  - simpl in Hnodup. apply List.NoDup_cons_iff in Hnodup as [Hfirst Hrest].
    set (w1 := OrderService.update_inventory env orderId w k first).
    destruct (IH w1 (S k) Hrest) as (Hother & added_rest & Hlogs & Hnone & Hlines).
    destruct (update_inventory_logs env orderId w k first) as (added0 & Hlogs0 & Hnone0).
    fold w1 in Hlogs0.
    split.
    + intros pid Hpid. simpl in Hpid. apply Decidable.not_or in Hpid as [Hne Hnin].
      rewrite Hother by assumption.
      apply update_inventory_products_other. congruence.
    + exists (added0 ++ added_rest)%list. split; [|split].
      * rewrite Hlogs, Hlogs0, app_assoc. reflexivity.
      * intros pid Hpid. simpl in Hpid. apply Decidable.not_or in Hpid as [Hne Hnin].
        rewrite logs_of_product_app, Hnone0, Hnone by congruence. reflexivity.
      * intros [|j'] item product Hj Hp Hsel Hupd.
        -- injection Hj as ->. rewrite Nat.add_0_r in *.
           destruct (update_inventory_decrement env orderId w k item product Hp Hsel Hupd)
             as [Hstock Hadd].
           fold w1 in Hstock, Hadd. split.
           ++ rewrite Hother by assumption. exact Hstock.
           ++ rewrite Hlogs0 in Hadd. apply app_inv_head in Hadd. subst added0.
              rewrite logs_of_product_app, Hnone by assumption. rewrite app_nil_r.
              destruct (inventory_logs_insert_error env k); [reflexivity|].
              apply logs_of_product_own.
        -- simpl in Hj.
           assert (Hne : Cart.id item <> Cart.id first).
           { intros Heq. apply Hfirst. rewrite <- Heq.
             apply List.in_map. eapply list_elem_of_In, list_elem_of_lookup_2, Hj. }
           replace (k + S j')%nat with (S k + j')%nat in * by lia.
           destruct (Hlines j' item product Hj) as [Hstock Hadd]; try assumption.
           { unfold w1. rewrite update_inventory_products_other by assumption. exact Hp. }
           split; [exact Hstock|].
           rewrite logs_of_product_app, Hnone0 by assumption. exact Hadd.
Qed.

(** C2 (amended): when an order is created for a cart with distinct
    products, every product whose stock is read and updated ends with the
    stock [max(0, previous - quantity)] (a missing stock counting as 0), and
    the inventory log gains for it exactly the one row recording the previous
    quantity, the new quantity and the negative change if the backend accepts
    the log insert, and no row if it rejects it. *)
Theorem order_stock_decrement env w orderData items w' orderId i item product :
  OrderService.createOrder env w orderData (Some items) = (w', Returned (Some orderId)) ->
  List.NoDup (List.map Cart.id items) ->
  items !! i = Some item ->
  products w !! Cart.id item = Some product ->
  products_select_error env i = None ->
  products_update_error env i = None ->
  p_stock_quantity <$> products w' !! Cart.id item
    = Some (Some (Z.max 0 (to_number (p_stock_quantity product) - Cart.quantity item)))
  /\ exists added,
       inventory_logs w' = (inventory_logs w ++ added)%list /\
       logs_of_product (Cart.id item) added
       = match inventory_logs_insert_error env i with
         | None =>
             [mkInventoryLogRow
                (Cart.id item)
                (to_number (p_stock_quantity product))
                (Z.max 0 (to_number (p_stock_quantity product) - Cart.quantity item))
                (- Cart.quantity item)
                (OrderService.fulfillment_reason orderId) (now env)
                (p_seller_id product)]
         | Some _ => []
         end.
Proof.
  intros Hrun Hnodup Hi Hp Hsel Hupd.
  destruct (createOrder_returned _ _ _ _ _ _ Hrun)
    as (row & user & validated & _ & _ & _ & _ & _ & _ & ->).
  destruct (notify_seller_frame
              (OrderService.write_items env (order_stored env w row) orderId
                                        (Some items))
              orderData orderId) as (_ & _ & -> & ->).
  destruct items as [|first others]; [discriminate|].
  unfold OrderService.write_items.
  set (w2 := (insert_order_items env (order_stored env w row)
                (List.map (order_item_of orderId) (first :: others))).1).
  assert (Hw2 : products w2 = products w /\ inventory_logs w2 = inventory_logs w).
  { unfold w2, insert_order_items.
    destruct (order_stored_frame env w row) as (_ & _ & Hstored_p & Hstored_l & _).
    destruct (order_items_insert_error env); simpl; auto. }
  destruct Hw2 as [Hw2p Hw2l].
  replace (let '(w0, _) :=
             insert_order_items env (order_stored env w row)
               (List.map (order_item_of orderId) (first :: others)) in
           OrderService.update_inventories env orderId w0 0 (first :: others))
    with (OrderService.update_inventories env orderId w2 0 (first :: others))
    by (unfold w2; destruct (insert_order_items _ _ _); reflexivity).
  destruct (update_inventories_distinct env orderId (first :: others) w2 0%nat Hnodup)
    as (_ & added & Hlogs & _ & Hlines).
  rewrite <- Hw2p in Hp.
  destruct (Hlines i item product Hi Hp Hsel Hupd) as [Hstock Hadd].
  split; [exact Hstock|].
  exists added. rewrite Hlogs, Hw2l. split; [reflexivity|exact Hadd].
Qed.

Lemma order_stock_decrement_witness :
  p_stock_quantity <$>
    products (OrderService.createOrder Sample.env (Sample.world 3)
                (Checkout.orderData_submit 20000 Sample.checkout)
                (Some [Sample.basket])).1 !! "p1"
    = Some (Some 1)
  /\ exists added,
       inventory_logs (OrderService.createOrder Sample.env (Sample.world 3)
                         (Checkout.orderData_submit 20000 Sample.checkout)
                         (Some [Sample.basket])).1
         = ([] ++ added)%list /\
       logs_of_product "p1" added
       = [mkInventoryLogRow "p1" 3 1 (-2) "Order fulfillment (Order #order-00)" 20000
                            (Some Sample.seller_uuid)].
Proof.
  apply (order_stock_decrement Sample.env (Sample.world 3)
           (Checkout.orderData_submit 20000 Sample.checkout) [Sample.basket]
           _ "order-0001" 0%nat Sample.basket (Sample.product 3)).
  - vm_compute. reflexivity.
  - repeat constructor. simpl. tauto.
  - reflexivity.
  - reflexivity.
  - reflexivity.
  - reflexivity.
Defined.

(** C2 as stated fails: a product is decremented although the backend
    rejects its inventory log row, so that no log entry exists for it. *)
Lemma order_stock_decrement_log_rejected :
  (OrderService.createOrder Sample.env_logs_rejected (Sample.world 3)
     (Checkout.orderData_submit 20000 Sample.checkout) (Some [Sample.basket])).2
    = Returned (Some "order-0001")
  /\ p_stock_quantity <$> products (Sample.world 3) !! "p1" = Some (Some 3)
  /\ p_stock_quantity <$>
       products (OrderService.createOrder Sample.env_logs_rejected (Sample.world 3)
                   (Checkout.orderData_submit 20000 Sample.checkout)
                   (Some [Sample.basket])).1 !! "p1"
     = Some (Some (Z.max 0 (3 - 2)))
  /\ List.length
       (logs_of_product "p1"
          (inventory_logs
             (OrderService.createOrder Sample.env_logs_rejected (Sample.world 3)
                (Checkout.orderData_submit 20000 Sample.checkout)
                (Some [Sample.basket])).1))
     <> 1%nat.
Proof.
  vm_compute. repeat split; congruence.
Qed.

(** ** Empty carts *)

(** C3 (amended): the checkout page and the cart-service [createOrder]
    reject an empty cart with an error and leave every table as it was; the
    order-service [createOrder], given no cart items, writes no order item
    and changes no stock and no inventory log (it does insert the order
    row). *)
Theorem empty_cart_rejected env today w st shippingAddress billingAddress paymentMethod
        orderData cartItems :
  Checkout.selectedItems st = [] ->
  cartItems = None \/ cartItems = Some [] ->
  (exists msg,
      CartService.createOrder env w [] shippingAddress billingAddress paymentMethod
      = (w, Thrown msg)) /\
  (exists msg,
      Checkout.handleSubmit env today w st = (w, Checkout.items st, Checkout.ToastError msg))
  /\
  order_items (OrderService.createOrder env w orderData cartItems).1 = order_items w /\
  products (OrderService.createOrder env w orderData cartItems).1 = products w /\
  inventory_logs (OrderService.createOrder env w orderData cartItems).1 = inventory_logs w.
Proof.
  intros Hsel Hcart. split; [|split].
  - unfold CartService.createOrder.
    destruct (error (auth env)); [eauto|].
    destruct (data (auth env)); eauto.
  - unfold Checkout.handleSubmit. rewrite Hsel.
    destruct (Checkout.validateShippingInfo _); eauto.
  - assert (Hw : forall w1 orderId,
               OrderService.write_items env w1 orderId cartItems = w1).
    { intros w1 orderId. destruct Hcart as [-> | ->]; reflexivity. }
    unfold OrderService.createOrder.
    destruct (data (auth env)) as [user|]; [|auto].
    destruct (OrderService.validatedOrderData env user orderData) as [validated|];
      [|auto].
    unfold insert_order.
    destruct (error (orders_insert env)); [destruct (data (orders_insert env)); auto|].
    destruct (data (orders_insert env)) as [new_id|]; [|auto]. simpl.
    destruct (order_stored_frame env w (set_id validated new_id))
      as (_ & Hitems & Hproducts & Hlogs & _).
    destruct (String.eqb new_id ""); [auto|]. simpl.
    rewrite Hw.
    destruct (notify_seller_frame
                (order_stored env w (set_id validated new_id)) orderData new_id)
      as (_ & -> & -> & ->).
    auto.
Qed.

Lemma empty_cart_rejected_witness :
  (exists msg,
      CartService.createOrder Sample.env (Sample.world 10) [] "a" "a" "cod"
      = (Sample.world 10, Thrown msg)) /\
  (exists msg,
      Checkout.handleSubmit Sample.env 20000 (Sample.world 10)
        (Checkout.mkState [] Checkout.cod "standard" Sample.shipping None)
      = (Sample.world 10, [], Checkout.ToastError msg))
  /\
  order_items (OrderService.createOrder Sample.env (Sample.world 10)
                 (Checkout.orderData_submit 20000 Sample.checkout) (Some [])).1
    = [] /\
  products (OrderService.createOrder Sample.env (Sample.world 10)
              (Checkout.orderData_submit 20000 Sample.checkout) (Some [])).1
    = products (Sample.world 10) /\
  inventory_logs (OrderService.createOrder Sample.env (Sample.world 10)
                    (Checkout.orderData_submit 20000 Sample.checkout) (Some [])).1
    = [].
Proof.
  apply (empty_cart_rejected Sample.env 20000 (Sample.world 10)
           (Checkout.mkState [] Checkout.cod "standard" Sample.shipping None)
           "a" "a" "cod" (Checkout.orderData_submit 20000 Sample.checkout) (Some [])).
  - reflexivity.
  - right. reflexivity.
Defined.

(** C3 as stated fails: the order-service [createOrder] does not reject an
    empty cart; it inserts the order row and returns its id. *)
Lemma empty_cart_order_service_accepts :
  ~ (forall env w orderData,
        exists msg,
          OrderService.createOrder env w orderData (Some []) = (w, Thrown msg)).
Proof.
  intros claim.
  destruct (claim Sample.env (Sample.world 10)
                  (Checkout.orderData_submit 20000 Sample.checkout)) as [msg Hrun].
  vm_compute in Hrun. discriminate.
Qed.

(** What the order-service [createOrder] does with an empty cart. *)
Example empty_cart_order_inserted :
  exists w' row,
    OrderService.createOrder Sample.env (Sample.world 10)
      (Checkout.orderData_submit 20000 Sample.checkout) (Some [])
    = (w', Returned (Some "order-0001")) /\
    orders w' = [row] /\ o_id row = "order-0001" /\ order_items w' = [].
Proof.
  eexists _, _. split; [vm_compute; reflexivity|]. vm_compute. auto.
Qed.

(** ** Cancellation *)

(** A signed-in buyer's cancellation from a card that shows [processing]
    sets the status of the buyer's rows with the card's id to [cancelled];
    of the other tables only [seller_customers] can change, through the
    trigger. *)
Lemma cancel_processing_order env w order user :
  OrderCard.status order = processing ->
  data (auth env) = Some user ->
  OrderCard.canBeCancelled order = true /\
  exists w',
    OrderCard.handleCancelOrder env None w order
      = (w', OrderCard.ToastSuccess "Order cancelled successfully") /\
    w' = after_status_update
           env
           (with_orders w (OrderCard.cancel_rows (OrderCard.id order) user (orders w)))
           (OrderCard.cancelled_rows
              (OrderCard.id order) user
              (OrderCard.cancel_rows (OrderCard.id order) user (orders w))) /\
    orders w' = OrderCard.cancel_rows (OrderCard.id order) user (orders w) /\
    order_items w' = order_items w /\
    products w' = products w /\
    inventory_logs w' = inventory_logs w /\
    rpc_calls w' = rpc_calls w.
Proof.
  intros Hstatus Huser.
  unfold OrderCard.handleCancelOrder, OrderCard.canBeCancelled.
  rewrite Hstatus, Huser. split; [reflexivity|]. simpl.
  eexists. split; [reflexivity|]. split; [reflexivity|].
  apply (after_status_update_frame
           env _
           (with_orders w (OrderCard.cancel_rows (OrderCard.id order) user (orders w)))).
Qed.

Lemma cancel_rows_status oid uid rows row :
  In row rows -> o_id row = oid -> o_buyer_id row = uid ->
  In (set_status row cancelled) (OrderCard.cancel_rows oid uid rows).
Proof.
  intros Hin <- <-. unfold OrderCard.cancel_rows.
  apply List.in_map_iff. exists row.
  rewrite !String.eqb_refl. auto.
Qed.

Lemma cancel_rows_other_id oid uid rows row :
  In row rows -> o_id row <> oid -> In row (OrderCard.cancel_rows oid uid rows).
Proof.
  intros Hin Hid. unfold OrderCard.cancel_rows.
  apply List.in_map_iff. exists row. split; [|exact Hin].
  apply String.eqb_neq in Hid. rewrite Hid. reflexivity.
Qed.

(** The orders after a cancellation attempt: those before it, or those
    before it with the buyer's rows of the card's id cancelled. *)
Lemma handleCancelOrder_orders env update_error w order :
  orders (OrderCard.handleCancelOrder env update_error w order).1 = orders w
  \/ OrderCard.status order = processing /\
     exists user,
       data (auth env) = Some user /\
       orders (OrderCard.handleCancelOrder env update_error w order).1
       = OrderCard.cancel_rows (OrderCard.id order) user (orders w).
Proof.
  unfold OrderCard.handleCancelOrder.
  destruct (OrderCard.status order); simpl; auto.
  destruct (data (auth env)) as [user|]; [|auto].
  destruct update_error; [auto|].
  right. split; [reflexivity|]. exists user. split; [reflexivity|].
  cbn [fst]. rewrite after_status_update_orders. reflexivity.
Qed.

(** C4 (amended): the order card accepts a cancellation only when the
    status it shows is [processing]; when it shows any other status the
    cancel button is not offered and a cancellation attempt ends with an
    error, with no table changed. The status checked is the card's copy:
    as long as the card shows the status stored for its order, no stored
    order in a status other than [processing] is changed by a cancellation
    attempt. *)
Theorem cancel_only_from_processing env update_error w order :
  (forall w' msg,
      OrderCard.handleCancelOrder env update_error w order
        = (w', OrderCard.ToastSuccess msg) ->
      OrderCard.status order = processing) /\
  (In (OrderCard.status order) [pending; payment_approved; shipped; delivered; cancelled] ->
   OrderCard.canBeCancelled order = false /\
   OrderCard.handleCancelOrder env update_error w order
     = (w, OrderCard.ToastError "Only orders in processing status can be cancelled")) /\
  ((forall row, In row (orders w) -> o_id row = OrderCard.id order ->
                o_status row = OrderCard.status order) ->
   forall row, In row (orders w) -> o_status row <> processing ->
               In row (orders (OrderCard.handleCancelOrder env update_error w order).1)).
Proof.
  split; [|split].
  - unfold OrderCard.handleCancelOrder. intros w' msg H.
    destruct (OrderCard.status order); simpl in H; try discriminate; reflexivity.
  - unfold OrderCard.handleCancelOrder, OrderCard.canBeCancelled.
    intros Hin. simpl in Hin.
    destruct Hin as [<-|[<-|[<-|[<-|[<-|[]]]]]]; auto.
  - intros Hshown row Hin Hstatus.
    destruct (handleCancelOrder_orders env update_error w order)
      as [-> | (Hprocessing & user & _ & ->)]; [exact Hin|].
    apply cancel_rows_other_id; [exact Hin|].
    intros Hid. apply Hstatus. rewrite (Hshown row Hin Hid). exact Hprocessing.
Qed.

Lemma cancel_only_from_processing_witness :
  OrderCard.status (OrderCard.mkOrder "order-0002" processing 1150) = processing /\
  (OrderCard.canBeCancelled (OrderCard.mkOrder "order-0001" shipped 1150) = false /\
   OrderCard.handleCancelOrder
     Sample.env None
     (Scenario.world_with [Scenario.order "order-0001" shipped 20000 (Some "paid");
                           Scenario.order "order-0002" processing 20005 (Some "paid")] [])
     (OrderCard.mkOrder "order-0001" shipped 1150)
   = (Scenario.world_with [Scenario.order "order-0001" shipped 20000 (Some "paid");
                           Scenario.order "order-0002" processing 20005 (Some "paid")] [],
      OrderCard.ToastError "Only orders in processing status can be cancelled")) /\
  In (Scenario.order "order-0001" shipped 20000 (Some "paid"))
     (orders (OrderCard.handleCancelOrder
                Sample.env None
                (Scenario.world_with
                   [Scenario.order "order-0001" shipped 20000 (Some "paid");
                    Scenario.order "order-0002" processing 20005 (Some "paid")] [])
                (OrderCard.mkOrder "order-0002" processing 1150)).1).
Proof.
  split; [|split].
  - apply (proj1 (cancel_only_from_processing
                    Sample.env None
                    (Scenario.world_with
                       [Scenario.order "order-0001" shipped 20000 (Some "paid");
                        Scenario.order "order-0002" processing 20005 (Some "paid")] [])
                    (OrderCard.mkOrder "order-0002" processing 1150))
                 (OrderCard.handleCancelOrder
                    Sample.env None
                    (Scenario.world_with
                       [Scenario.order "order-0001" shipped 20000 (Some "paid");
                        Scenario.order "order-0002" processing 20005 (Some "paid")] [])
                    (OrderCard.mkOrder "order-0002" processing 1150)).1
                 "Order cancelled successfully").
    reflexivity.
  - apply (proj1 (proj2 (cancel_only_from_processing
                           Sample.env None
                           (Scenario.world_with
                              [Scenario.order "order-0001" shipped 20000 (Some "paid");
                               Scenario.order "order-0002" processing 20005
                                              (Some "paid")] [])
                           (OrderCard.mkOrder "order-0001" shipped 1150)))).
    simpl. tauto.
  - apply (proj2 (proj2 (cancel_only_from_processing
                           Sample.env None
                           (Scenario.world_with
                              [Scenario.order "order-0001" shipped 20000 (Some "paid");
                               Scenario.order "order-0002" processing 20005
                                              (Some "paid")] [])
                           (OrderCard.mkOrder "order-0002" processing 1150)))).
    + intros row [<-|[<-|[]]]; [discriminate|reflexivity].
    + simpl. auto.
    + discriminate.
Defined.

(** C4 as stated fails: the status that is checked is the one the card
    shows, and the update carries no condition on the stored status. From a
    card that was loaded while the order was in status [processing] the
    buyer cancels the order after it has been delivered. *)
Lemma cancel_from_outdated_card :
  ~ (forall env w order row w' msg,
        In row (orders w) ->
        o_id row = OrderCard.id order ->
        OrderCard.handleCancelOrder env None w order = (w', OrderCard.ToastSuccess msg) ->
        o_status row = processing).
Proof.
  intros claim.
  assert (Hstatus : o_status (Scenario.order "order-0001" delivered 20000 (Some "paid"))
                    = processing).
  { apply (claim Sample.env
                 (Scenario.world_with
                    [Scenario.order "order-0001" delivered 20000 (Some "paid")] [])
                 (OrderCard.mkOrder "order-0001" processing 1150)
                 (Scenario.order "order-0001" delivered 20000 (Some "paid"))
                 (OrderCard.handleCancelOrder
                    Sample.env None
                    (Scenario.world_with
                       [Scenario.order "order-0001" delivered 20000 (Some "paid")] [])
                    (OrderCard.mkOrder "order-0001" processing 1150)).1
                 "Order cancelled successfully");
      [simpl; auto|reflexivity|reflexivity]. }
  discriminate.
Qed.

(** The delivered order after the cancellation from the outdated card. *)
Example cancel_from_outdated_card_result :
  List.map o_status
    (orders (OrderCard.handleCancelOrder
               Sample.env None
               (Scenario.world_with
                  [Scenario.order "order-0001" delivered 20000 (Some "paid")] [])
               (OrderCard.mkOrder "order-0001" processing 1150)).1)
  = [cancelled].
Proof. vm_compute. reflexivity. Qed.

(** ** The inserted order row *)

Lemma validatedOrderData_payment env user orderData validated :
  OrderService.validatedOrderData env user orderData = Returned validated ->
  (OrderService.payment_method orderData = Some "cod" ->
   o_payment_method validated = "cod" /\ o_payment_status validated = Some "pending") /\
  (OrderService.payment_method orderData = Some "stripe" ->
   o_payment_method validated = "Credit Card" /\
   (OrderService.payment_status orderData = Some "succeeded" ->
    o_payment_status validated = Some "paid") /\
   (OrderService.payment_status orderData = None ->
    o_payment_status validated = Some "pending")).
Proof.
  unfold OrderService.validatedOrderData. intros H.
  split; intros Hm; rewrite Hm in H; simpl in H.
  - repeat (case_match; try discriminate); simplify_eq; simpl; auto.
  - split; [|split]; [|intros Hs|intros Hs]; try rewrite Hs in H; simpl in H;
      repeat (case_match; try discriminate); simplify_eq; simpl; auto.
Qed.

(** C5 (amended): a successful run of the order-service [createOrder]
    inserts the order row with status [pending], with a payment status that
    follows the payment method ([pending] for cash on delivery; for a card,
    [paid] once the payment has succeeded and [pending] when no status is
    given), and returns the id of that row. The cart-service [createOrder]
    inserts its row with status [processing], payment status [pending] for a
    card and [awaiting_payment] otherwise, and returns the row itself. *)
Theorem order_writer_initial_row env w :
  (forall orderData cartItems w' orderId,
      OrderService.createOrder env w orderData cartItems = (w', Returned (Some orderId)) ->
      exists row,
        orders w' = (orders w ++ [row])%list /\
        o_id row = orderId /\
        o_status row = pending /\
        (OrderService.payment_method orderData = Some "cod" ->
         o_payment_status row = Some "pending") /\
        (OrderService.payment_method orderData = Some "stripe" ->
         (OrderService.payment_status orderData = Some "succeeded" ->
          o_payment_status row = Some "paid") /\
         (OrderService.payment_status orderData = None ->
          o_payment_status row = Some "pending"))) /\
  (forall items shippingAddress billingAddress paymentMethod w' order,
      CartService.createOrder env w items shippingAddress billingAddress paymentMethod
        = (w', Returned order) ->
      orders w' = (orders w ++ [order])%list /\
      o_status order = processing /\
      o_payment_status order
        = Some (if String.eqb paymentMethod "stripe"
                then "pending" else "awaiting_payment")).
Proof.
  split.
  - intros orderData cartItems w' orderId Hrun.
    destruct (createOrder_returned _ _ _ _ _ _ Hrun)
      as (row & user & validated & _ & Hv & -> & _ & _ & _ & ->).
    destruct (validatedOrderData_row _ _ _ _ Hv) as (_ & Hstatus & _ & _).
    destruct (validatedOrderData_payment _ _ _ _ Hv) as [Hcod Hcard].
    destruct (notify_seller_frame
                (OrderService.write_items env
                   (order_stored env w (set_id validated orderId)) orderId
                   cartItems)
                orderData orderId) as (-> & _).
    exists (set_id validated orderId).
    rewrite write_items_orders, order_stored_orders. simpl.
    repeat split; try assumption; try reflexivity.
    + intros Hm. apply (Hcod Hm).
    + intros Hs. apply (Hcard H), Hs.
    + intros Hs. apply (Hcard H), Hs.
  - intros items shippingAddress billingAddress paymentMethod w' order.
    unfold CartService.createOrder, insert_order, insert_order_items.
    intros Hrun.
    repeat (case_match; try discriminate); simplify_eq; simpl in *; simplify_eq;
      unfold CartService.record_relationship,
        CartService.updateOrCreateSellerCustomerRelationship;
      repeat case_match; simpl; rewrite ?order_stored_orders; auto.
Qed.

Lemma order_writer_initial_row_witness :
  (exists row,
      orders (OrderService.createOrder Sample.env (Sample.world 10)
                (Checkout.orderData_paid 20000 Sample.checkout "pi_1")
                (Some [Sample.basket])).1
        = ([] ++ [row])%list /\
      o_id row = "order-0001" /\
      o_status row = pending /\
      (Some "stripe" = Some "cod" -> o_payment_status row = Some "pending") /\
      (Some "stripe" = Some "stripe" ->
       (Some "succeeded" = Some "succeeded" -> o_payment_status row = Some "paid") /\
       (Some "succeeded" = None -> o_payment_status row = Some "pending"))) /\
  (orders (CartService.createOrder Sample.env (Sample.world 10) [Sample.basket]
             "12 Rizal St" "12 Rizal St" "cod").1
     = ([] ++ [set_id
                 (mkOrderRow "" "buyer-1" (Some Sample.seller_uuid) processing 1150 20000
                             None "Cash on Delivery" (Some "awaiting_payment")
                             "12 Rizal St" "12 Rizal St" None None None None None)
                 "order-0001"])%list /\
   processing = processing /\
   Some "awaiting_payment" = Some "awaiting_payment").
Proof.
  split.
  - apply (proj1 (order_writer_initial_row Sample.env (Sample.world 10))
                 (Checkout.orderData_paid 20000 Sample.checkout "pi_1")
                 (Some [Sample.basket]) _ "order-0001").
    vm_compute. reflexivity.
  - apply (proj2 (order_writer_initial_row Sample.env (Sample.world 10))
                 [Sample.basket] "12 Rizal St" "12 Rizal St" "cod" _
                 (set_id
                    (mkOrderRow "" "buyer-1" (Some Sample.seller_uuid) processing 1150
                                20000 None "Cash on Delivery" (Some "awaiting_payment")
                                "12 Rizal St" "12 Rizal St" None None None None None)
                    "order-0001")).
    vm_compute. reflexivity.
Defined.

(** C5 as stated fails for the cart-service [createOrder]: the row it
    inserts starts in status [processing], and it returns the row, not its
    id. *)
Lemma cart_service_order_starts_processing :
  exists w' order,
    CartService.createOrder Sample.env (Sample.world 10) [Sample.basket]
                            "12 Rizal St" "12 Rizal St" "cod"
    = (w', Returned order) /\
    orders w' = [order] /\
    o_status order = processing /\
    o_status order <> pending.
Proof.
  eexists _, _. split; [vm_compute; reflexivity|].
  vm_compute. repeat split; congruence.
Qed.

(** ** Seller attribution *)

(** C6: when the seller id of the first cart item fails the UUID format
    check, the cart-service [createOrder] still creates the order, for a
    signed-in buyer with a non-empty cart whose inserts the backend accepts:
    the row is stored and returned without a seller id, and no
    seller-customer relationship is recorded or changed. The one trace in
    [seller_customers] is the row without seller, orders or spending that
    the trigger on [orders] adds for the buyer. *)
Theorem invalid_seller_not_attributed env w items shippingAddress billingAddress
        paymentMethod user orderId first :
  error (auth env) = None -> data (auth env) = Some user ->
  head items = Some first ->
  isValidUUID (Cart.seller first) = false ->
  error (orders_insert env) = None -> data (orders_insert env) = Some orderId ->
  order_items_insert_error env = None ->
  exists w' order,
    CartService.createOrder env w items shippingAddress billingAddress paymentMethod
      = (w', Returned order) /\
    o_id order = orderId /\
    o_seller_id order = None /\
    orders w' = (orders w ++ [order])%list /\
    order_items w'
      = (order_items w ++ List.map (order_item_of orderId) items)%list /\
    seller_customers w' = seller_customers w /\
    unattributed_customers w'
      = (unattributed_customers w ++
           [(user, mkSellerCustomerRow (Some 0) (Some 0) (now env) (database_now env)
                                       (database_now env) "active" [])])%list.
Proof.
  intros Herr Huser Hfirst Hinvalid Hins_err Hins Hitems.
  unfold CartService.createOrder, insert_order, insert_order_items.
  rewrite Herr, Huser, Hins_err, Hins.
  destruct items as [|item rest]; [discriminate|].
  injection Hfirst as ->. simpl.
  rewrite Hitems.
  assert (Hseller :
            match or_null (Some (Cart.seller first)) with
            | Some s => if isValidUUID s then Some s else None
            | None => None
            end = None).
  { unfold or_null. destruct (truthy (Some (Cart.seller first))); [|reflexivity].
    rewrite Hinvalid. reflexivity. }
  rewrite Hseller. eexists _, _. repeat split; reflexivity.
Qed.

Lemma invalid_seller_not_attributed_witness :
  exists w' order,
    CartService.createOrder Sample.env (Sample.world 10)
      [Cart.mkCartItem "p1" "Woven basket" 500 2 "basket.png" "shop-42" true]
      "12 Rizal St" "12 Rizal St" "cod"
      = (w', Returned order) /\
    o_id order = "order-0001" /\
    o_seller_id order = None /\
    orders w' = ([] ++ [order])%list /\
    order_items w'
      = ([] ++ List.map (order_item_of "order-0001")
                 [Cart.mkCartItem "p1" "Woven basket" 500 2 "basket.png" "shop-42"
                                  true])%list /\
    seller_customers w' = ∅ /\
    unattributed_customers w'
      = ([] ++ [("buyer-1",
                 mkSellerCustomerRow (Some 0) (Some 0) 20000 20000 20000 "active" [])])%list.
Proof.
  apply (invalid_seller_not_attributed Sample.env (Sample.world 10)
           [Cart.mkCartItem "p1" "Woven basket" 500 2 "basket.png" "shop-42" true]
           "12 Rizal St" "12 Rizal St" "cod" "buyer-1" "order-0001"
           (Cart.mkCartItem "p1" "Woven basket" 500 2 "basket.png" "shop-42" true));
    reflexivity.
Defined.

(** ** Low-stock notification *)

(** One iteration of the stock loop: the request it adds when the product
    is read and updated and its name is found. *)
Lemma update_inventory_low_stock env orderId w i item product :
  products w !! Cart.id item = Some product ->
  products_select_error env i = None ->
  products_update_error env i = None ->
  product_details_missing env i = false ->
  rpc_calls (OrderService.update_inventory env orderId w i item)
  = (rpc_calls w ++
       let newQuantity :=
         Z.max 0 (to_number (p_stock_quantity product) - Cart.quantity item) in
       if (1 <=? newQuantity) && (newQuantity <=? 5)
       then [LowStockNotification (p_seller_id product) (Cart.id item) (p_name product)
                                  newQuantity 5 orderId]
       else [])%list.
Proof.
  intros Hp Hsel Hupd Hname.
  unfold OrderService.update_inventory, OrderService.select_product,
    OrderService.select_product_name, to_number.
  rewrite Hsel, Hp. cbn [error data ok_response]. rewrite Hupd, Hname. cbv zeta.
  set (newQuantity := Z.max 0 (num_or (p_stock_quantity product) 0 - Cart.quantity item)).
  replace (1 <=? newQuantity) with (0 <? newQuantity) by lia.
  destruct (inventory_logs_insert_error env i); simpl;
    rewrite lookup_alter_eq, Hp; simpl; unfold OrderService.threshold;
    destruct ((0 <? newQuantity) && (newQuantity <=? 5)); simpl;
    rewrite ?app_nil_r; reflexivity.
Qed.

(** One iteration only requests notifications about its own product. *)
Lemma update_inventory_requests env orderId w i item :
  exists calls,
    rpc_calls (OrderService.update_inventory env orderId w i item)
    = (rpc_calls w ++ calls)%list /\
    forall pid, pid <> Cart.id item -> low_stock_requests pid calls = [].
Proof.
  unfold OrderService.update_inventory.
  repeat (case_match; simpl);
    try (exists []; split; [rewrite app_nil_r; reflexivity | reflexivity]).
  all: eexists [_]; split; [reflexivity|];
    intros pid Hne; simpl;
    destruct (String.eqb_spec (Cart.id item) pid); congruence.
Qed.

Lemma low_stock_requests_app pid l1 l2 :
  low_stock_requests pid (l1 ++ l2)
  = (low_stock_requests pid l1 ++ low_stock_requests pid l2)%list.
Proof. apply List.filter_app. Qed.

(** The loop over distinct products: the low-stock requests about the
    product of a line that is read and updated and whose name is found. *)
Lemma update_inventories_requests env orderId items : forall w k,
  List.NoDup (List.map Cart.id items) ->
  exists calls,
    rpc_calls (OrderService.update_inventories env orderId w k items)
    = (rpc_calls w ++ calls)%list /\
    (forall pid, ~ In pid (List.map Cart.id items) -> low_stock_requests pid calls = []) /\
    forall j item product,
      items !! j = Some item ->
      products w !! Cart.id item = Some product ->
      products_select_error env (k + j) = None ->
      products_update_error env (k + j) = None ->
      product_details_missing env (k + j) = false ->
      low_stock_requests (Cart.id item) calls
      = let newQuantity :=
          Z.max 0 (to_number (p_stock_quantity product) - Cart.quantity item) in
        if (1 <=? newQuantity) && (newQuantity <=? 5)
        then [LowStockNotification (p_seller_id product) (Cart.id item) (p_name product)
                                   newQuantity 5 orderId]
        else [].
Proof.
  induction items as [|first rest IH]; intros w k Hnodup; simpl.
  - exists []. rewrite app_nil_r. split; [reflexivity|]. split; [reflexivity|].
    intros j' item product Hj. discriminate.
  - simpl in Hnodup. apply List.NoDup_cons_iff in Hnodup as [Hfirst Hrest].
    set (w1 := OrderService.update_inventory env orderId w k first).
    destruct (IH w1 (S k) Hrest) as (calls_rest & Hcalls & Hnone & Hlines).
    destruct (update_inventory_requests env orderId w k first)
      as (calls0 & Hcalls0 & Hnone0).
    fold w1 in Hcalls0.
    exists (calls0 ++ calls_rest)%list. split; [|split].
    + rewrite Hcalls, Hcalls0, app_assoc. reflexivity.
    + intros pid Hpid. simpl in Hpid. apply Decidable.not_or in Hpid as [Hne Hnin].
      rewrite low_stock_requests_app, Hnone0, Hnone by congruence. reflexivity.
    + intros [|j'] item product Hj Hp Hsel Hupd Hname.
      * injection Hj as ->. rewrite Nat.add_0_r in *.
        pose proof (update_inventory_low_stock env orderId w k item product
                      Hp Hsel Hupd Hname) as Hstep.
        fold w1 in Hstep. rewrite Hcalls0 in Hstep. apply app_inv_head in Hstep.
        subst calls0.
        rewrite low_stock_requests_app, Hnone by assumption. rewrite app_nil_r.
        cbv zeta.
        destruct ((1 <=? _) && (_ <=? 5)); [|reflexivity].
        unfold low_stock_requests. simpl. rewrite String.eqb_refl. reflexivity.
      * simpl in Hj.
        assert (Hne : Cart.id item <> Cart.id first).
        { intros Heq. apply Hfirst. rewrite <- Heq.
          apply List.in_map. eapply list_elem_of_In, list_elem_of_lookup_2, Hj. }
        replace (k + S j')%nat with (S k + j')%nat in * by lia.
        rewrite low_stock_requests_app, Hnone0 by assumption. simpl.
        apply (Hlines j' item product Hj); try assumption.
        unfold w1. rewrite update_inventory_products_other by assumption. exact Hp.
Qed.

(** The same for a whole order whose cart lists each product once: the
    requests about a product, among all the requests the order adds. *)
Lemma low_stock_requests_of_order env w orderData items w' orderId i item product :
  OrderService.createOrder env w orderData (Some items) = (w', Returned (Some orderId)) ->
  List.NoDup (List.map Cart.id items) ->
  items !! i = Some item ->
  products w !! Cart.id item = Some product ->
  products_select_error env i = None ->
  products_update_error env i = None ->
  product_details_missing env i = false ->
  exists calls,
    rpc_calls w' = (rpc_calls w ++ calls)%list /\
    low_stock_requests (Cart.id item) calls
    = let newQuantity :=
        Z.max 0 (to_number (p_stock_quantity product) - Cart.quantity item) in
      if (1 <=? newQuantity) && (newQuantity <=? 5)
      then [LowStockNotification (p_seller_id product) (Cart.id item) (p_name product)
                                 newQuantity 5 orderId]
      else [].
Proof.
  intros Hrun Hnodup Hi Hp Hsel Hupd Hname.
  destruct (createOrder_returned _ _ _ _ _ _ Hrun)
    as (row & user & validated & _ & _ & _ & _ & _ & _ & ->).
  destruct items as [|first others]; [discriminate|].
  unfold OrderService.write_items.
  set (w2 := (insert_order_items env (order_stored env w row)
                (List.map (order_item_of orderId) (first :: others))).1).
  assert (Hw2 : products w2 = products w /\ rpc_calls w2 = rpc_calls w).
  { unfold w2, insert_order_items.
    destruct (order_stored_frame env w row) as (_ & _ & Hstored_p & _ & Hstored_c).
    destruct (order_items_insert_error env); simpl; auto. }
  destruct Hw2 as [Hw2p Hw2c].
  replace (let '(w0, _) :=
             insert_order_items env (order_stored env w row)
               (List.map (order_item_of orderId) (first :: others)) in
           OrderService.update_inventories env orderId w0 0 (first :: others))
    with (OrderService.update_inventories env orderId w2 0 (first :: others))
    by (unfold w2; destruct (insert_order_items _ _ _); reflexivity).
  destruct (update_inventories_requests env orderId (first :: others) w2 0%nat Hnodup)
    as (calls & Hcalls & _ & Hlines).
  rewrite <- Hw2p in Hp.
  pose proof (Hlines i item product Hi Hp Hsel Hupd Hname) as Hmine.
  unfold OrderService.notify_seller, OrderService.createNewOrderNotification.
  destruct (OrderService.seller_id orderData) as [sellerId|];
    [destruct (truthy (Some sellerId))|].
  - exists (calls ++ [NewOrderNotification sellerId orderId])%list.
    cbn [rpc_calls with_rpc_calls]. rewrite Hcalls, Hw2c, app_assoc.
    split; [reflexivity|].
    rewrite low_stock_requests_app, Hmine. apply app_nil_r.
  - exists calls. rewrite Hcalls, Hw2c. auto.
  - exists calls. rewrite Hcalls, Hw2c. auto.
Qed.

(** C7 (amended): for every cart item processed during order creation
    whose product is read and updated and whose name is found, a low-stock
    notification for the product's seller is requested exactly when the new
    stock after the decrement is at least 1 and at most the fixed threshold
    5. *)
Theorem low_stock_notification env orderId w i item product :
  products w !! Cart.id item = Some product ->
  products_select_error env i = None ->
  products_update_error env i = None ->
  product_details_missing env i = false ->
  OrderService.threshold = 5 /\
  rpc_calls (OrderService.update_inventory env orderId w i item)
  = (rpc_calls w ++
       let newQuantity :=
         Z.max 0 (to_number (p_stock_quantity product) - Cart.quantity item) in
       if (1 <=? newQuantity) && (newQuantity <=? 5)
       then [LowStockNotification (p_seller_id product) (Cart.id item) (p_name product)
                                  newQuantity 5 orderId]
       else [])%list.
Proof.
  intros Hp Hsel Hupd Hname. split; [reflexivity|].
  apply update_inventory_low_stock; assumption.
Qed.

Lemma low_stock_notification_witness :
  OrderService.threshold = 5 /\
  rpc_calls (OrderService.update_inventory Sample.env "order-0001" (Sample.world 7)
                                           0%nat Sample.basket)
  = ([] ++ [LowStockNotification (Some Sample.seller_uuid) "p1" "Woven basket" 5 5
                                 "order-0001"])%list.
Proof.
  apply (low_stock_notification Sample.env "order-0001" (Sample.world 7) 0%nat
           Sample.basket (Sample.product 7)); reflexivity.
Defined.

(** An order for the basket that leaves a stock of 5 requests the low-stock
    notification and then the new-order notification. *)
Example low_stock_order_example :
  rpc_calls (OrderService.createOrder Sample.env (Sample.world 7)
               (Checkout.orderData_submit 20000 Sample.checkout)
               (Some [Sample.basket])).1
  = [LowStockNotification (Some Sample.seller_uuid) "p1" "Woven basket" 5 5 "order-0001";
     NewOrderNotification Sample.seller_uuid "order-0001"].
Proof. vm_compute. reflexivity. Qed.

(** C7 as stated fails: an order that takes the last pieces leaves a stock
    of 0, which is below the threshold, and no low-stock notification is
    requested. *)
Lemma low_stock_not_notified_at_zero :
  exists w',
    OrderService.createOrder Sample.env (Sample.world 2)
      (Checkout.orderData_submit 20000 Sample.checkout) (Some [Sample.basket])
    = (w', Returned (Some "order-0001")) /\
    p_stock_quantity <$> products w' !! "p1" = Some (Some 0) /\
    0 <= OrderService.threshold /\
    low_stock_requests "p1" (rpc_calls w') = [].
Proof.
  eexists. split; [vm_compute; reflexivity|].
  vm_compute. repeat split; congruence.
Qed.

(** ** Delivery options and estimated delivery *)

Section BusinessDays.

Import Checkout.

Lemma getDay_shift d k : getDay (d + 7 * k) = getDay d.
Proof.
  unfold getDay. replace (d + 7 * k + 4) with (d + 4 + k * 7) by lia.
  apply Z_mod_plus_full.
Qed.

Lemma isWeekend_shift d k : isWeekend (d + 7 * k) = isWeekend d.
Proof. unfold isWeekend, isSunday, isSaturday. rewrite getDay_shift. reflexivity. Qed.

Lemma isSaturday_shift d k : isSaturday (d + 7 * k) = isSaturday d.
Proof. unfold isSaturday. rewrite getDay_shift. reflexivity. Qed.

Lemma isSunday_shift d k : isSunday (d + 7 * k) = isSunday d.
Proof. unfold isSunday. rewrite getDay_shift. reflexivity. Qed.

Lemma rest_loop_shift k sign fuel : forall d restDays,
  rest_loop fuel sign (d + 7 * k) restDays
  = option_map (fun e => e + 7 * k) (rest_loop fuel sign d restDays).
Proof.
  induction fuel as [|fuel IH]; intros d restDays; simpl.
  - destruct (restDays >? 0); reflexivity.
  - destruct (restDays >? 0); [|reflexivity].
    replace (d + 7 * k + sign) with (d + sign + 7 * k) by lia.
    rewrite isWeekend_shift. apply IH.
Qed.

(** Moving the start by whole weeks moves the result by as much. *)
Lemma addBusinessDays_shift d k amount :
  addBusinessDays (d + 7 * k) amount
  = option_map (fun e => e + 7 * k) (addBusinessDays d amount).
Proof.
  unfold addBusinessDays.
  replace (d + 7 * k + Z.quot amount 5 * 7) with (d + Z.quot amount 5 * 7 + 7 * k) by lia.
  rewrite rest_loop_shift, isWeekend_shift.
  destruct (rest_loop 12 _ _ _) as [date2|]; [|reflexivity]. simpl.
  rewrite isWeekend_shift.
  destruct (isWeekend d && isWeekend date2 && negb (amount =? 0)); [|reflexivity].
  simpl. rewrite isSaturday_shift.
  destruct (isSaturday date2).
  - replace (date2 + 7 * k + (if (if amount <? 0 then -1 else 1) <? 0 then 2 else -1))
      with (date2 + (if (if amount <? 0 then -1 else 1) <? 0 then 2 else -1) + 7 * k)
      by lia.
    rewrite isSunday_shift.
    destruct (isSunday _); f_equal; lia.
  - rewrite isSunday_shift. destruct (isSunday date2); f_equal; lia.
Qed.

Lemma business_days_after_shift d k n :
  business_days_after (d + 7 * k) n = business_days_after d n.
Proof.
  induction n as [|n IH]; [reflexivity|].
  cbn [business_days_after]. rewrite IH.
  replace (d + 7 * k + Z.of_nat (S n)) with (d + Z.of_nat (S n) + 7 * k) by lia.
  rewrite isWeekend_shift. reflexivity.
Qed.

(** Every date is a day of the week 0..6 moved by whole weeks. *)
Lemma week_split d :
  exists r k, d = r + 7 * k /\ In r [0; 1; 2; 3; 4; 5; 6].
Proof.
  exists (d mod 7), (d / 7). split.
  - pose proof (Z.div_mod d 7). lia.
  - pose proof (Z.mod_pos_bound d 7). simpl. lia.
Qed.

(** The loop of [addBusinessDays] always ends within its twelve
    iterations: [addBusinessDays] is total. *)
Lemma addBusinessDays_total d amount : is_Some (addBusinessDays d amount).
Proof.
  assert (Hloop : forall sign date1 restDays,
             In sign [-1; 1] -> In restDays [0; 1; 2; 3; 4] ->
             is_Some (rest_loop 12 sign date1 restDays)).
  { intros sign date1 restDays Hsign Hrest.
    destruct (week_split date1) as (r & k & -> & Hr).
    rewrite rest_loop_shift.
    simpl in Hsign, Hrest, Hr.
    assert (is_Some (rest_loop 12 sign r restDays)) as [e ->]; [|eauto].
    intuition subst; vm_compute; eauto. }
  unfold addBusinessDays.
  destruct (Hloop (if amount <? 0 then -1 else 1) (d + Z.quot amount 5 * 7)
                  (Z.abs (Z.rem amount 5))) as [date2 ->].
  - destruct (amount <? 0); simpl; auto.
  - pose proof (Z.rem_bound_abs amount 5). simpl. lia.
  - destruct (isWeekend d && isWeekend date2 && negb (amount =? 0)); eauto.
Qed.

End BusinessDays.

(** Adding 1, 2 or 5 business days ends on a business day, that many
    business days after the start. *)
Lemma addBusinessDays_estimate today amount :
  In amount [5; 2; 1] ->
  exists estimated,
    Checkout.addBusinessDays today amount = Some estimated /\
    Checkout.isWeekend estimated = false /\
    today < estimated /\
    Checkout.business_days_after today (Z.to_nat (estimated - today)) = amount.
Proof.
  intros Hamount.
  destruct (week_split today) as (r & k & -> & Hr).
  rewrite addBusinessDays_shift.
  simpl in Hamount, Hr.
  assert (Hweek : exists e,
             Checkout.addBusinessDays r amount = Some e /\
             Checkout.isWeekend e = false /\ r < e /\
             Checkout.business_days_after r (Z.to_nat (e - r)) = amount).
  { intuition subst; eexists; (split; [vm_compute; reflexivity|]);
      vm_compute; repeat split; congruence. }
  destruct Hweek as (e & -> & Hweekend & Hlt & Hcount).
  exists (e + 7 * k). simpl.
  rewrite isWeekend_shift.
  replace (e + 7 * k - (r + 7 * k)) with (e - r) by lia.
  rewrite business_days_after_shift.
  repeat split; try assumption. lia.
Qed.

(** C8: the delivery table holds exactly the three options standard,
    express and same-day (whose identifier is ["maxim"]), with the fees 50,
    100 and 150 and at most 5, 2 and 1 business days. Selecting any of
    them by its identifier finds its row, the checkout charges the row's
    fee, and the estimated delivery date is today plus the row's maximum
    number of business days: a date that is not on a weekend, with exactly
    that many business days between today and it. *)
Theorem delivery_fee_and_estimate selected fee days today :
  In (selected, fee, days) [("standard", 50, 5); ("express", 100, 2); ("maxim", 150, 1)] ->
  List.map (fun chosen => (Checkout.id chosen, Checkout.fee chosen, Checkout.maxDays chosen))
           Checkout.deliveryOptions
  = [("standard", 50, 5); ("express", 100, 2); ("maxim", 150, 1)] /\
  (exists chosen,
      Checkout.selectedDeliveryDetails selected = Some chosen /\
      In chosen Checkout.deliveryOptions /\
      Checkout.id chosen = selected /\
      Checkout.fee chosen = fee /\
      Checkout.maxDays chosen = days) /\
  Checkout.selectedDeliveryFee selected = fee /\
  exists estimated,
    Checkout.calculateEstimatedDelivery today selected = Some estimated /\
    Checkout.addBusinessDays today days = Some estimated /\
    Checkout.isWeekend estimated = false /\
    today < estimated /\
    Checkout.business_days_after today (Z.to_nat (estimated - today)) = days.
Proof.
  intros Hin. simpl in Hin.
  assert (Hdetails : exists chosen,
             Checkout.selectedDeliveryDetails selected = Some chosen /\
             In chosen Checkout.deliveryOptions /\
             Checkout.id chosen = selected /\
             Checkout.fee chosen = fee /\
             Checkout.maxDays chosen = days).
  { destruct Hin as [Heq|[Heq|[Heq|[]]]]; injection Heq as <- <- <-;
      eexists; (split; [reflexivity|]); simpl; auto 10. }
  assert (Hdays : In days [5; 2; 1])
    by (destruct Hin as [Heq|[Heq|[Heq|[]]]]; injection Heq as <- <- <-; simpl; tauto).
  split; [reflexivity|]. split; [exact Hdetails|].
  destruct Hdetails as (chosen & Hfound & _ & _ & Hfee & Hmax).
  split.
  - rewrite (selectedDeliveryFee_details _ _ Hfound). exact Hfee.
  - destruct (addBusinessDays_estimate today _ Hdays) as (estimated & Hadd & Hrest).
    exists estimated. unfold Checkout.calculateEstimatedDelivery.
    rewrite Hfound, Hmax. auto.
Qed.

Lemma delivery_fee_and_estimate_witness :
  List.map (fun chosen => (Checkout.id chosen, Checkout.fee chosen, Checkout.maxDays chosen))
           Checkout.deliveryOptions
  = [("standard", 50, 5); ("express", 100, 2); ("maxim", 150, 1)] /\
  (exists chosen,
      Checkout.selectedDeliveryDetails "standard" = Some chosen /\
      In chosen Checkout.deliveryOptions /\
      Checkout.id chosen = "standard" /\
      Checkout.fee chosen = 50 /\
      Checkout.maxDays chosen = 5) /\
  Checkout.selectedDeliveryFee "standard" = 50 /\
  exists estimated,
    Checkout.calculateEstimatedDelivery 20000 "standard" = Some estimated /\
    Checkout.addBusinessDays 20000 5 = Some estimated /\
    Checkout.isWeekend estimated = false /\
    20000 < estimated /\
    Checkout.business_days_after 20000 (Z.to_nat (estimated - 20000)) = 5.
Proof.
  apply (delivery_fee_and_estimate "standard" 50 5 20000).
  simpl. tauto.
Defined.

(** The three options on Friday 4 October 2024 (day 20000): the standard
    estimate is the Friday after, the express estimate the Tuesday and the
    same-day estimate the Monday. *)
Example delivery_estimates_example :
  Checkout.calculateEstimatedDelivery 20000 "standard" = Some 20007 /\
  Checkout.calculateEstimatedDelivery 20000 "express" = Some 20004 /\
  Checkout.calculateEstimatedDelivery 20000 "maxim" = Some 20003 /\
  Checkout.selectedDeliveryFee "standard" = 50 /\
  Checkout.selectedDeliveryFee "express" = 100 /\
  Checkout.selectedDeliveryFee "maxim" = 150.
Proof. vm_compute. auto 10. Qed.

(** Day 20000 is Friday 4 October 2024: two business days later is the
    following Tuesday. Five business days from the Saturday end on the
    Friday after it, and one business day from the Sunday on the Monday. *)
Example addBusinessDays_examples :
  Checkout.getDay 20000 = 5 /\
  Checkout.addBusinessDays 20000 2 = Some 20004 /\
  Checkout.addBusinessDays 20001 5 = Some 20007 /\
  Checkout.addBusinessDays 20002 1 = Some 20003.
Proof. vm_compute. auto. Qed.

(** ** Payment intent amount *)

(** The checkout page requests the payment intent for the selected items
    and their seller. *)
Lemma fetchPaymentIntent_request env server st result :
  Checkout.fetchPaymentIntent env server st = Some result ->
  result = StripeService.createPaymentIntent env server (Checkout.selectedItems st)
                                             (Checkout.sellerId st).
Proof.
  unfold Checkout.fetchPaymentIntent. intros H.
  destruct (Checkout.paymentMethod st); [|discriminate].
  destruct (Checkout.selectedItems st); [discriminate|].
  destruct (Checkout.clientSecret st); [discriminate|].
  injection H as <-. reflexivity.
Qed.



(** The card checkout of the basket with standard delivery: 1150 is
    authorized and the order is placed for 1050. *)
Example payment_intent_mismatch_example :
  (exists request intent,
      Checkout.fetchPaymentIntent Sample.env Sample.payment_server Sample.card_checkout
        = Some (Returned (request, intent)) /\
      StripeService.amount request = 1150) /\
  Checkout.totalWithShipping Sample.card_checkout = 1050.
Proof.
  split; [|reflexivity]. eexists _, _. split; [vm_compute|]; reflexivity.
Qed.

(** ** Cart quantities *)

Lemma map_quantity_positive pid q items :
  1 <= q -> Cart.quantities_positive items ->
  Cart.quantities_positive (Cart.map_quantity pid q items).
Proof.
  unfold Cart.quantities_positive, Cart.map_quantity. intros Hq Hitems.
  induction Hitems as [|item rest Hitem _ IH]; simpl; constructor; try assumption.
  destruct (String.eqb (Cart.id item) pid); simpl; assumption.
Qed.

Lemma removeItem_positive pid items :
  Cart.quantities_positive items -> Cart.quantities_positive (Cart.removeItem pid items).
Proof.
  unfold Cart.quantities_positive, Cart.removeItem. intros Hitems.
  induction Hitems as [|item rest Hitem _ IH]; simpl; [constructor|].
  destruct (negb (String.eqb (Cart.id item) pid)); [constructor|]; assumption.
Qed.

Lemma addItem_positive reply product items :
  Cart.quantities_positive items ->
  Cart.quantities_positive (Cart.addItem reply product items).
Proof.
  unfold Cart.quantities_positive, Cart.addItem, Cart.addItem_update. intros Hitems.
  repeat (case_match; try assumption).
  - apply Forall_insert; [assumption|]. simpl.
    pose proof (Forall_lookup_1 _ _ _ _ Hitems H4). simpl in *. lia.
  - apply Forall_app. split; [assumption|]. repeat constructor. simpl. lia.
Qed.

(** Every cart operation keeps all quantities at 1 or more, provided that
    [updateQuantity] is not answered with a stock below 1. *)
Lemma cart_operations_preserve_quantities items :
  Cart.quantities_positive items ->
  (forall reply product, Cart.quantities_positive (Cart.addItem reply product items)) /\
  (forall pid, Cart.quantities_positive (Cart.removeItem pid items)) /\
  (forall pid, Cart.quantities_positive (Cart.toggleItemSelection pid items)) /\
  (forall b, Cart.quantities_positive (Cart.toggleAllSelection b items)) /\
  Cart.quantities_positive (Cart.clearCart items) /\
  (forall reply pid q,
      (forall stock, data reply = Some stock -> 1 <= to_number stock) ->
      Cart.quantities_positive (Cart.updateQuantity reply pid q items)).
Proof.
  intros Hitems. repeat split.
  - intros. apply addItem_positive, Hitems.
  - intros. apply removeItem_positive, Hitems.
  - intros pid. unfold Cart.quantities_positive, Cart.toggleItemSelection.
    induction Hitems as [|item rest Hitem _ IH]; simpl; constructor; try assumption.
    destruct (String.eqb (Cart.id item) pid); simpl; assumption.
  - intros b. unfold Cart.quantities_positive, Cart.toggleAllSelection.
    induction Hitems as [|item rest Hitem _ IH]; simpl; constructor; assumption.
  - constructor.
  - intros reply pid q Hstock. unfold Cart.updateQuantity.
    destruct (Z.leb_spec q 0); [apply removeItem_positive, Hitems|].
    destruct (error reply); [assumption|].
    destruct (data reply) as [stock|] eqn:Hdata.
    + specialize (Hstock stock eq_refl).
      destruct (to_number stock <? q); apply map_quantity_positive;
        try assumption; lia.
    + apply map_quantity_positive; [lia|assumption].
Qed.

(** C10 fails on the code: when the stock query answers 0 for a product
    that is in the cart, [updateQuantity] with a positive quantity stores the
    quantity 0 for it instead of removing the line. *)
Theorem updateQuantity_stores_zero_quantity :
  Cart.quantities_positive [Sample.basket] /\
  Cart.updateQuantity Sample.sold_out "p1" 3 [Sample.basket]
    = [Cart.set_quantity Sample.basket 0] /\
  ~ Cart.quantities_positive (Cart.updateQuantity Sample.sold_out "p1" 3 [Sample.basket]).
Proof.
  split; [|split].
  - repeat constructor. simpl. lia.
  - reflexivity.
  - intros H. apply Forall_inv in H. simpl in H. lia.
Qed.

(** A line whose quantity is set keeps its id, so the cart store never
    lists a product twice. *)
Lemma findIndex_None pid items :
  Cart.findIndex pid items = None -> ~ In pid (List.map Cart.id items).
Proof.
  induction items as [|item rest IH]; simpl; [tauto|].
  destruct (String.eqb_spec (Cart.id item) pid) as [Heq|Hne]; [discriminate|].
  destruct (Cart.findIndex pid rest); [discriminate|].
  intros _ [Heq|Hin]; [congruence|]. apply IH; [reflexivity|assumption].
Qed.

Lemma insert_set_quantity_ids items : forall i existing q,
  items !! i = Some existing ->
  List.map Cart.id (<[i := Cart.set_quantity existing q]> items) = List.map Cart.id items.
Proof.
  induction items as [|item rest IH]; intros [|i] existing q Hi; try discriminate.
  - injection Hi as ->. reflexivity.
  - simpl. f_equal. apply IH, Hi.
Qed.

Lemma addItem_distinct_ids reply product items :
  List.NoDup (List.map Cart.id items) ->
  List.NoDup (List.map Cart.id (Cart.addItem reply product items)).
Proof.
  intros Hnodup. unfold Cart.addItem, Cart.addItem_update.
  destruct (error reply); [assumption|].
  destruct (data reply) as [productData|]; [|assumption].
  destruct (negb (Cart.is_available productData) || _); [assumption|].
  destruct (negb (truthy (Cart.seller_id productData))); [assumption|].
  destruct (Cart.findIndex (Cart.id product) items) as [i|] eqn:Hfind.
  - destruct (items !! i) as [existing|] eqn:Hi; [|assumption].
    destruct (_ <? _); [assumption|].
    rewrite (insert_set_quantity_ids _ _ _ _ Hi). assumption.
  - rewrite List.map_app. simpl.
    apply List.NoDup_app; [assumption|repeat constructor; simpl; tauto|].
    intros pid Hin [<-|[]]. exact (findIndex_None _ _ Hfind Hin).
Qed.

(** A cart that lists a product on two lines (it cannot come from
    [addItem]) decrements the product twice and logs two rows for it. *)
Example order_duplicate_lines_logged_twice :
  p_stock_quantity <$>
    products (OrderService.createOrder Sample.env (Sample.world 10)
                (Checkout.orderData_submit 20000 Sample.checkout)
                (Some [Sample.basket; Sample.basket])).1 !! "p1"
    = Some (Some 6)
  /\ List.length
       (logs_of_product "p1"
          (inventory_logs
             (OrderService.createOrder Sample.env (Sample.world 10)
                (Checkout.orderData_submit 20000 Sample.checkout)
                (Some [Sample.basket; Sample.basket])).1))
     = 2%nat.
Proof. vm_compute. auto. Qed.

(** ** UUID format *)

Lemma hex_run_length n : forall s rest,
  hex_run n s = Some rest -> String.length s = (n + String.length rest)%nat.
Proof.
  induction n as [|n IH]; intros s rest H; simpl in *.
  - injection H as ->. reflexivity.
  - destruct s as [|c s]; [discriminate|].
    destruct (is_hex c); [|discriminate].
    simpl. rewrite (IH _ _ H). reflexivity.
Qed.

(** An accepted seller id has the 36 characters of the 8-4-4-4-12 layout. *)
Lemma isValidUUID_length uuid : isValidUUID uuid = true -> String.length uuid = 36%nat.
Proof.
  unfold isValidUUID. cbn [hex_groups]. intros H.
  repeat match type of H with
         | match hex_run ?n ?s with _ => _ end = true =>
             let E := fresh "E" in
             destruct (hex_run n s) as [[|c ?]|] eqn:E; try discriminate;
             apply hex_run_length in E; simpl in E
         | (if ?b then _ else _) = true => destruct b eqn:?; try discriminate
         | match ?c with _ => _ end = true => destruct c; try discriminate
         end.
  all: lia.
Qed.

Example isValidUUID_examples :
  isValidUUID "123e4567-e89b-12d3-A456-426614174000" = true /\
  isValidUUID "123e4567-e89b-12d3-a456-42661417400" = false /\
  isValidUUID "123e4567-e89b-12d3-a456-426614174000x" = false /\
  isValidUUID "123e4567_e89b_12d3_a456_426614174000" = false /\
  isValidUUID "shop-42" = false /\
  isValidUUID "" = false.
Proof. vm_compute. auto 10. Qed.

(** * Further properties *)

(** ** The cart store *)

Lemma map_quantity_ids pid q items :
  List.map Cart.id (Cart.map_quantity pid q items) = List.map Cart.id items.
Proof.
  unfold Cart.map_quantity. induction items as [|item rest IH]; [reflexivity|].
  simpl. rewrite IH. destruct (String.eqb (Cart.id item) pid); reflexivity.
Qed.

Lemma toggleItemSelection_ids pid items :
  List.map Cart.id (Cart.toggleItemSelection pid items) = List.map Cart.id items.
Proof.
  unfold Cart.toggleItemSelection. induction items as [|item rest IH]; [reflexivity|].
  simpl. rewrite IH. destruct (String.eqb (Cart.id item) pid); reflexivity.
Qed.

Lemma toggleAllSelection_ids b items :
  List.map Cart.id (Cart.toggleAllSelection b items) = List.map Cart.id items.
Proof.
  unfold Cart.toggleAllSelection. induction items as [|item rest IH]; [reflexivity|].
  simpl. rewrite IH. reflexivity.
Qed.

Lemma removeItem_In pid other items :
  In other (List.map Cart.id (Cart.removeItem pid items)) ->
  In other (List.map Cart.id items) /\ other <> pid.
Proof.
  unfold Cart.removeItem. induction items as [|item rest IH]; simpl; [tauto|].
  destruct (String.eqb_spec (Cart.id item) pid) as [Heq|Hne]; simpl.
  - intros H. destruct (IH H). auto.
  - intros [<-|H]; [auto|]. destruct (IH H). auto.
Qed.

Lemma removeItem_distinct_ids pid items :
  List.NoDup (List.map Cart.id items) ->
  List.NoDup (List.map Cart.id (Cart.removeItem pid items)).
Proof.
  induction items as [|item rest IH]; simpl; [constructor|].
  intros Hnodup. apply List.NoDup_cons_iff in Hnodup as [Hnotin Hrest].
  unfold Cart.removeItem in *. simpl.
  destruct (negb (String.eqb (Cart.id item) pid)); [|auto].
  simpl. constructor; [|auto].
  intros Hin. apply Hnotin. exact (proj1 (removeItem_In _ _ _ Hin)).
Qed.

Lemma updateQuantity_ids_or_removed reply pid q items :
  Cart.updateQuantity reply pid q items = Cart.removeItem pid items
  \/ List.map Cart.id (Cart.updateQuantity reply pid q items) = List.map Cart.id items.
Proof.
  unfold Cart.updateQuantity.
  destruct (q <=? 0); [auto|]. right.
  destruct (error reply); [reflexivity|].
  destruct (data reply) as [stock|]; [destruct (to_number stock <? q)|];
    apply map_quantity_ids.
Qed.

(** X1: every operation of the cart store keeps each product on at most
    one line. *)
Theorem cart_operations_keep_products_distinct items :
  List.NoDup (List.map Cart.id items) ->
  (forall reply product,
      List.NoDup (List.map Cart.id (Cart.addItem reply product items))) /\
  (forall pid, List.NoDup (List.map Cart.id (Cart.removeItem pid items))) /\
  (forall reply pid q,
      List.NoDup (List.map Cart.id (Cart.updateQuantity reply pid q items))) /\
  (forall pid, List.NoDup (List.map Cart.id (Cart.toggleItemSelection pid items))) /\
  (forall b, List.NoDup (List.map Cart.id (Cart.toggleAllSelection b items))) /\
  List.NoDup (List.map Cart.id (Cart.clearCart items)).
Proof.
  intros Hnodup. repeat split.
  - intros. apply addItem_distinct_ids, Hnodup.
  - intros. apply removeItem_distinct_ids, Hnodup.
  - intros reply pid q.
    destruct (updateQuantity_ids_or_removed reply pid q items) as [-> | ->];
      [apply removeItem_distinct_ids|]; assumption.
  - intros. rewrite toggleItemSelection_ids. assumption.
  - intros. rewrite toggleAllSelection_ids. assumption.
  - constructor.
Qed.

Lemma cart_operations_keep_products_distinct_witness :
  (forall reply product,
      List.NoDup (List.map Cart.id (Cart.addItem reply product
                                                 [Sample.basket; Scenario.jar]))) /\
  (forall pid, List.NoDup (List.map Cart.id
                             (Cart.removeItem pid [Sample.basket; Scenario.jar]))) /\
  (forall reply pid q,
      List.NoDup (List.map Cart.id
                    (Cart.updateQuantity reply pid q [Sample.basket; Scenario.jar]))) /\
  (forall pid, List.NoDup (List.map Cart.id
                             (Cart.toggleItemSelection pid
                                                       [Sample.basket; Scenario.jar]))) /\
  (forall b, List.NoDup (List.map Cart.id
                           (Cart.toggleAllSelection b [Sample.basket; Scenario.jar]))) /\
  List.NoDup (List.map Cart.id (Cart.clearCart [Sample.basket; Scenario.jar])).
Proof.
  apply (cart_operations_keep_products_distinct [Sample.basket; Scenario.jar]).
  repeat constructor; simpl; intuition discriminate.
Defined.

Lemma quantity_of_absent pid items :
  Cart.findIndex pid items = None -> quantity_of pid items = 0.
Proof.
  induction items as [|item rest IH]; simpl; [reflexivity|].
  destruct (String.eqb (Cart.id item) pid); [discriminate|].
  destruct (Cart.findIndex pid rest); [discriminate|]. auto.
Qed.

Lemma quantity_of_app_new pid items new :
  quantity_of pid (items ++ [new])
  = if negb (bool_decide (Cart.findIndex pid items = None)) then quantity_of pid items
    else if String.eqb (Cart.id new) pid then Cart.quantity new else 0.
Proof.
  induction items as [|item rest IH]; simpl; [reflexivity|].
  destruct (String.eqb (Cart.id item) pid); [reflexivity|].
  rewrite IH. destruct (Cart.findIndex pid rest); reflexivity.
Qed.

Lemma quantity_of_found pid items : forall i,
  Cart.findIndex pid items = Some i ->
  exists existing,
    items !! i = Some existing /\ Cart.id existing = pid /\
    quantity_of pid items = Cart.quantity existing /\
    forall q other,
      quantity_of other (<[i := Cart.set_quantity existing q]> items)
      = if String.eqb other pid then q else quantity_of other items.
Proof.
  induction items as [|item rest IH]; intros i Hi; simpl in *; [discriminate|].
  destruct (String.eqb_spec (Cart.id item) pid) as [Heq|Hne].
  - injection Hi as <-. exists item. simpl. repeat split; try assumption.
    intros q other. rewrite Heq.
    destruct (String.eqb_spec pid other) as [->|Hneq].
    + rewrite String.eqb_refl. reflexivity.
    + destruct (String.eqb_spec other pid); congruence.
  - destruct (Cart.findIndex pid rest) as [j|] eqn:Hj; [|discriminate].
    injection Hi as <-. destruct (IH j eq_refl) as (existing & Hl & Hid & Hq & Hset).
    exists existing. simpl. repeat split; try assumption.
    intros q other. rewrite Hset.
    destruct (String.eqb_spec (Cart.id item) other) as [Ho|Ho]; [|reflexivity].
    destruct (String.eqb_spec other pid); congruence.
Qed.

(** X2: [addItem] adds exactly one piece of the product, and only when the
    lookup finds it available, in stock and with a seller and the reported
    stock covers the new quantity; otherwise the cart keeps the quantity it
    had. No other product's quantity changes. *)
Theorem addItem_adds_one_within_stock reply product items other :
  quantity_of other (Cart.addItem reply product items)
  = if String.eqb other (Cart.id product)
       && lookup_accepts reply
       && (quantity_of other items + 1 <=? reported_stock reply)
    then quantity_of other items + 1
    else quantity_of other items.
Proof.
  unfold Cart.addItem, lookup_accepts, reported_stock.
  destruct (error reply); [rewrite andb_false_r; reflexivity|].
  destruct (data reply) as [productData|]; [|rewrite andb_false_r; reflexivity].
  destruct (Cart.is_available productData); simpl;
    [|rewrite andb_false_r; reflexivity].
  destruct (Z.leb_spec (to_number (Cart.stock_quantity productData)) 0) as [Hs|Hs].
  { replace (0 <? _) with false by lia. simpl. rewrite andb_false_r. reflexivity. }
  replace (0 <? _) with true by lia. simpl.
  destruct (truthy (Cart.seller_id productData)); simpl;
    [|rewrite andb_false_r; reflexivity].
  rewrite andb_true_r. unfold Cart.addItem_update.
  destruct (Cart.findIndex (Cart.id product) items) as [i|] eqn:Hfind.
  - destruct (quantity_of_found _ _ _ Hfind) as (existing & Hl & Hid & Hq & Hset).
    rewrite Hl.
    destruct (String.eqb_spec other (Cart.id product)) as [->|Hne]; simpl.
    + rewrite Hq.
      destruct (Z.ltb_spec (to_number (Cart.stock_quantity productData))
                           (Cart.quantity existing + 1)).
      * replace (_ <=? _) with false by lia. exact Hq.
      * replace (_ <=? _) with true by lia. rewrite Hset, String.eqb_refl. reflexivity.
    + destruct (_ <? _); [reflexivity|]. rewrite Hset.
      destruct (String.eqb_spec other (Cart.id product)); congruence.
  - rewrite quantity_of_app_new. simpl.
    destruct (String.eqb_spec other (Cart.id product)) as [->|Hne]; simpl.
    + rewrite Hfind, (quantity_of_absent _ _ Hfind), String.eqb_refl. simpl.
      replace (_ <=? _) with true by lia. reflexivity.
    + destruct (String.eqb_spec (Cart.id product) other); [congruence|].
      destruct (bool_decide _) eqn:Hb; simpl; [|reflexivity].
      apply bool_decide_eq_true in Hb. symmetry. apply quantity_of_absent, Hb.
Qed.

Lemma removeItem_absent pid items :
  ~ In pid (List.map Cart.id items) -> Cart.removeItem pid items = items.
Proof.
  unfold Cart.removeItem. induction items as [|item rest IH]; simpl; [reflexivity|].
  intros Hnotin. apply Decidable.not_or in Hnotin as [Hne Hrest].
  destruct (String.eqb_spec (Cart.id item) pid); [congruence|].
  simpl. rewrite IH by assumption. reflexivity.
Qed.

Lemma findIndex_absent pid items :
  ~ In pid (List.map Cart.id items) -> Cart.findIndex pid items = None.
Proof.
  induction items as [|item rest IH]; simpl; [reflexivity|].
  intros Hnotin. apply Decidable.not_or in Hnotin as [Hne Hrest].
  destruct (String.eqb_spec (Cart.id item) pid); [congruence|].
  rewrite IH by assumption. reflexivity.
Qed.

(** X3: adding a product that is not in the cart and removing it again
    gives back the cart as it was, whatever the product lookup answered. *)
Theorem removeItem_undoes_addItem reply product items :
  ~ In (Cart.id product) (List.map Cart.id items) ->
  Cart.removeItem (Cart.id product) (Cart.addItem reply product items) = items.
Proof.
  intros Hnotin. unfold Cart.addItem, Cart.addItem_update.
  rewrite (findIndex_absent _ _ Hnotin).
  repeat case_match; try (apply removeItem_absent; assumption).
  unfold Cart.removeItem. rewrite List.filter_app. simpl.
  rewrite String.eqb_refl. simpl. rewrite app_nil_r.
  apply removeItem_absent, Hnotin.
Qed.

Lemma removeItem_undoes_addItem_witness :
  Cart.removeItem "p2" (Cart.addItem (Scenario.in_stock 4) Scenario.jar [Sample.basket])
  = [Sample.basket].
Proof.
  apply (removeItem_undoes_addItem (Scenario.in_stock 4) Scenario.jar [Sample.basket]).
  simpl. intuition discriminate.
Defined.

Lemma set_quantity_same item : Cart.set_quantity item (Cart.quantity item) = item.
Proof. destruct item; reflexivity. Qed.

Lemma map_quantity_twice pid q1 q2 items :
  Cart.map_quantity pid q2 (Cart.map_quantity pid q1 items) = Cart.map_quantity pid q2 items.
Proof.
  unfold Cart.map_quantity. rewrite List.map_map. apply List.map_ext.
  intros item. destruct (String.eqb (Cart.id item) pid) eqn:Heq; simpl; rewrite Heq;
    reflexivity.
Qed.

Lemma map_quantity_fixed pid q items :
  (forall other, In other items -> Cart.id other = pid -> Cart.quantity other = q) ->
  Cart.map_quantity pid q items = items.
Proof.
  unfold Cart.map_quantity. induction items as [|first rest IH]; intros Hq; simpl;
    [reflexivity|].
  rewrite IH by (intros; apply Hq; simpl; auto).
  destruct (String.eqb_spec (Cart.id first) pid) as [Heq|]; [|reflexivity].
  rewrite <- (Hq first (or_introl eq_refl) Heq), set_quantity_same. reflexivity.
Qed.

Lemma distinct_line item other items :
  List.NoDup (List.map Cart.id items) -> In item items -> In other items ->
  Cart.id other = Cart.id item -> other = item.
Proof.
  induction items as [|first rest IH]; simpl; [tauto|].
  intros Hnodup Hitem Hother Hid.
  apply List.NoDup_cons_iff in Hnodup as [Hnotin Hrest].
  destruct Hitem as [->|Hitem], Hother as [->|Hother]; auto.
  - exfalso. apply Hnotin. rewrite <- Hid. apply List.in_map, Hother.
  - exfalso. apply Hnotin. rewrite Hid. apply List.in_map, Hitem.
Qed.

(** X4: the plus button followed by the minus button of the same line
    gives back the cart, for a cart with distinct products, when both stock
    queries report enough stock for one more piece. *)
Theorem plus_then_minus_restores_cart item items stock1 stock2 :
  List.NoDup (List.map Cart.id items) ->
  In item items ->
  1 <= Cart.quantity item ->
  Cart.quantity item + 1 <= to_number stock1 ->
  Cart.quantity item + 1 <= to_number stock2 ->
  CartSidebar.minus (ok_response stock2)
                    (Cart.set_quantity item (Cart.quantity item + 1))
                    (CartSidebar.plus (ok_response stock1) item items)
  = items.
Proof.
  intros Hnodup Hin Hq Hs1 Hs2.
  unfold CartSidebar.minus, CartSidebar.plus, Cart.updateQuantity. simpl.
  replace (Cart.quantity item + 1 <=? 1) with false by lia.
  replace (Cart.quantity item + 1 <=? 0) with false by lia.
  replace (Z.max 1 (Cart.quantity item + 1 - 1)) with (Cart.quantity item) by lia.
  replace (Cart.quantity item <=? 0) with false by lia.
  replace (to_number stock1 <? Cart.quantity item + 1) with false by lia.
  replace (to_number stock2 <? Cart.quantity item) with false by lia.
  rewrite map_quantity_twice.
  apply map_quantity_fixed. intros other Hother Hid.
  rewrite (distinct_line item other items Hnodup Hin Hother Hid). reflexivity.
Qed.

Lemma plus_then_minus_restores_cart_witness :
  CartSidebar.minus (ok_response (Some 10))
                    (Cart.set_quantity Sample.basket (2 + 1))
                    (CartSidebar.plus (ok_response (Some 10)) Sample.basket
                                      [Sample.basket; Scenario.jar])
  = [Sample.basket; Scenario.jar].
Proof.
  apply (plus_then_minus_restores_cart Sample.basket [Sample.basket; Scenario.jar]
           (Some 10) (Some 10)).
  - repeat constructor; simpl; intuition discriminate.
  - simpl. auto.
  - simpl. lia.
  - simpl. lia.
  - simpl. lia.
Defined.

(** The minus button never removes a line. *)
Lemma minus_keeps_lines reply item items :
  List.map Cart.id (CartSidebar.minus reply item items) = List.map Cart.id items.
Proof.
  unfold CartSidebar.minus, Cart.updateQuantity.
  destruct (Cart.quantity item <=? 1); [reflexivity|].
  replace (Z.max 1 (Cart.quantity item - 1) <=? 0) with false by lia.
  destruct (error reply); [reflexivity|].
  destruct (data reply) as [stock|]; [destruct (_ <? _)|]; apply map_quantity_ids.
Qed.

Lemma totalItems_acc items : forall acc,
  List.fold_left (fun total item => total + Cart.quantity item) items acc
  = acc + CartSidebar.totalItems items.
Proof.
  unfold CartSidebar.totalItems.
  induction items as [|item rest IH]; intros acc; simpl; [lia|].
  rewrite IH, (IH (0 + _)). lia.
Qed.

Lemma totalItems_cons item rest :
  CartSidebar.totalItems (item :: rest) = Cart.quantity item + CartSidebar.totalItems rest.
Proof.
  unfold CartSidebar.totalItems at 1. simpl. rewrite totalItems_acc. lia.
Qed.

Lemma totalItems_positive items :
  Cart.quantities_positive items ->
  0 <= CartSidebar.totalItems items /\ (items <> [] -> 0 < CartSidebar.totalItems items).
Proof.
  unfold Cart.quantities_positive. intros Hpos.
  induction Hpos as [|item rest Hitem _ IH]; [split; [reflexivity|congruence]|].
  rewrite totalItems_cons. lia.
Qed.

Lemma selectedItems_positive items :
  Cart.quantities_positive items -> Cart.quantities_positive (Cart.selectedItems items).
Proof.
  unfold Cart.quantities_positive, Cart.selectedItems. intros Hpos.
  induction Hpos as [|item rest Hitem _ IH]; simpl; [constructor|].
  destruct (Cart.selected item); [constructor|]; assumption.
Qed.

(** X5: in a cart whose quantities are all at least one, the sidebar
    enables the checkout button exactly when some line is selected, and then
    shows the total of the selected lines. *)
Theorem checkout_button_enabled_iff_selected items :
  Cart.quantities_positive items ->
  (CartSidebar.someSelected items = true <-> Cart.selectedItems items <> []) /\
  (Cart.selectedItems items <> [] ->
   CartSidebar.shownSubtotal items = Cart.selectedItemsTotal items).
Proof.
  intros Hpos.
  destruct (totalItems_positive _ (selectedItems_positive _ Hpos)) as [Hnonneg Hsome].
  assert (Hiff : CartSidebar.someSelected items = true <-> Cart.selectedItems items <> []).
  { unfold CartSidebar.someSelected, CartSidebar.selectedItemsCount. split.
    - intros H Hnil. rewrite Hnil in H. discriminate.
    - intros Hne. apply Z.ltb_lt. auto. }
  split; [exact Hiff|].
  intros Hne. unfold CartSidebar.shownSubtotal.
  rewrite (proj2 Hiff Hne). reflexivity.
Qed.

Lemma checkout_button_enabled_iff_selected_witness :
  (CartSidebar.someSelected [Sample.basket; Scenario.jar] = true
   <-> Cart.selectedItems [Sample.basket; Scenario.jar] <> []) /\
  (Cart.selectedItems [Sample.basket; Scenario.jar] <> [] ->
   CartSidebar.shownSubtotal [Sample.basket; Scenario.jar]
   = Cart.selectedItemsTotal [Sample.basket; Scenario.jar]).
Proof.
  apply (checkout_button_enabled_iff_selected [Sample.basket; Scenario.jar]).
  repeat constructor; simpl; lia.
Defined.

Lemma set_selected_twice item :
  Cart.set_selected (Cart.set_selected item (negb (Cart.selected item)))
                    (negb (Cart.selected
                             (Cart.set_selected item (negb (Cart.selected item)))))
  = item.
Proof. destruct item as [? ? ? ? ? ? []]; reflexivity. Qed.

(** X6: toggling the selection of a product twice gives back the cart. *)
Theorem toggleItemSelection_twice pid items :
  Cart.toggleItemSelection pid (Cart.toggleItemSelection pid items) = items.
Proof.
  unfold Cart.toggleItemSelection. rewrite List.map_map.
  rewrite <- (List.map_id items) at 2. apply List.map_ext. intros item.
  destruct (String.eqb (Cart.id item) pid) eqn:Heq.
  - simpl. rewrite Heq. apply set_selected_twice.
  - rewrite Heq. reflexivity.
Qed.

Lemma subtotal_set_selected b items :
  Cart.subtotal (List.map (fun item => Cart.set_selected item b) items)
  = Cart.subtotal items.
Proof.
  induction items as [|item rest IH]; [reflexivity|].
  simpl. rewrite !subtotal_cons, IH. reflexivity.
Qed.

(** X7: selecting all lines makes the selected total the total of the cart
    and, for a cart that is not empty, ticks the select-all box; deselecting
    all leaves nothing selected, so that the checkout button is disabled and
    the subtotal shown is 0. Neither changes the total of the cart. *)
Theorem toggleAllSelection_totals items :
  Cart.selectedItemsTotal (Cart.toggleAllSelection true items) = Cart.totalPrice items /\
  CartSidebar.allSelected (Cart.toggleAllSelection true items)
    = negb (Nat.eqb (List.length items) 0) /\
  Cart.selectedItems (Cart.toggleAllSelection false items) = [] /\
  CartSidebar.someSelected (Cart.toggleAllSelection false items) = false /\
  CartSidebar.shownSubtotal (Cart.toggleAllSelection false items) = 0 /\
  (forall b, Cart.totalPrice (Cart.toggleAllSelection b items) = Cart.totalPrice items).
Proof.
  assert (Hall : Cart.selectedItems (Cart.toggleAllSelection true items)
                 = Cart.toggleAllSelection true items).
  { unfold Cart.selectedItems, Cart.toggleAllSelection.
    induction items as [|item rest IH]; [reflexivity|]. simpl. rewrite IH. reflexivity. }
  assert (Hnone : Cart.selectedItems (Cart.toggleAllSelection false items) = []).
  { clear Hall. unfold Cart.selectedItems, Cart.toggleAllSelection.
    induction items as [|item rest IH]; [reflexivity|]. simpl. exact IH. }
  split; [|split; [|split; [|split; [|split]]]].
  - unfold Cart.selectedItemsTotal, Cart.totalPrice. rewrite Hall.
    apply subtotal_set_selected.
  - unfold CartSidebar.allSelected, Cart.toggleAllSelection.
    rewrite List.length_map.
    replace (List.forallb Cart.selected
               (List.map (fun item => Cart.set_selected item true) items)) with true;
      [apply andb_true_r|].
    clear Hall Hnone. induction items as [|item rest IH]; [reflexivity|]. simpl. exact IH.
  - exact Hnone.
  - unfold CartSidebar.someSelected, CartSidebar.selectedItemsCount.
    rewrite Hnone. reflexivity.
  - unfold CartSidebar.shownSubtotal, CartSidebar.someSelected,
      CartSidebar.selectedItemsCount.
    rewrite Hnone. reflexivity.
  - intros b. apply subtotal_set_selected.
Qed.

(** ** The checkout page *)

(** X8: the shipping form passes validation exactly when none of its six
    fields is empty; otherwise [handleSubmit] stops with the message of the
    first empty field (the full name before all others) and changes neither
    the tables nor the cart. *)
Theorem shipping_validation env today w st :
  let info := Checkout.shippingInfo st in
  (Checkout.validateShippingInfo info = None <->
   Checkout.fullName info <> "" /\ Checkout.address info <> "" /\
   Checkout.city info <> "" /\ Checkout.province info <> "" /\
   Checkout.postalCode info <> "" /\ Checkout.phone info <> "") /\
  (Checkout.fullName info = "" ->
   Checkout.validateShippingInfo info = Some "Please enter your full name") /\
  (forall msg,
      Checkout.validateShippingInfo info = Some msg ->
      Checkout.handleSubmit env today w st = (w, Checkout.items st, Checkout.ToastError msg)).
Proof.
  intros info. split; [|split].
  - unfold Checkout.validateShippingInfo. simpl.
    destruct (String.eqb_spec (Checkout.fullName info) "");
      [simpl; split; [discriminate|tauto]|].
    destruct (String.eqb_spec (Checkout.address info) "");
      [simpl; split; [discriminate|tauto]|].
    destruct (String.eqb_spec (Checkout.city info) "");
      [simpl; split; [discriminate|tauto]|].
    destruct (String.eqb_spec (Checkout.province info) "");
      [simpl; split; [discriminate|tauto]|].
    destruct (String.eqb_spec (Checkout.postalCode info) "");
      [simpl; split; [discriminate|tauto]|].
    destruct (String.eqb_spec (Checkout.phone info) "");
      [simpl; split; [discriminate|tauto]|].
    simpl. tauto.
  - intros Hname. unfold Checkout.validateShippingInfo. simpl. rewrite Hname. reflexivity.
  - intros msg Hmsg. unfold Checkout.handleSubmit. fold info. rewrite Hmsg. reflexivity.
Qed.

Lemma shipping_validation_witness :
  Checkout.validateShippingInfo
    (Checkout.mkShippingInfo "" "12 Rizal St" "" "Cebu" "6000" "")
  = Some "Please enter your full name".
Proof.
  apply (proj1 (proj2 (shipping_validation
                         Sample.env 20000 (Sample.world 10)
                         (Checkout.mkState [Sample.basket] Checkout.cod "standard"
                            (Checkout.mkShippingInfo "" "12 Rizal St" "" "Cebu" "6000" "")
                            None)))).
  reflexivity.
Defined.

(** X9: for an option id that is not in the delivery table the checkout
    charges the standard fee of 50 and computes no estimated delivery
    date. *)
Theorem unknown_delivery_option selected today :
  ~ In selected ["standard"; "express"; "maxim"] ->
  Checkout.selectedDeliveryDetails selected = None /\
  Checkout.selectedDeliveryFee selected = 50 /\
  Checkout.calculateEstimatedDelivery today selected = None.
Proof.
  intros Hnotin. simpl in Hnotin.
  assert (Hnone : Checkout.selectedDeliveryDetails selected = None).
  { assert (H1 : String.eqb "standard" selected = false)
      by (apply String.eqb_neq; tauto).
    assert (H2 : String.eqb "express" selected = false)
      by (apply String.eqb_neq; tauto).
    assert (H3 : String.eqb "maxim" selected = false)
      by (apply String.eqb_neq; tauto).
    unfold Checkout.selectedDeliveryDetails, Checkout.deliveryOptions.
    cbn [List.find Checkout.id]. rewrite H1, H2, H3. reflexivity. }
  unfold Checkout.selectedDeliveryFee, Checkout.calculateEstimatedDelivery.
  rewrite Hnone. auto.
Qed.

Lemma unknown_delivery_option_witness :
  Checkout.selectedDeliveryDetails "pickup" = None /\
  Checkout.selectedDeliveryFee "pickup" = 50 /\
  Checkout.calculateEstimatedDelivery 20000 "pickup" = None.
Proof.
  apply (unknown_delivery_option "pickup" 20000). simpl. intuition discriminate.
Defined.

(** X10: [handleSubmit] empties the cart exactly when it shows the success
    toast and leaves it as it was otherwise; for a card payment it never
    shows it and never writes to a table. *)
Theorem handleSubmit_cart_and_card env today w st :
  (exists msg orderId,
      (Checkout.handleSubmit env today w st).2 = Checkout.ToastSuccess msg orderId /\
      (Checkout.handleSubmit env today w st).1.2 = [] /\
      Checkout.paymentMethod st = Checkout.cod)
  \/ ((forall msg orderId,
          (Checkout.handleSubmit env today w st).2 <> Checkout.ToastSuccess msg orderId) /\
      (Checkout.handleSubmit env today w st).1.2 = Checkout.items st /\
      (Checkout.paymentMethod st = Checkout.cod
       \/ (Checkout.handleSubmit env today w st).1.1 = w)).
Proof.
  unfold Checkout.handleSubmit.
  destruct (Checkout.validateShippingInfo _); [right; simpl; auto|].
  destruct (Checkout.selectedItems st); [right; simpl; auto|].
  destruct (Checkout.paymentMethod st).
  - right. destruct (Checkout.clientSecret st); simpl; auto.
  - destruct (OrderService.createOrder _ _ _ _) as [w' [orderId|msg]].
    + left. simpl. eauto.
    + right. simpl. repeat split; try discriminate. auto.
Qed.

(** X11: a cash-on-delivery checkout by a visitor who is not signed in
    shows the success toast and empties the cart although no order is
    written: [createOrder] returns [null] and [handleSubmit] does not look at
    the id. *)
Theorem cod_checkout_without_user env today w st :
  data (auth env) = None ->
  Checkout.validateShippingInfo (Checkout.shippingInfo st) = None ->
  Checkout.selectedItems st <> [] ->
  Checkout.paymentMethod st = Checkout.cod ->
  Checkout.handleSubmit env today w st
  = (w, [], Checkout.ToastSuccess "Order placed successfully!" None).
Proof.
  intros Huser Hvalid Hsel Hcod. unfold Checkout.handleSubmit.
  rewrite Hvalid, Hcod.
  destruct (Checkout.selectedItems st) as [|first others] eqn:Hitems; [congruence|].
  unfold OrderService.createOrder. rewrite Huser. reflexivity.
Qed.

Lemma cod_checkout_without_user_witness :
  Checkout.handleSubmit
    (mkEnv (mkResponse None None) 20000 (ok_response "order-0001") None
           (fun _ => None) (fun _ => None) (fun _ => None) (fun _ => false)
           (ok_response "buyer-1") (ok_response "buyer-1") 20000)
    20000 (Sample.world 10) Sample.checkout
  = (Sample.world 10, [], Checkout.ToastSuccess "Order placed successfully!" None).
Proof.
  apply cod_checkout_without_user; try reflexivity. discriminate.
Defined.

(** ** The order writers *)

(** X12: the order-service [createOrder] writes nothing unless it returns
    the id of a new order: when it throws (a missing payment method or
    address, an insert the backend refuses) or returns [null] (no user), every
    table is as before. The backend is taken never to assign the empty id. *)
Theorem createOrder_fails_without_writing env w orderData cartItems :
  data (orders_insert env) <> Some "" ->
  (exists orderId,
      (OrderService.createOrder env w orderData cartItems).2 = Returned (Some orderId))
  \/ (OrderService.createOrder env w orderData cartItems).1 = w.
Proof.
  intros Hid. unfold OrderService.createOrder.
  destruct (data (auth env)); [|right; reflexivity].
  destruct (OrderService.validatedOrderData _ _ _) as [validated|]; [|right; reflexivity].
  unfold insert_order.
  destruct (error (orders_insert env));
    [destruct (data (orders_insert env)); right; reflexivity|].
  destruct (data (orders_insert env)) as [new_id|]; [|right; reflexivity].
  simpl. destruct (String.eqb_spec new_id ""); [congruence|].
  left. simpl. eauto.
Qed.

Lemma createOrder_fails_without_writing_witness :
  (exists orderId,
      (OrderService.createOrder Sample.env (Sample.world 10)
         (OrderService.mkOrderData None None None (Some "12 Rizal St") None (Some 1150)
                                   None None None None None)
         (Some [Sample.basket])).2 = Returned (Some orderId))
  \/ (OrderService.createOrder Sample.env (Sample.world 10)
        (OrderService.mkOrderData None None None (Some "12 Rizal St") None (Some 1150)
                                  None None None None None)
        (Some [Sample.basket])).1 = Sample.world 10.
Proof.
  apply (createOrder_fails_without_writing Sample.env (Sample.world 10)).
  discriminate.
Defined.

(** What it answers when a required field is missing. *)
Example createOrder_required_fields :
  (OrderService.createOrder Sample.env (Sample.world 10)
     (OrderService.mkOrderData None None None (Some "12 Rizal St") None (Some 1150)
                               None None None None None)
     (Some [Sample.basket])).2 = Thrown "Payment method is required" /\
  (OrderService.createOrder Sample.env (Sample.world 10)
     (OrderService.mkOrderData None (Some "cod") None None (Some "12 Rizal St")
                               (Some 1150) None None None None None)
     (Some [Sample.basket])).2 = Thrown "Shipping address is required".
Proof. split; reflexivity. Qed.

(** X13: when the backend refuses the order items, the cart-service
    [createOrder] throws although the order row has already been inserted;
    the row stays in [orders] without any item. *)
Theorem cart_service_leaves_order_without_items env w items shippingAddress
        billingAddress paymentMethod user orderId msg :
  error (auth env) = None -> data (auth env) = Some user ->
  items <> [] ->
  error (orders_insert env) = None -> data (orders_insert env) = Some orderId ->
  order_items_insert_error env = Some msg ->
  exists w' row,
    CartService.createOrder env w items shippingAddress billingAddress paymentMethod
      = (w', Thrown ("Failed to add order items: " ++ msg)) /\
    orders w' = (orders w ++ [row])%list /\
    o_id row = orderId /\
    order_items w' = order_items w.
Proof.
  intros Herr Huser Hitems Hins_err Hins Hrejected.
  unfold CartService.createOrder, insert_order, insert_order_items.
  rewrite Herr, Huser, Hins_err, Hins.
  destruct items as [|item rest]; [congruence|]. simpl.
  rewrite Hrejected. eexists _, _. split; [reflexivity|].
  split; [apply order_stored_orders|]. split; [reflexivity|].
  apply order_stored_frame.
Qed.

Lemma cart_service_leaves_order_without_items_witness :
  exists w' row,
    CartService.createOrder Sample.env_items_rejected (Sample.world 10) [Sample.basket]
                            "12 Rizal St" "12 Rizal St" "cod"
      = (w', Thrown ("Failed to add order items: "
                     ++ "new row violates row-level security policy")) /\
    orders w' = ([] ++ [row])%list /\
    o_id row = "order-0001" /\
    order_items w' = [].
Proof.
  apply (cart_service_leaves_order_without_items
           Sample.env_items_rejected (Sample.world 10) [Sample.basket]
           "12 Rizal St" "12 Rizal St" "cod" "buyer-1" "order-0001");
    try reflexivity. discriminate.
Defined.

Section StockLevels.

Variable env : Env.
Variable orderId : string.

(** One iteration leaves each product's stock as it was or floors the
    difference with the line's quantity at 0. *)
Lemma update_inventory_stock w i item pid product' :
  products (OrderService.update_inventory env orderId w i item) !! pid = Some product' ->
  exists product,
    products w !! pid = Some product /\
    (to_number (p_stock_quantity product') = to_number (p_stock_quantity product)
     \/ to_number (p_stock_quantity product')
        = Z.max 0 (to_number (p_stock_quantity product) - Cart.quantity item)).
Proof.
  unfold OrderService.update_inventory, OrderService.select_product.
  destruct (products_select_error env i); [simpl; eauto|].
  destruct (products w !! Cart.id item) as [found|] eqn:Hfound; [|simpl; eauto].
  cbn [error data ok_response]. destruct (products_update_error env i); [eauto|].
  intros Hlookup.
  assert (Halter :
            alter (fun product => mkProductRow
                     (Some (Z.max 0 (num_or (p_stock_quantity found) 0
                                     - Cart.quantity item)))
                     (p_seller_id product) (p_name product))
                  (Cart.id item) (products w) !! pid = Some product').
  { revert Hlookup.
    destruct (inventory_logs_insert_error env i); simpl;
      repeat (case_match; simpl); auto. }
  clear Hlookup.
  destruct (decide (Cart.id item = pid)) as [<-|Hne].
  - rewrite lookup_alter_eq, Hfound in Halter. simpl in Halter.
    injection Halter as <-. exists found. split; [assumption|]. right. simpl.
    unfold to_number. set (previous := num_or (p_stock_quantity found) 0).
    unfold num_or.
    destruct (Z.eqb_spec (Z.max 0 (previous - Cart.quantity item)) 0); lia.
  - rewrite lookup_alter_ne in Halter by assumption. eauto.
Qed.

Lemma update_inventories_stock items : forall w i pid product',
  Forall (fun item => 0 <= Cart.quantity item) items ->
  products (OrderService.update_inventories env orderId w i items) !! pid
    = Some product' ->
  exists product,
    products w !! pid = Some product /\
    (0 <= to_number (p_stock_quantity product) ->
     0 <= to_number (p_stock_quantity product')
          <= to_number (p_stock_quantity product)).
Proof.
  induction items as [|item rest IH]; intros w i pid product' Hq Hlookup; simpl in *.
  - exists product'. split; [assumption|lia].
  - apply List.Forall_cons_iff in Hq as [Hitem Hrest].
    destruct (IH _ _ _ _ Hrest Hlookup) as (middle & Hmiddle & Hbound).
    destruct (update_inventory_stock _ _ _ _ _ Hmiddle) as (product & Hproduct & Hstep).
    exists product. split; [assumption|]. lia.
Qed.

End StockLevels.

Lemma createOrder_products env w orderData cartItems :
  products (OrderService.createOrder env w orderData cartItems).1 = products w
  \/ exists orderId w2 items,
       cartItems = Some items /\ products w2 = products w /\
       products (OrderService.createOrder env w orderData cartItems).1
       = products (OrderService.update_inventories env orderId w2 0 items).
Proof.
  unfold OrderService.createOrder.
  destruct (data (auth env)); [|left; reflexivity].
  destruct (OrderService.validatedOrderData _ _ _) as [validated|]; [|left; reflexivity].
  unfold insert_order.
  destruct (error (orders_insert env));
    [destruct (data (orders_insert env)); left; reflexivity|].
  destruct (data (orders_insert env)) as [new_id|]; [|left; reflexivity].
  destruct (order_stored_frame env w (set_id validated new_id))
    as (_ & _ & Hstored & _).
  simpl. destruct (String.eqb new_id ""); [left; exact Hstored|]. simpl.
  destruct (notify_seller_frame
              (OrderService.write_items env
                 (order_stored env w (set_id validated new_id)) new_id cartItems)
              orderData new_id) as (_ & _ & -> & _).
  destruct cartItems as [[|first others]|]; [left; exact Hstored| |left; exact Hstored].
  right. unfold OrderService.write_items, insert_order_items.
  destruct (order_items_insert_error env); eexists new_id, _, _;
    (split; [reflexivity|]); (split; [|reflexivity]); exact Hstored.
Qed.

(** X14: creating an order never drives a stock level below 0 and never
    raises one: for a cart without negative quantities, a product whose
    stock was not negative keeps a stock between 0 and what it was, whether
    or not the order could be covered. *)
Theorem order_keeps_stock_between_zero_and_before env w orderData cartItems pid product' :
  Forall (fun item => 0 <= Cart.quantity item) (default [] cartItems) ->
  products (OrderService.createOrder env w orderData cartItems).1 !! pid = Some product' ->
  exists product,
    products w !! pid = Some product /\
    (0 <= to_number (p_stock_quantity product) ->
     0 <= to_number (p_stock_quantity product') <= to_number (p_stock_quantity product)).
Proof.
  intros Hq Hlookup.
  destruct (createOrder_products env w orderData cartItems)
    as [Hsame | (orderId & w2 & items & -> & Hw2 & Hloop)].
  - rewrite Hsame in Hlookup. exists product'. split; [assumption|lia].
  - rewrite Hloop in Hlookup. simpl in Hq.
    destruct (update_inventories_stock env orderId items w2 0%nat pid product' Hq Hlookup)
      as (product & Hproduct & Hbound).
    exists product. rewrite <- Hw2. auto.
Qed.

Lemma order_keeps_stock_between_zero_and_before_witness :
  exists product,
    products (Sample.world 1) !! "p1" = Some product /\
    (0 <= to_number (p_stock_quantity product) ->
     0 <= to_number (p_stock_quantity (Sample.product 0))
          <= to_number (p_stock_quantity product)).
Proof.
  apply (order_keeps_stock_between_zero_and_before
           Sample.env (Sample.world 1)
           (Checkout.orderData_submit 20000 Sample.checkout) (Some [Sample.basket])
           "p1" (Sample.product 0)).
  - repeat constructor. simpl. lia.
  - vm_compute. reflexivity.
Defined.

(** X15: the inventory log row of a cart line records the stock read as
    previous quantity and minus the ordered quantity as change; the change
    equals new minus previous quantity exactly when the stock covered the
    order. An order for more than the stock is fulfilled all the same, with a
    new quantity of 0 and a logged change larger than what was in stock. *)
Theorem inventory_log_change_matches_iff_covered env orderId w i item product :
  products w !! Cart.id item = Some product ->
  products_select_error env i = None ->
  products_update_error env i = None ->
  inventory_logs_insert_error env i = None ->
  exists row,
    inventory_logs (OrderService.update_inventory env orderId w i item)
      = (inventory_logs w ++ [row])%list /\
    log_previous_quantity row = to_number (p_stock_quantity product) /\
    log_change_quantity row = - Cart.quantity item /\
    (log_new_quantity row - log_previous_quantity row = log_change_quantity row
     <-> Cart.quantity item <= log_previous_quantity row) /\
    (log_previous_quantity row < Cart.quantity item -> log_new_quantity row = 0).
Proof.
  intros Hp Hsel Hupd Hlog.
  destruct (update_inventory_decrement env orderId w i item product Hp Hsel Hupd)
    as [_ Hlogs].
  rewrite Hlog in Hlogs.
  exists (fulfillment_log env orderId item product).
  split; [exact Hlogs|]. unfold fulfillment_log, to_number. simpl.
  repeat split; lia.
Qed.

Lemma inventory_log_change_matches_iff_covered_witness :
  exists row,
    inventory_logs (OrderService.update_inventory Sample.env "order-0001" (Sample.world 1)
                                                  0%nat Sample.basket)
      = ([] ++ [row])%list /\
    log_previous_quantity row = 1 /\
    log_change_quantity row = - 2 /\
    (log_new_quantity row - log_previous_quantity row = log_change_quantity row
     <-> 2 <= log_previous_quantity row) /\
    (log_previous_quantity row < 2 -> log_new_quantity row = 0).
Proof.
  apply (inventory_log_change_matches_iff_covered
           Sample.env "order-0001" (Sample.world 1) 0%nat Sample.basket (Sample.product 1));
    reflexivity.
Defined.

(** *** The seller-customer table *)

Lemma update_inventory_seller_customers env orderId w i item :
  seller_customers (OrderService.update_inventory env orderId w i item)
  = seller_customers w /\
  unattributed_customers (OrderService.update_inventory env orderId w i item)
  = unattributed_customers w.
Proof.
  unfold OrderService.update_inventory.
  repeat (case_match; simpl; try (split; reflexivity)).
Qed.

Lemma update_inventories_seller_customers env orderId items : forall w i,
  seller_customers (OrderService.update_inventories env orderId w i items)
  = seller_customers w /\
  unattributed_customers (OrderService.update_inventories env orderId w i items)
  = unattributed_customers w.
Proof.
  induction items as [|item rest IH]; intros w i; simpl; [auto|].
  destruct (IH (OrderService.update_inventory env orderId w i item) (S i)) as [-> ->].
  apply update_inventory_seller_customers.
Qed.

Lemma write_items_seller_customers env w orderId cartItems :
  seller_customers (OrderService.write_items env w orderId cartItems)
  = seller_customers w /\
  unattributed_customers (OrderService.write_items env w orderId cartItems)
  = unattributed_customers w.
Proof.
  unfold OrderService.write_items, insert_order_items.
  destruct cartItems as [[|first others]|]; auto.
  destruct (order_items_insert_error env);
    match goal with
    | |- context [OrderService.update_inventories env orderId ?w0 0 ?l] =>
        destruct (update_inventories_seller_customers env orderId l w0 0%nat) as [-> ->]
    end; auto.
Qed.

Lemma notify_seller_seller_customers w orderData orderId :
  seller_customers (OrderService.notify_seller w orderData orderId) = seller_customers w /\
  unattributed_customers (OrderService.notify_seller w orderData orderId)
  = unattributed_customers w.
Proof.
  unfold OrderService.notify_seller. repeat case_match; auto.
Qed.

(** The trigger for a row with a seller: the pair's relationship is set to
    the count and the sum of the pair's orders. *)
Lemma trigger_relationship env w new seller :
  o_seller_id new = Some seller ->
  exists relationship,
    seller_customers (update_seller_customers_after_order env w new)
    = <[(seller, o_buyer_id new) := relationship]> (seller_customers w) /\
    sc_total_orders relationship
    = Some (Z.of_nat (List.length (orders_of_pair (orders w) (o_buyer_id new) seller))) /\
    sc_total_spent relationship
    = Some (sum_total_amount (orders_of_pair (orders w) (o_buyer_id new) seller)) /\
    sc_status relationship = "active" /\
    sc_last_purchase_date relationship = o_created_at new /\
    unattributed_customers (update_seller_customers_after_order env w new)
    = unattributed_customers w.
Proof.
  intros Hseller. unfold update_seller_customers_after_order. rewrite Hseller.
  destruct (seller_customers w !! (seller, o_buyer_id new));
    eexists; (split; [reflexivity|]); simpl; auto.
Qed.

(** The trigger for a row without seller: no relationship is found or
    changed, and a row without seller is added. *)
Lemma trigger_unattributed env w new :
  o_seller_id new = None ->
  seller_customers (update_seller_customers_after_order env w new) = seller_customers w /\
  unattributed_customers (update_seller_customers_after_order env w new)
  = (unattributed_customers w ++
       [(o_buyer_id new,
         mkSellerCustomerRow (Some 0) (Some 0) (o_created_at new) (database_now env)
                             (database_now env) "active" [])])%list.
Proof.
  intros Hseller. unfold update_seller_customers_after_order. rewrite Hseller. auto.
Qed.

(** X16: the two order writers keep their side effects apart. The
    order-service [createOrder] leaves the seller-customer table to the
    trigger on [orders]: after an order for a seller the relationship of
    seller and buyer holds exactly the number of the pair's orders and the
    sum of their totals, the new order included, and no other relationship
    has changed; after an order without seller no relationship has changed
    and the table has one more row without seller, orders or spending. The
    cart-service [createOrder] never changes a stock level, never writes an
    inventory log row and never requests a notification. *)
Theorem order_writers_side_effects env w :
  (forall orderData cartItems w' orderId user,
      OrderService.createOrder env w orderData cartItems = (w', Returned (Some orderId)) ->
      data (auth env) = Some user ->
      match OrderService.seller_id orderData with
      | Some seller =>
          exists relationship,
            seller_customers w' !! (seller, user) = Some relationship /\
            sc_total_orders relationship
            = Some (Z.of_nat (List.length (orders_of_pair (orders w') user seller))) /\
            sc_total_spent relationship
            = Some (sum_total_amount (orders_of_pair (orders w') user seller)) /\
            (forall other, other <> (seller, user) ->
                           seller_customers w' !! other = seller_customers w !! other) /\
            unattributed_customers w' = unattributed_customers w
      | None =>
          seller_customers w' = seller_customers w /\
          exists row,
            unattributed_customers w' = (unattributed_customers w ++ [(user, row)])%list /\
            sc_total_orders row = Some 0 /\ sc_total_spent row = Some 0
      end) /\
  (forall items shippingAddress billingAddress paymentMethod,
      products (CartService.createOrder env w items shippingAddress billingAddress
                                        paymentMethod).1 = products w /\
      inventory_logs (CartService.createOrder env w items shippingAddress billingAddress
                                              paymentMethod).1 = inventory_logs w /\
      rpc_calls (CartService.createOrder env w items shippingAddress billingAddress
                                         paymentMethod).1 = rpc_calls w).
Proof.
  split.
  - intros orderData cartItems w' orderId user Hrun Huser.
    destruct (createOrder_returned _ _ _ _ _ _ Hrun)
      as (row & user' & validated & Huser' & Hv & -> & _ & _ & _ & ->).
    assert (user' = user) by congruence. subst user'.
    destruct (validatedOrderData_row _ _ _ _ Hv) as (Hbuyer & _ & Hseller & _).
    set (stored := set_id validated orderId).
    set (w1 := order_stored env w stored).
    set (w2 := OrderService.write_items env w1 orderId cartItems).
    destruct (notify_seller_seller_customers w2 orderData orderId) as [-> ->].
    destruct (notify_seller_frame w2 orderData orderId) as (Horders & _).
    destruct (write_items_seller_customers env w1 orderId cartItems) as [Hsc Hun].
    fold w2 in Hsc, Hun. rewrite Hsc, Hun.
    assert (Hall : orders (OrderService.notify_seller w2 orderData orderId)
                   = orders (with_orders w (orders w ++ [stored]))).
    { rewrite Horders. unfold w2. rewrite write_items_orders. unfold w1.
      rewrite order_stored_orders. reflexivity. }
    assert (Hb : o_buyer_id stored = user) by exact Hbuyer.
    assert (Hs : o_seller_id stored = OrderService.seller_id orderData) by exact Hseller.
    destruct (OrderService.seller_id orderData) as [seller|].
    + destruct (trigger_relationship env (with_orders w (orders w ++ [stored])) stored
                                     seller Hs)
        as (relationship & Hmap & Hcount & Hspent & _ & _ & Hsame).
      rewrite Hb in Hmap, Hcount, Hspent.
      exists relationship. unfold w1, order_stored. rewrite Hmap, Hsame.
      rewrite Hall. cbn [orders with_orders].
      split; [apply lookup_insert_eq|]. split; [exact Hcount|]. split; [exact Hspent|].
      split; [|reflexivity].
      intros other Hother. apply lookup_insert_ne. congruence.
    + destruct (trigger_unattributed env (with_orders w (orders w ++ [stored])) stored Hs)
        as [Hmap Hrows].
      unfold w1, order_stored. rewrite Hmap, Hrows, Hb.
      split; [reflexivity|]. eexists. split; [reflexivity|]. auto.
  - intros items shippingAddress billingAddress paymentMethod.
    unfold CartService.createOrder, insert_order, insert_order_items.
    destruct (error (auth env)); [auto|].
    destruct (data (auth env)); [|auto].
    destruct items as [|item rest]; [auto|].
    destruct (error (orders_insert env));
      [destruct (data (orders_insert env)); auto|].
    destruct (data (orders_insert env)) as [new_id|]; [|auto]. cbv zeta.
    match goal with
    | |- context [order_stored env w ?row] =>
        destruct (order_stored_frame env w row) as (_ & _ & Hp & Hl & Hc)
    end.
    cbn [error data ok_response].
    destruct (order_items_insert_error env); [auto|].
    destruct (match or_null (option_map Cart.seller (head (item :: rest))) with
              | Some s => if isValidUUID s then Some s else None
              | None => None
              end); [|auto].
    unfold CartService.record_relationship,
      CartService.updateOrCreateSellerCustomerRelationship.
    repeat case_match; simpl; auto.
Qed.

(** X17: a cart-service order for a seller with a well-formed id, placed by
    a buyer whose profile is found under the buyer's id, is counted twice in
    the relationship of seller and buyer: the trigger on [orders] recounts
    the pair's orders, the new one included, and the client then adds one
    order and the order's total (subtotal plus 150) again. The relationship
    ends with one order more and the new total more than the pair's orders
    account for, so a first order leaves [total_orders] at 2; it is marked
    active, and no other relationship changes. *)
Theorem cart_service_counts_order_twice env w items shippingAddress billingAddress
        paymentMethod user orderId first :
  error (auth env) = None -> data (auth env) = Some user ->
  head items = Some first ->
  isValidUUID (Cart.seller first) = true ->
  error (orders_insert env) = None -> data (orders_insert env) = Some orderId ->
  order_items_insert_error env = None ->
  error (profile_by_id env) = None -> data (profile_by_id env) = Some user ->
  exists w' order relationship,
    CartService.createOrder env w items shippingAddress billingAddress paymentMethod
      = (w', Returned order) /\
    o_seller_id order = Some (Cart.seller first) /\
    o_total_amount order = Cart.subtotal items + 150 /\
    orders w' = (orders w ++ [order])%list /\
    seller_customers w' !! (Cart.seller first, user) = Some relationship /\
    sc_status relationship = "active" /\
    sc_total_orders relationship
      = Some (Z.of_nat (List.length (orders_of_pair (orders w') user (Cart.seller first))) + 1) /\
    sc_total_spent relationship
      = Some (sum_total_amount (orders_of_pair (orders w') user (Cart.seller first))
              + (Cart.subtotal items + 150)) /\
    (orders_of_pair (orders w) user (Cart.seller first) = [] ->
     sc_total_orders relationship = Some 2 /\
     sc_total_spent relationship = Some (2 * (Cart.subtotal items + 150))) /\
    forall other,
      other <> (Cart.seller first, user) ->
      seller_customers w' !! other = seller_customers w !! other.
Proof.
  intros Herr Huser Hfirst Hvalid Hins_err Hins Hitems Hperr Hprofile.
  unfold CartService.createOrder, insert_order, insert_order_items.
  rewrite Herr, Huser, Hins_err, Hins.
  destruct items as [|item rest]; [discriminate|].
  injection Hfirst as ->. cbn [head option_map].
  assert (Hseller :
            match or_null (Some (Cart.seller first)) with
            | Some s => if isValidUUID s then Some s else None
            | None => None
            end = Some (Cart.seller first)).
  { unfold or_null, truthy.
    destruct (String.eqb_spec (Cart.seller first) "") as [Heq|_].
    - rewrite Heq in Hvalid. discriminate.
    - simpl. rewrite Hvalid. reflexivity. }
  rewrite Hseller. cbn [error data ok_response]. rewrite Hitems.
  unfold CartService.record_relationship. rewrite Hperr, Hprofile.
  unfold CartService.shippingFee.
  set (total := Cart.subtotal (first :: rest) + 150).
  set (order := set_id _ orderId).
  assert (Hs : o_seller_id order = Some (Cart.seller first)) by reflexivity.
  assert (Hb : o_buyer_id order = user) by reflexivity.
  assert (Ht : o_total_amount order = total) by reflexivity.
  destruct (trigger_relationship env (with_orders w (orders w ++ [order])) order
                                 (Cart.seller first) Hs)
    as (counted & Hmap & Hcount & Hspent & _ & _ & _).
  rewrite Hb in Hmap, Hcount, Hspent.
  fold (order_stored env w order) in Hmap.
  set (w2 := with_order_items (order_stored env w order) _).
  assert (Hw2 : seller_customers w2
                = <[(Cart.seller first, user) := counted]> (seller_customers w))
    by exact Hmap.
  assert (Horders2 : orders w2 = (orders w ++ [order])%list)
    by apply order_stored_orders.
  assert (Hpair : orders_of_pair (orders w ++ [order]) user (Cart.seller first)
                  = (orders_of_pair (orders w) user (Cart.seller first) ++ [order])%list).
  { unfold orders_of_pair.
    rewrite List.filter_app. cbn [List.filter]. rewrite Hb, Hs, String.eqb_refl.
    rewrite bool_decide_eq_true_2 by reflexivity. reflexivity. }
  unfold CartService.updateOrCreateSellerCustomerRelationship.
  eexists _, order, _. rewrite Hw2, lookup_insert_eq. split; [reflexivity|].
  cbn [seller_customers with_seller_customers orders].
  rewrite Horders2, lookup_insert_eq.
  cbn [orders with_orders] in Hcount, Hspent.
  rewrite Hcount, Hspent. cbn [sc_total_orders sc_total_spent sc_status].
  rewrite !num_or_zero.
  split; [exact Hs|]. split; [exact Ht|]. split; [reflexivity|].
  split; [reflexivity|]. split; [reflexivity|]. split; [reflexivity|].
  split; [reflexivity|]. split.
  - intros Hnone. rewrite Hpair, Hnone. simpl. split; f_equal; lia.
  - intros other Hother. rewrite insert_insert_eq. apply lookup_insert_ne. congruence.
Qed.

Lemma cart_service_counts_order_twice_witness :
  exists w' order relationship,
    CartService.createOrder Sample.env (Sample.world 10) [Sample.basket]
                            "12 Rizal St" "12 Rizal St" "cod"
      = (w', Returned order) /\
    o_seller_id order = Some Sample.seller_uuid /\
    o_total_amount order = Cart.subtotal [Sample.basket] + 150 /\
    orders w' = ([] ++ [order])%list /\
    seller_customers w' !! (Sample.seller_uuid, "buyer-1") = Some relationship /\
    sc_status relationship = "active" /\
    sc_total_orders relationship
      = Some (Z.of_nat (List.length (orders_of_pair (orders w') "buyer-1"
                                                    Sample.seller_uuid)) + 1) /\
    sc_total_spent relationship
      = Some (sum_total_amount (orders_of_pair (orders w') "buyer-1" Sample.seller_uuid)
              + (Cart.subtotal [Sample.basket] + 150)) /\
    (orders_of_pair (orders (Sample.world 10)) "buyer-1" Sample.seller_uuid = [] ->
     sc_total_orders relationship = Some 2 /\
     sc_total_spent relationship = Some (2 * (Cart.subtotal [Sample.basket] + 150))) /\
    forall other,
      other <> (Sample.seller_uuid, "buyer-1") ->
      seller_customers w' !! other = (∅ : gmap (string * string) SellerCustomerRow) !! other.
Proof.
  apply (cart_service_counts_order_twice
           Sample.env (Sample.world 10) [Sample.basket] "12 Rizal St" "12 Rizal St" "cod"
           "buyer-1" "order-0001" Sample.basket);
    reflexivity.
Defined.

(** ** The UUID format of seller ids *)

Lemma hex_run_spec n : forall s rest,
  hex_run n s = Some rest <->
  exists pre, s = (pre ++ rest)%string /\ String.length pre = n /\ all_hex pre = true.
Proof.
  induction n as [|n IH]; intros s rest; simpl.
  - split.
    + intros H. injection H as ->. exists ""%string. auto.
    + intros (pre & -> & Hlen & _). destruct pre; [reflexivity|discriminate].
  - split.
    + destruct s as [|c s]; [discriminate|].
      destruct (is_hex c) eqn:Hc; [|discriminate].
      intros H. apply IH in H as (pre & -> & Hlen & Hhex).
      exists (String c pre). simpl. rewrite Hc, Hhex, Hlen. auto.
    + intros (pre & -> & Hlen & Hhex).
      destruct pre as [|c pre]; [discriminate|]. simpl in *.
      apply andb_true_iff in Hhex as [-> Hhex].
      apply IH. exists pre. split; [reflexivity|]. split; [lia|assumption].
Qed.

Lemma append_empty_r (t : string) : (t ++ "")%string = t.
Proof.
  induction t as [|c t IH]; [reflexivity|].
  change (String c (t ++ "")%string = String c t). f_equal. exact IH.
Qed.

Lemma hex_groups_last n s :
  hex_groups [n] s = true <-> String.length s = n /\ all_hex s = true.
Proof.
  simpl. split.
  - destruct (hex_run n s) as [[|c rest]|] eqn:Hrun; try discriminate.
    intros _. apply hex_run_spec in Hrun as (pre & -> & Hlen & Hhex).
    rewrite append_empty_r. auto.
  - intros [Hlen Hhex].
    assert (Hrun : hex_run n s = Some ""%string).
    { apply hex_run_spec. exists s. rewrite append_empty_r. auto. }
    rewrite Hrun. reflexivity.
Qed.

Lemma hex_groups_cons n m groups s :
  hex_groups (n :: m :: groups) s = true <->
  exists pre rest,
    s = (pre ++ "-" ++ rest)%string /\ String.length pre = n /\ all_hex pre = true /\
    hex_groups (m :: groups) rest = true.
Proof.
  cbn [hex_groups]. split.
  - destruct (hex_run n s) as [[|c rest]|] eqn:Hrun; try discriminate.
    destruct (Ascii.ascii_dec c "-") as [->|Hne].
    + intros H. apply hex_run_spec in Hrun as (pre & -> & Hlen & Hhex).
      exists pre, rest. auto.
    + destruct c as [[] [] [] [] [] [] [] []]; try discriminate. congruence.
  - intros (pre & rest & -> & Hlen & Hhex & Hrest).
    assert (Hrun : hex_run n (pre ++ "-" ++ rest) = Some (String "-" rest)).
    { apply hex_run_spec. exists pre. auto. }
    rewrite Hrun. exact Hrest.
Qed.

(** X18: [isValidUUID] accepts exactly the strings made of five groups of
    8, 4, 4, 4 and 12 hexadecimal digits, in either case, joined by
    dashes. *)
Theorem isValidUUID_layout uuid :
  isValidUUID uuid = true <->
  exists a b c d e,
    uuid = (a ++ "-" ++ b ++ "-" ++ c ++ "-" ++ d ++ "-" ++ e)%string /\
    List.map String.length [a; b; c; d; e] = [8; 4; 4; 4; 12]%nat /\
    List.forallb all_hex [a; b; c; d; e] = true.
Proof.
  unfold isValidUUID. rewrite hex_groups_cons. split.
  - intros (a & r1 & -> & Ha & Hha & H).
    apply hex_groups_cons in H as (b & r2 & -> & Hb & Hhb & H).
    apply hex_groups_cons in H as (c & r3 & -> & Hc & Hhc & H).
    apply hex_groups_cons in H as (d & e & -> & Hd & Hhd & H).
    apply hex_groups_last in H as [He Hhe].
    exists a, b, c, d, e. simpl. rewrite Ha, Hb, Hc, Hd, He, Hha, Hhb, Hhc, Hhd, Hhe. auto.
  - intros (a & b & c & d & e & -> & Hlen & Hhex).
    simpl in Hlen, Hhex. injection Hlen as Ha Hb Hc Hd He.
    repeat (apply andb_true_iff in Hhex as [? Hhex]).
    exists a, (b ++ "-" ++ c ++ "-" ++ d ++ "-" ++ e)%string.
    repeat split; try assumption.
    apply hex_groups_cons. exists b, (c ++ "-" ++ d ++ "-" ++ e)%string.
    repeat split; try assumption.
    apply hex_groups_cons. exists c, (d ++ "-" ++ e)%string.
    repeat split; try assumption.
    apply hex_groups_cons. exists d, e.
    repeat split; try assumption.
    apply hex_groups_last. auto.
Qed.

Lemma is_hex_cases c :
  is_hex c = true <->
  In c (list_ascii_of_string "0123456789abcdefABCDEF").
Proof.
  destruct c as [[] [] [] [] [] [] [] []]; vm_compute; intuition discriminate.
Qed.

(** ** Status updates by the seller *)

Lemma select_order_found select_error w orderId order :
  data (OrderQueries.select_order select_error w orderId) = Some order ->
  In order (orders w) /\ o_id order = orderId /\
  List.filter (fun row => String.eqb (o_id row) orderId) (orders w) = [order].
Proof.
  unfold OrderQueries.select_order.
  destruct select_error; [discriminate|].
  destruct (List.filter _ (orders w)) as [|first [|second others]] eqn:Hfilter;
    try discriminate.
  simpl. intros H. injection H as ->.
  assert (Hin : In order (List.filter (fun row => String.eqb (o_id row) orderId) (orders w)))
    by (rewrite Hfilter; simpl; auto).
  apply List.filter_In in Hin as [Hin Heq]. apply String.eqb_eq in Heq. auto.
Qed.

(** X19: [updateOrderStatus] changes an order only for the signed-in user
    who is its seller. In every other case (no user, no such order, another
    seller's or nobody's order, an update the backend refuses) it returns
    [false], leaves every table as it was and requests no notification. *)
Theorem updateOrderStatus_only_by_seller env select_error update_error w orderId status :
  ((OrderQueries.updateOrderStatus env select_error update_error w orderId status).2 = true
   /\ exists user order,
        data (auth env) = Some user /\
        In order (orders w) /\ o_id order = orderId /\ o_seller_id order = Some user)
  \/ ((OrderQueries.updateOrderStatus env select_error update_error w orderId status).2
      = false
      /\ (OrderQueries.updateOrderStatus env select_error update_error w orderId status).1
         = (w, [])).
Proof.
  unfold OrderQueries.updateOrderStatus.
  destruct (data (auth env)) as [user|]; [|right; auto].
  destruct (error (OrderQueries.select_order select_error w orderId)); [right; auto|].
  destruct (data (OrderQueries.select_order select_error w orderId)) as [order|] eqn:Hsel;
    [|right; auto].
  destruct (select_order_found _ _ _ _ Hsel) as (Hin & Hid & _).
  destruct (bool_decide (o_seller_id order = Some user)) eqn:Hseller; [|right; auto].
  apply bool_decide_eq_true in Hseller.
  destruct update_error; [right; auto|].
  left. simpl. eauto 10.
Qed.

Lemma update_status_spec orderId status at_ rows :
  List.map o_id (OrderQueries.update_status orderId status at_ rows) = List.map o_id rows /\
  List.filter (fun row => negb (String.eqb (o_id row) orderId))
              (OrderQueries.update_status orderId status at_ rows)
  = List.filter (fun row => negb (String.eqb (o_id row) orderId)) rows /\
  Forall (fun row => o_id row = orderId -> o_status row = status)
         (OrderQueries.update_status orderId status at_ rows).
Proof.
  unfold OrderQueries.update_status.
  induction rows as [|row rest (IHids & IHothers & IHown)]; simpl; [auto|].
  destruct (String.eqb (o_id row) orderId) eqn:Heq; simpl; rewrite Heq; simpl;
    rewrite IHids, IHothers; (split; [reflexivity|]); (split; [reflexivity|]);
    constructor; try assumption.
  - reflexivity.
  - intros Hid. apply String.eqb_neq in Heq. congruence.
Qed.

(** X20: for its seller, [updateOrderStatus] sets the order to the status
    asked for whatever status it had (no transition is refused), leaves all
    other orders as they were, and requests one notification for the buyer
    when the new status is [payment_approved], [shipped] or [delivered] and
    none otherwise. *)
Theorem updateOrderStatus_sets_any_status env w orderId status user order :
  data (auth env) = Some user ->
  List.filter (fun row => String.eqb (o_id row) orderId) (orders w) = [order] ->
  o_seller_id order = Some user ->
  exists w' notes,
    OrderQueries.updateOrderStatus env None None w orderId status = (w', notes, true) /\
    List.map o_id (orders w') = List.map o_id (orders w) /\
    Forall (fun row => o_id row = orderId -> o_status row = status) (orders w') /\
    List.filter (fun row => negb (String.eqb (o_id row) orderId)) (orders w')
    = List.filter (fun row => negb (String.eqb (o_id row) orderId)) (orders w) /\
    ((In status [payment_approved; shipped; delivered] /\
      notes = [OrderQueries.OrderStatusNotification (o_buyer_id order) orderId status])
     \/ (In status [pending; processing; cancelled] /\ notes = [])).
Proof.
  intros Huser Hunique Hseller.
  unfold OrderQueries.updateOrderStatus, OrderQueries.select_order.
  rewrite Huser, Hunique. simpl.
  rewrite bool_decide_eq_true_2 by assumption.
  destruct (update_status_spec orderId status (now env) (orders w)) as (Hids & Hothers & Hown).
  eexists _, _. split; [reflexivity|]. rewrite after_status_update_orders. simpl.
  repeat split; try assumption.
  destruct status; simpl; auto 10.
Qed.

Lemma updateOrderStatus_sets_any_status_witness :
  exists w' notes,
    OrderQueries.updateOrderStatus
      Scenario.seller_env None None
      (Scenario.world_with [Scenario.order "order-0001" delivered 20000 (Some "paid")] [])
      "order-0001" pending
    = (w', notes, true) /\
    List.map o_id (orders w') = ["order-0001"] /\
    Forall (fun row => o_id row = "order-0001" -> o_status row = pending) (orders w') /\
    List.filter (fun row => negb (String.eqb (o_id row) "order-0001")) (orders w') = [] /\
    ((In pending [payment_approved; shipped; delivered] /\
      notes = [OrderQueries.OrderStatusNotification "buyer-1" "order-0001" pending])
     \/ (In pending [pending; processing; cancelled] /\ notes = [])).
Proof.
  apply (updateOrderStatus_sets_any_status
           Scenario.seller_env
           (Scenario.world_with [Scenario.order "order-0001" delivered 20000 (Some "paid")]
                                [])
           "order-0001" pending Sample.seller_uuid
           (Scenario.order "order-0001" delivered 20000 (Some "paid")));
    reflexivity.
Defined.

(** ** Order lists *)

#[local] Instance not_older_total : Total OrderQueries.not_older.
Proof. intros a b. unfold OrderQueries.not_older. lia. Qed.

Lemma newest_first_Permutation rows : OrderQueries.newest_first rows ≡ₚ rows.
Proof. apply merge_sort_Permutation. Qed.

Lemma newest_first_In rows row : In row (OrderQueries.newest_first rows) <-> In row rows.
Proof.
  split; apply Permutation_in; [|symmetry]; apply newest_first_Permutation.
Qed.

Lemma newest_first_views rows :
  Sorted (fun a b => OrderQueries.created_at b <= OrderQueries.created_at a)
         (List.map OrderQueries.view_of (OrderQueries.newest_first rows)).
Proof.
  apply (Sorted_fmap OrderQueries.view_of OrderQueries.not_older).
  - intros a b H. exact H.
  - apply Sorted_merge_sort. apply _.
Qed.

(** X21: for a signed-in user [getBuyerOrders] lists exactly the orders
    the user bought and [getSellerOrders] exactly the orders attributed to
    the user as seller, each list newest first. *)
Theorem order_lists_show_own_orders env w user :
  data (auth env) = Some user ->
  OrderQueries.getBuyerOrders env None w
    ≡ₚ List.map OrderQueries.view_of
         (List.filter (fun order => String.eqb (o_buyer_id order) user) (orders w)) /\
  Forall (fun view => OrderQueries.buyer_id view = user)
         (OrderQueries.getBuyerOrders env None w) /\
  Sorted (fun a b => OrderQueries.created_at b <= OrderQueries.created_at a)
         (OrderQueries.getBuyerOrders env None w) /\
  OrderQueries.getSellerOrders env None w
    ≡ₚ List.map OrderQueries.view_of
         (List.filter (OrderQueries.sold_by user) (orders w)) /\
  Forall (fun view => OrderQueries.seller_id view = Some user)
         (OrderQueries.getSellerOrders env None w) /\
  Sorted (fun a b => OrderQueries.created_at b <= OrderQueries.created_at a)
         (OrderQueries.getSellerOrders env None w).
Proof.
  intros Huser. unfold OrderQueries.getBuyerOrders, OrderQueries.getSellerOrders.
  rewrite Huser. repeat split.
  - apply Permutation_map, newest_first_Permutation.
  - apply List.Forall_forall. intros view Hview.
    apply List.in_map_iff in Hview as (order & <- & Hin).
    apply newest_first_In, List.filter_In in Hin as [_ Heq].
    apply String.eqb_eq in Heq. exact Heq.
  - apply newest_first_views.
  - apply Permutation_map, newest_first_Permutation.
  - apply List.Forall_forall. intros view Hview.
    apply List.in_map_iff in Hview as (order & <- & Hin).
    apply newest_first_In, List.filter_In in Hin as [_ Hsold].
    unfold OrderQueries.sold_by in Hsold. simpl.
    destruct (o_seller_id order) as [seller|]; [|discriminate].
    apply String.eqb_eq in Hsold. congruence.
  - apply newest_first_views.
Qed.

Lemma order_lists_show_own_orders_witness :
  OrderQueries.getBuyerOrders
    Sample.env None
    (Scenario.world_with [Scenario.order "order-0001" shipped 20000 (Some "paid");
                          Scenario.order "order-0002" pending 20005 (Some "pending")] [])
    ≡ₚ List.map OrderQueries.view_of
         (List.filter (fun order => String.eqb (o_buyer_id order) "buyer-1")
            [Scenario.order "order-0001" shipped 20000 (Some "paid");
             Scenario.order "order-0002" pending 20005 (Some "pending")]).
Proof.
  apply (order_lists_show_own_orders
           Sample.env
           (Scenario.world_with [Scenario.order "order-0001" shipped 20000 (Some "paid");
                                 Scenario.order "order-0002" pending 20005
                                                (Some "pending")] [])
           "buyer-1").
  reflexivity.
Defined.

Example getBuyerOrders_newest_first :
  List.map OrderQueries.id
    (OrderQueries.getBuyerOrders
       Sample.env None
       (Scenario.world_with [Scenario.order "order-0001" shipped 20000 (Some "paid");
                             Scenario.order "order-0002" pending 20005 (Some "pending")]
                            []))
  = ["order-0002"; "order-0001"].
Proof. vm_compute. reflexivity. Qed.

Lemma updateOrderStatus_accepted env select_error update_error w orderId status :
  (OrderQueries.updateOrderStatus env select_error update_error w orderId status).2 = true ->
  exists user order,
    data (auth env) = Some user /\
    List.filter (fun row => String.eqb (o_id row) orderId) (orders w) = [order] /\
    o_seller_id order = Some user.
Proof.
  unfold OrderQueries.updateOrderStatus.
  destruct (data (auth env)) as [user|]; [|discriminate].
  destruct (error (OrderQueries.select_order select_error w orderId)); [discriminate|].
  destruct (data (OrderQueries.select_order select_error w orderId)) as [order|] eqn:Hsel;
    [|discriminate].
  destruct (select_order_found _ _ _ _ Hsel) as (_ & _ & Hfilter).
  destruct (bool_decide (o_seller_id order = Some user)) eqn:Hseller; [|discriminate].
  apply bool_decide_eq_true in Hseller.
  intros _. eauto.
Qed.

Lemma cart_service_unattributed_row env w items shippingAddress billingAddress
      paymentMethod user orderId first :
  error (auth env) = None -> data (auth env) = Some user ->
  head items = Some first ->
  isValidUUID (Cart.seller first) = false ->
  error (orders_insert env) = None -> data (orders_insert env) = Some orderId ->
  order_items_insert_error env = None ->
  exists w' order,
    CartService.createOrder env w items shippingAddress billingAddress paymentMethod
      = (w', Returned order) /\
    o_id order = orderId /\
    o_seller_id order = None /\
    orders w' = (orders w ++ [order])%list.
Proof.
  intros Herr Huser Hfirst Hinvalid Hins_err Hins Hitems.
  unfold CartService.createOrder, insert_order, insert_order_items.
  rewrite Herr, Huser, Hins_err, Hins.
  destruct items as [|item rest]; [discriminate|].
  injection Hfirst as ->. simpl.
  rewrite Hitems.
  assert (Hseller :
            match or_null (Some (Cart.seller first)) with
            | Some s => if isValidUUID s then Some s else None
            | None => None
            end = None).
  { unfold or_null. destruct (truthy (Some (Cart.seller first))); [|reflexivity].
    rewrite Hinvalid. reflexivity. }
  rewrite Hseller. eexists _, _. repeat split; reflexivity.
Qed.

(** X22: an order that the cart-service [createOrder] stores without
    seller (the seller id of the cart failed the UUID check) is out of every
    seller's reach: it is in nobody's [getSellerOrders] list, and
    [updateOrderStatus] on it returns [false] for every user. *)
Theorem unattributed_order_out_of_reach env w items shippingAddress billingAddress
        paymentMethod user orderId first :
  error (auth env) = None -> data (auth env) = Some user ->
  head items = Some first ->
  isValidUUID (Cart.seller first) = false ->
  error (orders_insert env) = None -> data (orders_insert env) = Some orderId ->
  order_items_insert_error env = None ->
  exists w' order,
    CartService.createOrder env w items shippingAddress billingAddress paymentMethod
      = (w', Returned order) /\
    In order (orders w') /\
    (forall seller_env select_error,
        ~ In (OrderQueries.view_of order)
             (OrderQueries.getSellerOrders seller_env select_error w')) /\
    (forall seller_env select_error update_error status,
        (OrderQueries.updateOrderStatus seller_env select_error update_error w'
                                        (o_id order) status).2 = false).
Proof.
  intros Herr Huser Hfirst Hinvalid Hins_err Hins Hitems.
  destruct (cart_service_unattributed_row env w items shippingAddress billingAddress
              paymentMethod user orderId first Herr Huser Hfirst Hinvalid Hins_err Hins
              Hitems) as (w' & order & Hrun & Hid & Hseller & Horders).
  exists w', order. split; [exact Hrun|]. split; [|split].
  - rewrite Horders. apply List.in_or_app. simpl. auto.
  - intros seller_env select_error Hin.
    unfold OrderQueries.getSellerOrders in Hin.
    destruct (data (auth seller_env)) as [seller|]; [|exact Hin].
    destruct select_error; [exact Hin|].
    apply List.in_map_iff in Hin as (row & Hview & Hrow).
    apply newest_first_In, List.filter_In in Hrow as [_ Hsold].
    unfold OrderQueries.sold_by in Hsold.
    assert (Hsame : o_seller_id row = o_seller_id order)
      by (apply (f_equal OrderQueries.seller_id) in Hview; exact Hview).
    rewrite Hsame, Hseller in Hsold. discriminate.
  - intros seller_env select_error update_error status.
    destruct (OrderQueries.updateOrderStatus seller_env select_error update_error w'
                                             (o_id order) status).2 eqn:Hresult;
      [|reflexivity].
    apply updateOrderStatus_accepted in Hresult as (seller & found & _ & Hfilter & Hfound).
    assert (Hin : In order (List.filter (fun row => String.eqb (o_id row) (o_id order))
                                        (orders w'))).
    { apply List.filter_In. split; [|apply String.eqb_refl].
      rewrite Horders. apply List.in_or_app. simpl. auto. }
    rewrite Hfilter in Hin. destruct Hin as [<-|[]]. congruence.
Qed.

Lemma unattributed_order_out_of_reach_witness :
  exists w' order,
    CartService.createOrder Sample.env (Sample.world 10)
      [Cart.mkCartItem "p1" "Woven basket" 500 2 "basket.png" "shop-42" true]
      "12 Rizal St" "12 Rizal St" "cod"
      = (w', Returned order) /\
    In order (orders w') /\
    (forall seller_env select_error,
        ~ In (OrderQueries.view_of order)
             (OrderQueries.getSellerOrders seller_env select_error w')) /\
    (forall seller_env select_error update_error status,
        (OrderQueries.updateOrderStatus seller_env select_error update_error w'
                                        (o_id order) status).2 = false).
Proof.
  apply (unattributed_order_out_of_reach
           Sample.env (Sample.world 10)
           [Cart.mkCartItem "p1" "Woven basket" 500 2 "basket.png" "shop-42" true]
           "12 Rizal St" "12 Rizal St" "cod" "buyer-1" "order-0001"
           (Cart.mkCartItem "p1" "Woven basket" 500 2 "basket.png" "shop-42" true));
    reflexivity.
Defined.

(** ** Payments and the transaction history *)

Lemma mark_succeeded_spec orderId paymentIntentId rows :
  List.map o_id (Payments.mark_succeeded orderId paymentIntentId rows) = List.map o_id rows /\
  List.filter (fun row => negb (String.eqb (o_id row) orderId))
              (Payments.mark_succeeded orderId paymentIntentId rows)
  = List.filter (fun row => negb (String.eqb (o_id row) orderId)) rows /\
  Forall (fun row =>
            o_id row = orderId ->
            o_payment_status row = Some "succeeded" /\ o_status row = pending /\
            o_payment_intent_id row = Some paymentIntentId)
         (Payments.mark_succeeded orderId paymentIntentId rows).
Proof.
  unfold Payments.mark_succeeded.
  induction rows as [|row rest (IHids & IHothers & IHown)]; simpl; [auto|].
  destruct (String.eqb (o_id row) orderId) eqn:Heq; simpl; rewrite Heq; simpl;
    rewrite IHids, IHothers; (split; [reflexivity|]); (split; [reflexivity|]);
    constructor; try assumption.
  - auto.
  - intros Hid. apply String.eqb_neq in Heq. congruence.
Qed.

(** The orders after a payment has been recorded. *)
Lemma record_success_orders env w orderId paymentIntentId note :
  exists w',
    Payments.record_success env None w orderId paymentIntentId note
    = (w', Returned (Payments.mkResult true note)) /\
    orders w' = Payments.mark_succeeded orderId paymentIntentId (orders w).
Proof.
  unfold Payments.record_success. eexists. split; [reflexivity|].
  rewrite after_status_update_orders. reflexivity.
Qed.

(** X23: [processPayment] reports success not only for a mock intent but
    also when the payment server refuses the payment or cannot be reached:
    the refusal is caught and the payment recorded all the same. It marks the
    order's payment [succeeded], stores the intent id and puts the order back
    to status [pending] whatever its status was; other orders are left as
    they were. *)
Theorem processPayment_records_refused_payment env server w paymentIntentId orderId :
  String.prefix "mock_pi_" paymentIntentId = true
  \/ (exists note, server = Payments.Refused note) \/ server = Payments.Unreachable ->
  exists w' result,
    Payments.processPayment env server None w paymentIntentId orderId
    = (w', Returned result) /\
    Payments.success result = true /\
    List.map o_id (orders w') = List.map o_id (orders w) /\
    Forall (fun row =>
              o_id row = orderId ->
              o_payment_status row = Some "succeeded" /\ o_status row = pending /\
              o_payment_intent_id row = Some paymentIntentId)
           (orders w') /\
    List.filter (fun row => negb (String.eqb (o_id row) orderId)) (orders w')
    = List.filter (fun row => negb (String.eqb (o_id row) orderId)) (orders w).
Proof.
  intros Hcase.
  destruct (mark_succeeded_spec orderId paymentIntentId (orders w))
    as (Hids & Hothers & Hown).
  unfold Payments.processPayment.
  destruct (String.prefix "mock_pi_" paymentIntentId) eqn:Hmock.
  - destruct (record_success_orders env w orderId paymentIntentId
                                    "Payment processed successfully (mock)")
      as (w' & -> & Horders).
    eexists _, _. split; [reflexivity|]. rewrite Horders. simpl. auto.
  - destruct (record_success_orders env w orderId paymentIntentId
                                    "Payment processed successfully (fallback)")
      as (w' & Hrun & Horders).
    destruct Hcase as [Hcase|[[note ->]| ->]]; [discriminate| |];
      (eexists _, _; split; [exact Hrun|]; rewrite Horders; simpl; auto).
Qed.

Lemma processPayment_records_refused_payment_witness :
  exists w' result,
    Payments.processPayment
      Sample.env (Payments.Refused (Some "Your card was declined")) None
      (Scenario.world_with [Scenario.order "order-0001" shipped 20000 (Some "paid")] [])
      "pi_3" "order-0001"
    = (w', Returned result) /\
    Payments.success result = true /\
    List.map o_id (orders w') = ["order-0001"] /\
    Forall (fun row =>
              o_id row = "order-0001" ->
              o_payment_status row = Some "succeeded" /\ o_status row = pending /\
              o_payment_intent_id row = Some "pi_3")
           (orders w') /\
    List.filter (fun row => negb (String.eqb (o_id row) "order-0001")) (orders w') = [].
Proof.
  apply (processPayment_records_refused_payment
           Sample.env (Payments.Refused (Some "Your card was declined"))
           (Scenario.world_with [Scenario.order "order-0001" shipped 20000 (Some "paid")] [])
           "pi_3" "order-0001").
  right. left. eexists. reflexivity.
Defined.

Lemma mark_succeeded_In orderId paymentIntentId rows row :
  In row rows -> o_id row = orderId ->
  exists row',
    In row' (Payments.mark_succeeded orderId paymentIntentId rows) /\
    o_id row' = orderId /\
    o_buyer_id row' = o_buyer_id row /\
    o_total_amount row' = o_total_amount row /\
    o_status row' = pending /\
    o_payment_status row' = Some "succeeded".
Proof.
  intros Hin Hid. unfold Payments.mark_succeeded.
  eexists. split.
  - apply List.in_map_iff. exists row. split; [reflexivity|exact Hin].
  - rewrite Hid, String.eqb_refl. simpl. auto.
Qed.

(** X24: once [processPayment] has recorded the payment of a buyer's
    order (for a mock intent, or after the payment server refused or could
    not be reached), the buyer's transaction history lists that order, with
    its amount, as pending and not as completed: the payment status
    [succeeded] is none of those the history counts as paid, and the order
    is back in status [pending]. Every entry of the history with the
    order's id is shown as pending. *)
Theorem processed_payment_is_shown_pending env server w paymentIntentId orderId backend
        w' result transactions user row :
  String.prefix "mock_pi_" paymentIntentId = true
  \/ (exists note, server = Payments.Refused note) \/ server = Payments.Unreachable ->
  Payments.processPayment env server None w paymentIntentId orderId
    = (w', Returned result) ->
  data (auth env) = Some user ->
  In row (orders w) -> o_id row = orderId -> o_buyer_id row = user ->
  BuyerPayments.fetchTransactions env backend w' = Returned transactions ->
  (exists transaction,
      In transaction transactions /\
      BuyerPayments.id transaction = orderId /\
      BuyerPayments.amount transaction = o_total_amount row /\
      BuyerPayments.status transaction = BuyerPayments.pending_payment) /\
  Forall (fun transaction =>
            BuyerPayments.id transaction = orderId ->
            BuyerPayments.status transaction = BuyerPayments.pending_payment)
         transactions.
Proof.
  intros Hcase Hpaid Huser Hin Hid Hbuyer Hfetch.
  assert (Horders : orders w' = Payments.mark_succeeded orderId paymentIntentId (orders w)).
  { unfold Payments.processPayment in Hpaid.
    destruct (String.prefix "mock_pi_" paymentIntentId).
    - destruct (record_success_orders env w orderId paymentIntentId
                                      "Payment processed successfully (mock)")
        as (w1 & Hrun & Horders).
      rewrite Hrun in Hpaid. injection Hpaid as <- _. exact Horders.
    - destruct (record_success_orders env w orderId paymentIntentId
                                      "Payment processed successfully (fallback)")
        as (w1 & Hrun & Horders).
      destruct Hcase as [Hcase|[[note ->]| ->]]; [discriminate| |];
        rewrite Hrun in Hpaid; injection Hpaid as <- _; exact Horders. }
  destruct (mark_succeeded_spec orderId paymentIntentId (orders w)) as (_ & _ & Hown).
  unfold BuyerPayments.fetchTransactions in Hfetch. rewrite Huser in Hfetch.
  destruct (BuyerPayments.orders_error backend); [discriminate|].
  injection Hfetch as <-. split.
  - destruct (mark_succeeded_In orderId paymentIntentId (orders w) row Hin Hid)
      as (row' & Hin' & Hid' & Hbuyer' & Hamount & Hstatus & Hpayment).
    exists (BuyerPayments.transaction_of backend w' row'). split.
    + apply List.in_map, newest_first_In, List.filter_In. rewrite Horders.
      split; [exact Hin'|]. rewrite Hbuyer', Hbuyer. apply String.eqb_refl.
    + simpl. rewrite Hpayment, Hstatus. auto.
  - apply List.Forall_forall. intros transaction Hin' Hid'.
    apply List.in_map_iff in Hin' as (stored & <- & Hstored).
    apply newest_first_In, List.filter_In in Hstored as [Hstored _].
    rewrite Horders in Hstored.
    rewrite List.Forall_forall in Hown.
    destruct (Hown stored Hstored Hid') as (Hpayment & Hstatus & _).
    simpl. rewrite Hpayment, Hstatus. reflexivity.
Qed.

Lemma processed_payment_is_shown_pending_witness :
  (exists transaction,
      In transaction
         [BuyerPayments.mkTransaction "order-0001" 20000 1150 "Order #ORDER-00"
                                      BuyerPayments.pending_payment "Credit Card" []] /\
      BuyerPayments.id transaction = "order-0001" /\
      BuyerPayments.amount transaction = 1150 /\
      BuyerPayments.status transaction = BuyerPayments.pending_payment) /\
  Forall (fun transaction =>
            BuyerPayments.id transaction = "order-0001" ->
            BuyerPayments.status transaction = BuyerPayments.pending_payment)
         [BuyerPayments.mkTransaction "order-0001" 20000 1150 "Order #ORDER-00"
                                      BuyerPayments.pending_payment "Credit Card" []].
Proof.
  apply (processed_payment_is_shown_pending
           Sample.env Payments.Unreachable
           (Scenario.world_with [Scenario.order "order-0001" shipped 20000 (Some "paid")] [])
           "pi_3" "order-0001"
           (BuyerPayments.mkBackend None (fun _ => None) (fun _ => None))
           (Payments.processPayment
              Sample.env Payments.Unreachable None
              (Scenario.world_with
                 [Scenario.order "order-0001" shipped 20000 (Some "paid")] [])
              "pi_3" "order-0001").1
           (Payments.mkResult true "Payment processed successfully (fallback)")
           _ "buyer-1" (Scenario.order "order-0001" shipped 20000 (Some "paid"))).
  - right. right. reflexivity.
  - reflexivity.
  - reflexivity.
  - simpl. auto.
  - reflexivity.
  - reflexivity.
  - vm_compute. reflexivity.
Defined.

Lemma onPaymentSuccess_run env today w st pid w' cart' msg orderId :
  Checkout.onPaymentSuccess env today w st pid
    = (w', cart', Checkout.ToastSuccess msg (Some orderId)) ->
  OrderService.createOrder env w (Checkout.orderData_paid today st pid)
                           (Some (Checkout.selectedItems st))
  = (w', Returned (Some orderId)).
Proof.
  unfold Checkout.onPaymentSuccess. intros H.
  destruct (OrderService.createOrder _ _ _ _) as [w1 [[r|]|e]]; try discriminate.
  destruct (String.eqb r ""); [discriminate|].
  injection H as -> _ _ ->. reflexivity.
Qed.

Lemma handleSubmit_run env today w st w' cart' msg orderId :
  Checkout.handleSubmit env today w st
    = (w', cart', Checkout.ToastSuccess msg (Some orderId)) ->
  Checkout.paymentMethod st = Checkout.cod /\
  OrderService.createOrder env w (Checkout.orderData_submit today st)
                           (Some (Checkout.selectedItems st))
  = (w', Returned (Some orderId)).
Proof.
  unfold Checkout.handleSubmit. intros H.
  destruct (Checkout.validateShippingInfo _); [discriminate|].
  destruct (Checkout.selectedItems st) eqn:Hsel; [discriminate|].
  destruct (Checkout.paymentMethod st) eqn:Hmethod.
  - destruct (Checkout.clientSecret st); discriminate.
  - destruct (OrderService.createOrder _ _ _ _) as [w1 [r|e]] eqn:Hrun; [|discriminate].
    injection H as -> _ _ ->. split; reflexivity.
Qed.

(** The row of a new order, as the transaction history reads it. *)
Lemma new_order_transaction env backend w orderData cartItems w' orderId transactions :
  OrderService.createOrder env w orderData cartItems = (w', Returned (Some orderId)) ->
  BuyerPayments.fetchTransactions env backend w' = Returned transactions ->
  exists row,
    In (BuyerPayments.transaction_of backend w' row) transactions /\
    o_id row = orderId /\
    o_status row = pending /\
    o_total_amount row = num_or (OrderService.total_amount orderData) 0 /\
    (OrderService.payment_method orderData = Some "cod" ->
     o_payment_method row = "cod" /\ o_payment_status row = Some "pending") /\
    (OrderService.payment_method orderData = Some "stripe" ->
     OrderService.payment_status orderData = Some "succeeded" ->
     o_payment_method row = "Credit Card" /\ o_payment_status row = Some "paid").
Proof.
  intros Hrun Hfetch.
  destruct (createOrder_returned _ _ _ _ _ _ Hrun)
    as (row & user & validated & Huser & Hv & -> & _ & _ & _ & ->).
  destruct (validatedOrderData_row _ _ _ _ Hv) as (Hbuyer & Hstatus & _ & Htotal).
  destruct (validatedOrderData_payment _ _ _ _ Hv) as [Hcod Hcard].
  exists (set_id validated orderId).
  split; [|simpl; split; [reflexivity|]; split; [assumption|]; split; [assumption|];
           split].
  - unfold BuyerPayments.fetchTransactions in Hfetch. rewrite Huser in Hfetch.
    destruct (BuyerPayments.orders_error backend); [discriminate|].
    injection Hfetch as <-.
    apply List.in_map, newest_first_In, List.filter_In. split.
    + destruct (notify_seller_frame
                  (OrderService.write_items env
                     (order_stored env w (set_id validated orderId)) orderId
                     cartItems)
                  orderData orderId) as (-> & _).
      rewrite write_items_orders, order_stored_orders. simpl. apply List.in_or_app. simpl. auto.
    + simpl. rewrite Hbuyer. apply String.eqb_refl.
  - exact Hcod.
  - intros Hm Hs. destruct (Hcard Hm) as (Hmethod & Hpaid & _). auto.
Qed.

(** X25: an order placed at checkout appears in the buyer's transaction
    history with the checkout's total: as completed and paid by
    ["Credit Card"] when it was placed after a card payment, as pending and
    ["Cash on Delivery"] when it was placed cash on delivery. *)
Theorem placed_order_in_transaction_history env backend today w st :
  (forall pid w' cart' msg orderId transactions,
      Checkout.onPaymentSuccess env today w st pid
        = (w', cart', Checkout.ToastSuccess msg (Some orderId)) ->
      BuyerPayments.fetchTransactions env backend w' = Returned transactions ->
      exists transaction,
        In transaction transactions /\
        BuyerPayments.id transaction = orderId /\
        BuyerPayments.amount transaction = Checkout.totalWithShipping st /\
        BuyerPayments.status transaction = BuyerPayments.completed /\
        BuyerPayments.paymentMethod transaction = "Credit Card") /\
  (forall w' cart' msg orderId transactions,
      Checkout.handleSubmit env today w st
        = (w', cart', Checkout.ToastSuccess msg (Some orderId)) ->
      BuyerPayments.fetchTransactions env backend w' = Returned transactions ->
      exists transaction,
        In transaction transactions /\
        BuyerPayments.id transaction = orderId /\
        BuyerPayments.amount transaction = Checkout.totalWithShipping st /\
        BuyerPayments.status transaction = BuyerPayments.pending_payment /\
        BuyerPayments.paymentMethod transaction = "Cash on Delivery").
Proof.
  split.
  - intros pid w' cart' msg orderId transactions Hpaid Hfetch.
    apply onPaymentSuccess_run in Hpaid.
    destruct (new_order_transaction _ _ _ _ _ _ _ _ Hpaid Hfetch)
      as (row & Hin & Hid & Hstatus & Htotal & _ & Hcard).
    destruct (Hcard eq_refl eq_refl) as [Hmethod Hpayment].
    exists (BuyerPayments.transaction_of backend w' row).
    split; [exact Hin|]. simpl.
    rewrite Hid, Htotal, Hstatus, Hpayment, Hmethod. simpl.
    split; [reflexivity|]. split; [|split; vm_compute; reflexivity].
    destruct (Z.eqb_spec (Checkout.totalWithShipping st) 0); congruence.
  - intros w' cart' msg orderId transactions Hplaced Hfetch.
    apply handleSubmit_run in Hplaced as [Hcod Hrun].
    destruct (new_order_transaction _ _ _ _ _ _ _ _ Hrun Hfetch)
      as (row & Hin & Hid & Hstatus & Htotal & Hcash & _).
    assert (Hm : OrderService.payment_method (Checkout.orderData_submit today st)
                 = Some "cod")
      by (unfold Checkout.orderData_submit; rewrite Hcod; reflexivity).
    destruct (Hcash Hm) as [Hmethod Hpayment].
    exists (BuyerPayments.transaction_of backend w' row).
    split; [exact Hin|]. simpl.
    rewrite Hid, Htotal, Hstatus, Hpayment, Hmethod. simpl.
    split; [reflexivity|]. split; [|split; vm_compute; reflexivity].
    destruct (Z.eqb_spec (Checkout.totalWithShipping st) 0); congruence.
Qed.

Lemma placed_order_in_transaction_history_witness :
  exists transaction,
    In transaction
       [BuyerPayments.mkTransaction "order-0001" 20000 1150 "Order #ORDER-00"
                                    BuyerPayments.pending_payment "Cash on Delivery"
                                    [BuyerPayments.mkTransactionProduct "Woven basket"
                                                                        None]] /\
    BuyerPayments.id transaction = "order-0001" /\
    BuyerPayments.amount transaction = Checkout.totalWithShipping Sample.checkout /\
    BuyerPayments.status transaction = BuyerPayments.pending_payment /\
    BuyerPayments.paymentMethod transaction = "Cash on Delivery".
Proof.
  apply (proj2 (placed_order_in_transaction_history
                  Sample.env
                  (BuyerPayments.mkBackend None (fun _ => None) (fun _ => None))
                  20000 (Sample.world 10) Sample.checkout)
               (Checkout.handleSubmit Sample.env 20000 (Sample.world 10)
                                      Sample.checkout).1.1
               [] "Order placed successfully!" "order-0001").
  - vm_compute. reflexivity.
  - vm_compute. reflexivity.
Defined.

(** ** Reviewable products *)

Lemma distinct_In pid ids : In pid (Reviews.distinct ids) <-> In pid ids.
Proof.
  induction ids as [|first rest IH]; simpl; [tauto|].
  rewrite List.filter_In, IH, negb_true_iff, String.eqb_neq.
  destruct (String.eqb_spec first pid) as [->|Hne]; [tauto|].
  split; [tauto|]. intros [H|H]; [tauto|]. right. split; [exact H|congruence].
Qed.

Lemma distinct_NoDup ids : List.NoDup (Reviews.distinct ids).
Proof.
  induction ids as [|first rest IH]; simpl; constructor.
  - rewrite List.filter_In, negb_true_iff, String.eqb_neq. tauto.
  - apply List.NoDup_filter, IH.
Qed.

Lemma find_rev_In {A} (test : A -> bool) (l : list A) a :
  List.find test (List.rev l) = Some a -> In a l /\ test a = true.
Proof.
  intros H. apply List.find_some in H as [Hin Htest].
  apply List.in_rev in Hin. auto.
Qed.

Lemma ordered_products_In w buyerId pid order :
  In (pid, order) (Reviews.ordered_products w buyerId) ->
  In order (orders w) /\ o_buyer_id order = buyerId /\ o_status order = delivered /\
  exists item, In item (order_items w) /\ oi_order_id item = o_id order /\
               oi_product_id item = pid.
Proof.
  unfold Reviews.ordered_products, Reviews.delivered_orders, Reviews.items_of.
  rewrite List.in_flat_map. intros (order' & Horder & Hpair).
  apply List.in_map_iff in Hpair as (item & Heq & Hitem).
  injection Heq as <- <-.
  apply List.filter_In in Horder as [Hin Htest].
  apply List.filter_In in Hitem as [Hitem Hid].
  apply andb_true_iff in Htest as [Hbuyer Hstatus].
  apply String.eqb_eq in Hbuyer, Hid.
  split; [exact Hin|]. split; [exact Hbuyer|]. split.
  - destruct (o_status order'); simpl in Hstatus; try discriminate; reflexivity.
  - exists item. auto.
Qed.

Lemma order_of_found pairs pid :
  In pid (List.map fst pairs) ->
  exists order, Reviews.order_of pairs pid = Some order /\ In (pid, order) pairs.
Proof.
  intros Hin. unfold Reviews.order_of.
  destruct (List.find _ (List.rev pairs)) as [[pid' order]|] eqn:Hfind.
  - apply find_rev_In in Hfind as [Hpair Hpid]. simpl in Hpid.
    apply String.eqb_eq in Hpid. subst pid'. exists order. auto.
  - apply List.in_map_iff in Hin as ([pid' order] & Hfst & Hpair). simpl in Hfst.
    subst pid'. apply List.in_rev in Hpair.
    pose proof (List.find_none _ _ Hfind _ Hpair) as Hno. simpl in Hno.
    rewrite String.eqb_refl in Hno. discriminate.
Qed.

Lemma existsb_eqb_In pid ids :
  List.existsb (String.eqb pid) ids = true <-> In pid ids.
Proof.
  rewrite List.existsb_exists. split.
  - intros (other & Hin & Heq). apply String.eqb_eq in Heq. subst. exact Hin.
  - intros Hin. exists pid. rewrite String.eqb_refl. auto.
Qed.

(** One entry at most per requested id, under that id. *)
Lemma flat_map_keyed_NoDup {B} (key : B -> string) (entry : string -> list B) ids :
  (forall pid, entry pid = [] \/ exists b, entry pid = [b] /\ key b = pid) ->
  List.NoDup ids ->
  List.NoDup (List.map key (List.flat_map entry ids)) /\
  (forall b, In b (List.flat_map entry ids) -> In (key b) ids).
Proof.
  intros Hentry. induction 1 as [|pid rest Hnotin Hnodup [IHnodup IHin]]; simpl.
  - split; [constructor|tauto].
  - destruct (Hentry pid) as [->|(b & -> & Hkey)]; simpl.
    + split; [exact IHnodup|]. intros b Hb. right. auto.
    + split.
      * constructor; [|exact IHnodup]. rewrite Hkey. intros Hin.
        apply List.in_map_iff in Hin as (b' & Hkey' & Hb').
        apply IHin in Hb'. congruence.
      * intros b' [<-|Hb']; [left; congruence|right; auto].
Qed.

Lemma NoDup_map_injective {A B} (f : A -> B) l a b :
  List.NoDup (List.map f l) -> In a l -> In b l -> f a = f b -> a = b.
Proof.
  induction l as [|x rest IH]; simpl; [tauto|].
  intros Hnodup Ha Hb Hf. inversion Hnodup as [|? ? Hnotin Hrest]; subst.
  destruct Ha as [->|Ha], Hb as [->|Hb]; auto.
  - exfalso. apply Hnotin. rewrite Hf. apply List.in_map, Hb.
  - exfalso. apply Hnotin. rewrite <- Hf. apply List.in_map, Ha.
Qed.

(** X26: every product that [getReviewableProducts] lists was bought by the
    signed-in user in a delivered order, which the entry names with its
    date; the user has written no review for it; and no other entry of the
    list has the same product id. *)
Theorem reviewable_products_delivered_and_unreviewed env backend reviews w entry :
  In entry (Reviews.getReviewableProducts env backend reviews w) ->
  exists buyerId order item,
    data (auth env) = Some buyerId /\
    In order (orders w) /\
    o_buyer_id order = buyerId /\
    o_status order = delivered /\
    In item (order_items w) /\
    oi_order_id item = o_id order /\
    oi_product_id item = Reviews.id entry /\
    Reviews.orderId entry = o_id order /\
    Reviews.orderDate entry = o_created_at order /\
    (forall review, In review reviews ->
                    Reviews.r_buyer_id review = buyerId ->
                    Reviews.r_product_id review <> Reviews.id entry) /\
    (forall other, In other (Reviews.getReviewableProducts env backend reviews w) ->
                   Reviews.id other = Reviews.id entry -> other = entry).
Proof.
  unfold Reviews.getReviewableProducts.
  destruct (error (auth env)); [intros []|].
  destruct (data (auth env)) as [buyerId|]; [|intros []].
  destruct (Reviews.orders_error backend); [intros []|].
  set (pairs := Reviews.ordered_products w buyerId).
  set (productIds := Reviews.distinct (List.map fst pairs)).
  destruct productIds as [|first rest] eqn:Hids; [intros []|]. rewrite <- Hids.
  destruct (Reviews.reviews_error backend); [intros []|].
  set (unreviewed := List.filter _ productIds).
  destruct unreviewed as [|first' rest'] eqn:Hun; [intros []|]. rewrite <- Hun.
  destruct (Reviews.products_error backend); [intros []|].
  clear Hids Hun first rest first' rest'.
  set (entry_of := fun pid : string => match products w !! pid with
                                       | Some product => _
                                       | None => []
                                       end).
  assert (Hentry : forall pid, entry_of pid = [] \/
                               exists b, entry_of pid = [b] /\ Reviews.id b = pid).
  { intros pid. unfold entry_of. destruct (products w !! pid); eauto. }
  assert (Hnodup : List.NoDup unreviewed)
    by apply List.NoDup_filter, distinct_NoDup.
  destruct (flat_map_keyed_NoDup Reviews.id entry_of unreviewed Hentry Hnodup)
    as [Hkeys Hin_keys].
  intros Hin.
  pose proof (Hin_keys _ Hin) as Hpid.
  apply List.filter_In in Hpid as [Hrequested Hnot_reviewed].
  pose proof (proj1 (distinct_In (Reviews.id entry) (List.map fst pairs)) Hrequested)
    as Hbought.
  destruct (order_of_found _ _ Hbought) as (order & Horder & Hpair).
  destruct (ordered_products_In _ _ _ _ Hpair)
    as (Horders & Hbuyer & Hstatus & item & Hitem & Hitem_order & Hitem_pid).
  exists buyerId, order, item.
  assert (Hfields : Reviews.orderId entry = o_id order /\
                    Reviews.orderDate entry = o_created_at order).
  { apply List.in_flat_map in Hin as (pid & Hpid & Hin).
    unfold entry_of in Hin. destruct (products w !! pid); [|destruct Hin].
    destruct Hin as [<-|[]]. simpl in *. rewrite Horder. auto. }
  destruct Hfields as [Hid Hdate].
  do 9 (split; [auto; fail|]). split.
  - intros review Hreview Hauthor Hsame.
    apply negb_true_iff in Hnot_reviewed.
    assert (Hyes : List.existsb (String.eqb (Reviews.id entry))
                     (Reviews.reviewed_by reviews buyerId productIds) = true).
    { apply existsb_eqb_In. unfold Reviews.reviewed_by.
      rewrite <- Hsame. apply List.in_map, List.filter_In. split; [exact Hreview|].
      rewrite Hauthor, String.eqb_refl. simpl.
      apply existsb_eqb_In. rewrite Hsame. exact Hrequested. }
    congruence.
  - intros other Hother Hsame.
    apply (NoDup_map_injective Reviews.id _ _ _ Hkeys Hother Hin Hsame).
Qed.

Lemma reviewable_products_delivered_and_unreviewed_witness :
  exists buyerId order item,
    data (auth Sample.env) = Some buyerId /\
    In order [Scenario.order "order-0001" delivered 20000 (Some "paid");
              Scenario.order "order-0002" shipped 20005 (Some "paid")] /\
    o_buyer_id order = buyerId /\
    o_status order = delivered /\
    In item [mkOrderItemRow "order-0001" "p1" 2 500 1000;
             mkOrderItemRow "order-0002" "p1" 1 500 500] /\
    oi_order_id item = o_id order /\
    oi_product_id item = "p1" /\
    "order-0001" = o_id order /\
    20000 = o_created_at order /\
    (forall review, In review [Reviews.mkReviewRow "buyer-2" "p1"] ->
                    Reviews.r_buyer_id review = buyerId ->
                    Reviews.r_product_id review <> "p1") /\
    (forall other,
        In other [Reviews.mkReviewable "p1" "Woven basket" "/placeholder.svg"
                                       "order-0001" 20000] ->
        Reviews.id other = "p1" ->
        other = Reviews.mkReviewable "p1" "Woven basket" "/placeholder.svg"
                                     "order-0001" 20000).
Proof.
  apply (reviewable_products_delivered_and_unreviewed
           Sample.env
           (Reviews.mkBackend None None None (fun _ => None) 20020)
           [Reviews.mkReviewRow "buyer-2" "p1"]
           (Scenario.world_with
              [Scenario.order "order-0001" delivered 20000 (Some "paid");
               Scenario.order "order-0002" shipped 20005 (Some "paid")]
              [mkOrderItemRow "order-0001" "p1" 2 500 1000;
               mkOrderItemRow "order-0002" "p1" 1 500 500])
           (Reviews.mkReviewable "p1" "Woven basket" "/placeholder.svg"
                                 "order-0001" 20000)).
  vm_compute. auto.
Defined.

(** ** Cancelling from the order card *)

Lemma cancel_rows_other_buyer oid uid rows row :
  o_buyer_id row <> uid ->
  (In row (OrderCard.cancel_rows oid uid rows) <-> In row rows).
Proof.
  intros Hother. unfold OrderCard.cancel_rows. rewrite List.in_map_iff. split.
  - intros (stored & Heq & Hin).
    destruct (String.eqb (o_id stored) oid && String.eqb (o_buyer_id stored) uid)
      eqn:Hmatch.
    + apply andb_true_iff in Hmatch as [_ Hbuyer]. apply String.eqb_eq in Hbuyer.
      subst row. destruct stored. simpl in *. contradiction.
    + subst. exact Hin.
  - intros Hin. exists row. split; [|exact Hin].
    apply String.eqb_neq in Hother. rewrite Hother, andb_false_r. reflexivity.
Qed.

(** The trigger leaves the relationships of other customers alone. *)
Lemma trigger_other_customers env w new seller customer :
  customer <> o_buyer_id new ->
  seller_customers (update_seller_customers_after_order env w new) !! (seller, customer)
  = seller_customers w !! (seller, customer).
Proof.
  intros Hother.
  destruct (o_seller_id new) as [s|] eqn:Hs.
  - destruct (trigger_relationship env w new s Hs) as (r & -> & _).
    apply lookup_insert_ne. congruence.
  - destruct (trigger_unattributed env w new Hs) as [-> _]. reflexivity.
Qed.

Lemma after_status_update_other_customers env user seller customer updated :
  customer <> user ->
  Forall (fun row => o_buyer_id row = user) updated ->
  forall w,
    seller_customers (after_status_update env w updated) !! (seller, customer)
    = seller_customers w !! (seller, customer).
Proof.
  intros Hother Hrows. unfold after_status_update.
  induction Hrows as [|new rest Hnew _ IH]; intros w; simpl; [reflexivity|].
  rewrite IH. apply trigger_other_customers. congruence.
Qed.

(** After the trigger has run for the updated rows, the relationship of a
    pair that one of them belongs to holds the count and the sum of the
    pair's orders. *)
Lemma after_status_update_recount env seller customer updated : forall w,
  (exists relationship,
      seller_customers w !! (seller, customer) = Some relationship /\
      sc_total_orders relationship
      = Some (Z.of_nat (List.length (orders_of_pair (orders w) customer seller))) /\
      sc_total_spent relationship
      = Some (sum_total_amount (orders_of_pair (orders w) customer seller)))
  \/ (exists row, In row updated /\ o_seller_id row = Some seller /\
                  o_buyer_id row = customer) ->
  exists relationship,
    seller_customers (after_status_update env w updated) !! (seller, customer)
    = Some relationship /\
    sc_total_orders relationship
    = Some (Z.of_nat (List.length (orders_of_pair (orders w) customer seller))) /\
    sc_total_spent relationship
    = Some (sum_total_amount (orders_of_pair (orders w) customer seller)).
Proof.
  unfold after_status_update.
  induction updated as [|new rest IH]; intros w Hstart; simpl.
  - destruct Hstart as [Hheld|(row & [] & _)]. exact Hheld.
  - rewrite <- (trigger_orders env w new).
    apply IH.
    destruct (decide (o_seller_id new = Some seller /\ o_buyer_id new = customer))
      as [[Hs Hb]|Hnot].
    + left. destruct (trigger_relationship env w new seller Hs)
        as (r & Hmap & Hcount & Hspent & _).
      rewrite Hb in Hmap, Hcount, Hspent.
      exists r. rewrite Hmap, lookup_insert_eq.
      rewrite trigger_orders. auto.
    + destruct Hstart as [(r & Hr & Hcount & Hspent)|(row & [<-|Hin] & Hs & Hb)].
      * left. exists r.
        rewrite trigger_orders.
        split; [|auto]. rewrite <- Hr.
        destruct (o_seller_id new) as [s|] eqn:Hs.
        -- destruct (trigger_relationship env w new s Hs) as (r' & -> & _).
           apply lookup_insert_ne. intros Heq. apply Hnot.
           injection Heq as <- <-. auto.
        -- destruct (trigger_unattributed env w new Hs) as [-> _]. reflexivity.
      * exfalso. apply Hnot. auto.
      * right. exists row. auto.
Qed.

(** A cancellation keeps the orders of every pair, with their totals. *)
Lemma cancel_rows_pair oid uid customer seller rows :
  List.length (orders_of_pair (OrderCard.cancel_rows oid uid rows) customer seller)
  = List.length (orders_of_pair rows customer seller) /\
  sum_total_amount (orders_of_pair (OrderCard.cancel_rows oid uid rows) customer seller)
  = sum_total_amount (orders_of_pair rows customer seller).
Proof.
  unfold orders_of_pair, OrderCard.cancel_rows.
  induction rows as [|row rest [IHlen IHsum]]; [auto|]. cbn [List.map List.filter].
  assert (Hsame :
            String.eqb
              (o_buyer_id (if String.eqb (o_id row) oid && String.eqb (o_buyer_id row) uid
                           then set_status row cancelled else row)) customer
            && bool_decide
                 (o_seller_id (if String.eqb (o_id row) oid
                                  && String.eqb (o_buyer_id row) uid
                               then set_status row cancelled else row) = Some seller)
            = String.eqb (o_buyer_id row) customer
              && bool_decide (o_seller_id row = Some seller)).
  { destruct (String.eqb (o_id row) oid && String.eqb (o_buyer_id row) uid); reflexivity. }
  rewrite Hsame.
  destruct (String.eqb (o_buyer_id row) customer
            && bool_decide (o_seller_id row = Some seller)); [|auto].
  cbn [List.length sum_total_amount List.fold_right].
  fold (sum_total_amount
          (List.filter
             (fun order => String.eqb (o_buyer_id order) customer
                           && bool_decide (o_seller_id order = Some seller))
             (List.map (fun row0 =>
                          if String.eqb (o_id row0) oid && String.eqb (o_buyer_id row0) uid
                          then set_status row0 cancelled else row0) rest))).
  fold (sum_total_amount
          (List.filter
             (fun order => String.eqb (o_buyer_id order) customer
                           && bool_decide (o_seller_id order = Some seller))
             rest)).
  rewrite IHlen, IHsum. split; [reflexivity|].
  destruct (String.eqb (o_id row) oid && String.eqb (o_buyer_id row) uid); reflexivity.
Qed.

(** X27: the cancellation checks the status shown on the card, not the
    stored one. With a card showing [processing], a signed-in buyer's
    cancellation turns the buyer's stored row with the card's id into
    [cancelled] whatever its stored status is. The orders of other buyers,
    the order items, the products, the inventory log and the notification
    requests stay as they are, and so do the relationships of other
    customers; the relationship of the buyer with the order's seller is
    recounted by the trigger on [orders] and still counts the cancelled
    order and its total. *)
Theorem cancel_trusts_the_shown_status env w order user row :
  data (auth env) = Some user ->
  OrderCard.status order = processing ->
  In row (orders w) ->
  o_id row = OrderCard.id order ->
  o_buyer_id row = user ->
  exists w',
    OrderCard.handleCancelOrder env None w order
      = (w', OrderCard.ToastSuccess "Order cancelled successfully") /\
    In (set_status row cancelled) (orders w') /\
    (forall other, o_buyer_id other <> user ->
                   (In other (orders w') <-> In other (orders w))) /\
    length (orders w') = length (orders w) /\
    order_items w' = order_items w /\
    products w' = products w /\
    inventory_logs w' = inventory_logs w /\
    rpc_calls w' = rpc_calls w /\
    (forall seller customer,
        customer <> user ->
        seller_customers w' !! (seller, customer)
        = seller_customers w !! (seller, customer)) /\
    (forall seller,
        o_seller_id row = Some seller ->
        exists relationship,
          seller_customers w' !! (seller, user) = Some relationship /\
          sc_total_orders relationship
          = Some (Z.of_nat (List.length (orders_of_pair (orders w) user seller))) /\
          sc_total_spent relationship
          = Some (sum_total_amount (orders_of_pair (orders w) user seller))).
Proof.
  intros Huser Hshown Hin Hid Hbuyer.
  destruct (cancel_processing_order env w order user Hshown Huser)
    as (_ & w' & Hrun & Hw' & Horders & Hitems & Hproducts & Hlogs & Hcalls).
  exists w'. split; [exact Hrun|]. rewrite Horders.
  split; [apply cancel_rows_status; assumption|].
  split; [intros other Hother; apply cancel_rows_other_buyer, Hother|].
  split; [apply List.length_map|].
  do 4 (split; [assumption|]). split.
  - intros seller customer Hother. rewrite Hw'.
    rewrite (after_status_update_other_customers env user seller customer);
      [reflexivity|exact Hother|].
    apply List.Forall_forall. intros updated Hupdated.
    apply List.filter_In in Hupdated as [_ Hmatch].
    apply andb_true_iff in Hmatch as [_ Hmatch]. apply String.eqb_eq, Hmatch.
  - intros seller Hseller. rewrite Hw'.
    set (w1 := with_orders w (OrderCard.cancel_rows (OrderCard.id order) user (orders w))).
    destruct (after_status_update_recount
                env seller user
                (OrderCard.cancelled_rows
                   (OrderCard.id order) user
                   (OrderCard.cancel_rows (OrderCard.id order) user (orders w)))
                w1)
      as (relationship & Hr & Hcount & Hspent).
    { right. exists (set_status row cancelled). split; [|split].
      - apply List.filter_In. split; [apply cancel_rows_status; assumption|].
        simpl. rewrite Hid, Hbuyer, !String.eqb_refl. reflexivity.
      - exact Hseller.
      - exact Hbuyer. }
    exists relationship. split; [exact Hr|].
    destruct (cancel_rows_pair (OrderCard.id order) user user seller (orders w))
      as [Hlen Hsum].
    unfold w1 in Hcount, Hspent. cbn [orders with_orders] in Hcount, Hspent.
    rewrite Hlen in Hcount. rewrite Hsum in Hspent. auto.
Qed.

Lemma cancel_trusts_the_shown_status_witness :
  exists w',
    OrderCard.handleCancelOrder
      Sample.env None
      (Scenario.world_with [Scenario.order "order-0001" delivered 20000 (Some "paid")] [])
      (OrderCard.mkOrder "order-0001" processing 1150)
      = (w', OrderCard.ToastSuccess "Order cancelled successfully") /\
    In (set_status (Scenario.order "order-0001" delivered 20000 (Some "paid")) cancelled)
       (orders w') /\
    (forall other, o_buyer_id other <> "buyer-1" ->
                   (In other (orders w') <->
                    In other [Scenario.order "order-0001" delivered 20000
                                             (Some "paid")])) /\
    length (orders w') = 1%nat /\
    order_items w' = [] /\
    products w' = {[ "p1" := Sample.product 10 ]} /\
    inventory_logs w' = [] /\
    rpc_calls w' = [] /\
    (forall seller customer,
        customer <> "buyer-1" ->
        seller_customers w' !! (seller, customer)
        = (∅ : gmap (string * string) SellerCustomerRow) !! (seller, customer)) /\
    (forall seller,
        Some Sample.seller_uuid = Some seller ->
        exists relationship,
          seller_customers w' !! (seller, "buyer-1") = Some relationship /\
          sc_total_orders relationship
          = Some (Z.of_nat
                    (List.length
                       (orders_of_pair
                          [Scenario.order "order-0001" delivered 20000 (Some "paid")]
                          "buyer-1" seller))) /\
          sc_total_spent relationship
          = Some (sum_total_amount
                    (orders_of_pair
                       [Scenario.order "order-0001" delivered 20000 (Some "paid")]
                       "buyer-1" seller))).
Proof.
  apply (cancel_trusts_the_shown_status
           Sample.env
           (Scenario.world_with
              [Scenario.order "order-0001" delivered 20000 (Some "paid")] [])
           (OrderCard.mkOrder "order-0001" processing 1150)
           "buyer-1"
           (Scenario.order "order-0001" delivered 20000 (Some "paid"))).
  - reflexivity.
  - reflexivity.
  - simpl. auto.
  - reflexivity.
  - reflexivity.
Defined.

(** ** From checkout to the order card *)

(** The row of a new order belongs to the signed-in buyer. *)
Lemma createOrder_own_row env w orderData cartItems w' orderId :
  OrderService.createOrder env w orderData cartItems = (w', Returned (Some orderId)) ->
  exists row user,
    data (auth env) = Some user /\
    In row (orders w') /\
    o_id row = orderId /\
    o_buyer_id row = user /\
    o_status row = pending.
Proof.
  intros Hrun.
  destruct (createOrder_returned _ _ _ _ _ _ Hrun)
    as (row & user & validated & Huser & Hv & -> & _ & _ & _ & ->).
  destruct (validatedOrderData_row _ _ _ _ Hv) as (Hbuyer & Hstatus & _ & _).
  exists (set_id validated orderId), user.
  split; [exact Huser|]. split; [|simpl; auto].
  destruct (notify_seller_frame
              (OrderService.write_items env
                 (order_stored env w (set_id validated orderId)) orderId
                 cartItems)
              orderData orderId) as (-> & _).
  rewrite write_items_orders, order_stored_orders. simpl. apply List.in_or_app. simpl. auto.
Qed.

(** X28: an order just placed at checkout, cash on delivery or after a card
    payment, is in the buyer's order list with status [pending]; its card
    offers no cancellation, and a cancellation attempt from it is refused
    and leaves every table as it is. *)
Theorem placed_order_cannot_be_cancelled_yet env account today w st w' cart' msg
        orderId listed :
  Checkout.handleSubmit env today w st
    = (w', cart', Checkout.ToastSuccess msg (Some orderId))
  \/ (exists pid, Checkout.onPaymentSuccess env today w st pid
                  = (w', cart', Checkout.ToastSuccess msg (Some orderId))) ->
  OrderQueries.getOrders env account w' = Returned listed ->
  exists order,
    In order listed /\
    OrderQueries.order_id order = orderId /\
    OrderQueries.order_status order = pending /\
    OrderCard.canBeCancelled (OrderQueries.card_of order) = false /\
    forall update_error,
      OrderCard.handleCancelOrder env update_error w' (OrderQueries.card_of order)
      = (w', OrderCard.ToastError "Only orders in processing status can be cancelled").
Proof.
  intros Hplaced Hlist.
  assert (Hrun : exists orderData,
             OrderService.createOrder env w orderData (Some (Checkout.selectedItems st))
             = (w', Returned (Some orderId))).
  { destruct Hplaced as [Hcod|[pid Hcard]].
    - apply handleSubmit_run in Hcod as [_ Hrun]. eauto.
    - apply onPaymentSuccess_run in Hcard. eauto. }
  destruct Hrun as [orderData Hrun].
  destruct (createOrder_own_row _ _ _ _ _ _ Hrun)
    as (row & user & Huser & Hin & Hid & Hbuyer & Hstatus).
  unfold OrderQueries.getOrders in Hlist. rewrite Huser in Hlist.
  destruct (error (auth env)); [discriminate|].
  destruct (OrderQueries.orders_error account); [discriminate|].
  injection Hlist as <-.
  exists (OrderQueries.buyer_order w' account row).
  split.
  { apply List.in_map, newest_first_In, List.filter_In. split; [exact Hin|].
    rewrite Hbuyer. apply String.eqb_refl. }
  unfold OrderCard.handleCancelOrder, OrderCard.canBeCancelled. simpl.
  rewrite Hstatus. simpl. auto.
Qed.

Lemma placed_order_cannot_be_cancelled_yet_witness :
  exists order,
    In order
       [OrderQueries.mkBuyerOrder
          "order-0001" 20000
          [OrderQueries.mkBuyerOrderItem "Woven basket" 2 500 "" "p1"]
          1150 pending (Some "pending") "cod" OrderQueries.empty_address None None] /\
    OrderQueries.order_id order = "order-0001" /\
    OrderQueries.order_status order = pending /\
    OrderCard.canBeCancelled (OrderQueries.card_of order) = false /\
    forall update_error,
      OrderCard.handleCancelOrder
        Sample.env update_error
        (Checkout.handleSubmit Sample.env 20000 (Sample.world 10) Sample.checkout).1.1
        (OrderQueries.card_of order)
      = ((Checkout.handleSubmit Sample.env 20000 (Sample.world 10) Sample.checkout).1.1,
         OrderCard.ToastError "Only orders in processing status can be cancelled").
Proof.
  apply (placed_order_cannot_be_cancelled_yet
           Sample.env
           (OrderQueries.mkAccount None None None (fun _ => None))
           20000 (Sample.world 10) Sample.checkout
           (Checkout.handleSubmit Sample.env 20000 (Sample.world 10)
                                  Sample.checkout).1.1
           [] "Order placed successfully!" "order-0001").
  - left. vm_compute. reflexivity.
  - vm_compute. reflexivity.
Defined.
